(** * Voice translation relay: session registry, utterance gate, translation,
      synthesis cache and streaming pipeline

    A shallow embedding of the server side of the voice-translation relay
    (src/server/services/sessionManager.js, streamingTranslationPipeline.js,
    streamingTranscriptionService.js, index.js and the processor, translator
    and synthesis services) together with the properties the specification
    states about them.

    Conventions of the embedding.
    - A JavaScript [Map] is an insertion-ordered association list ([JsMap]):
      iteration order is observable in the source ([find] over
      [users.values()], the loops over [activeSessions.entries()] and
      [requestCache.entries()]).
    - Objects that the source shares by reference (the user objects of the
      session manager) live in a heap and are named by references.
    - [Date.now()], [new Date()] and [uuidv4()] are inputs of the operation
      that calls them.
    - [socket.emit] is recorded in a trace of [Emit]s.
    - Text is a [string] of bytes read as ASCII (keyword tables are kept in
      UTF-8); [trim] and [toLowerCase] act on the ASCII range. *)

From Stdlib Require Import ZArith QArith Lqa Floats Uint63 String Ascii DecimalString List Bool Lia.
From stdpp Require Import base option list strings.
Import ListNotations.

Set Warnings "-inexact-float".

Close Scope Q_scope.
Close Scope Z_scope.
Open Scope string_scope.
Open Scope list_scope.

(** ** JavaScript [Map]: insertion-ordered, unique keys *)

Module JsMap.
Section Defs.
Context {V : Type}.

Definition t := list (string * V).

Definition empty : t := [].

Fixpoint get (m : t) (k : string) : option V :=
  match m with
  | [] => None
  | (k', v) :: m' => if String.eqb k' k then Some v else get m' k
  end.

Definition has (m : t) (k : string) : bool :=
  match get m k with Some _ => true | None => false end.

(** [set] on a present key replaces the value in place (the key keeps its
    position in iteration order); a new key goes to the end. *)
Fixpoint set (m : t) (k : string) (v : V) : t :=
  match m with
  | [] => [(k, v)]
  | (k', v') :: m' =>
      if String.eqb k' k then (k, v) :: m' else (k', v') :: set m' k v
  end.

Fixpoint delete (m : t) (k : string) : t :=
  match m with
  | [] => []
  | (k', v') :: m' =>
      if String.eqb k' k then delete m' k else (k', v') :: delete m' k
  end.

Definition keys (m : t) : list string := map fst m.
Definition values (m : t) : list V := map snd m.
Definition entries (m : t) : list (string * V) := m.
Definition size (m : t) : nat := length m.
End Defs.
Arguments t : clear implicits.
End JsMap.

(** ** Transport: sockets and the messages emitted on them *)

Module Transport.
(** A Socket.IO socket, named by its [id]. *)
Definition Socket := string.

Inductive Event :=
| partner_disconnected (message : string) (reason : option string)
| waiting_for_partner (role : string)
| live_transcription (text : string) (isPartial : bool)
| live_translation (originalText translatedText speaker : string)
| synthesized_audio (audioData text : string) (isFinal : bool)
| latency_stats (translationTime totalLatency : Z)
| pipeline_error (details : string)
| transcription_error (error : string)
| synthesis_error (error : string)
| session_joined (sessionId role language : string)
| session_ready (partnerLanguage partnerRole : string)
| streaming_error (message : string)
| error (message : string).

Record Emit := mkEmit { to : Socket; event : Event }.

Definition is_partner_disconnected (e : Event) : bool :=
  match e with partner_disconnected _ _ => true | _ => false end.

Definition is_synthesized_audio (e : Event) : bool :=
  match e with synthesized_audio _ _ _ => true | _ => false end.
End Transport.
Import Transport.

(** A call either returns a value or throws. *)
Inductive Result (A : Type) :=
| Ok (a : A)
| Throw (message : string).
Arguments Ok {A} a.
Arguments Throw {A} message.

(** The double quote, for messages that contain one. *)
Definition dquote : string := String (ascii_of_nat 34) EmptyString.

(** ** Session manager (sessionManager.js) *)

Module SessionManager.

(** A reference to a user object: its index in the heap. *)
Abbreviation ref := nat (only parsing).

Record User := mkUser {
  socketId : string;
  role : string;
  language : string;
  voiceId : string;
  socket : option Socket;
  joinedAt : Z;
  sessionId : option string
}.

Inductive Status := pending | active | ended.

Record Stats := mkStats {
  messagesExchanged : nat;
  totalLatency : Z;
  averageLatency : Z;
  errors : nat
}.

Record Session := mkSession {
  id : string;
  doctor : option ref;
  patient : option ref;
  createdAt : Z;
  status : Status;
  endedAt : option Z;
  stats : Stats
}.

Record t := mk {
  sessions : JsMap.t Session;
  users : JsMap.t ref;
  waitingDoctors : list ref;
  waitingPatients : list ref;
  heap : list User
}.

Definition init : t := mk JsMap.empty JsMap.empty [] [] [].

Record UserData := mkUserData {
  d_role : string;
  d_language : string;
  d_voiceId : string;
  d_socket : option Socket
}.

(** Truthiness of a nullable string: [null] and the empty string are falsy. *)
Definition truthy (o : option string) : bool :=
  match o with
  | Some s => negb (String.eqb s EmptyString)
  | None => false
  end.

Definition status_eqb (a b : Status) : bool :=
  match a, b with
  | pending, pending | active, active | ended, ended => true
  | _, _ => false
  end.

(** Field updates on a heap object. *)
Definition set_socket (sid : string) (sock : option Socket) (u : User) : User :=
  mkUser sid (role u) (language u) (voiceId u) sock (joinedAt u) (sessionId u).

Definition set_sessionId (s : option string) (u : User) : User :=
  mkUser (socketId u) (role u) (language u) (voiceId u) (socket u) (joinedAt u) s.

Definition update (h : list User) (r : ref) (f : User -> User) : list User :=
  match h !! r with
  | Some u => <[r := f u]> h
  | None => h
  end.

Definition with_heap (st : t) (h : list User) : t :=
  mk (sessions st) (users st) (waitingDoctors st) (waitingPatients st) h.
Definition with_users (st : t) (us : JsMap.t ref) : t :=
  mk (sessions st) us (waitingDoctors st) (waitingPatients st) (heap st).
Definition with_sessions (st : t) (ss : JsMap.t Session) : t :=
  mk ss (users st) (waitingDoctors st) (waitingPatients st) (heap st).
Definition with_waitingDoctors (st : t) (l : list ref) : t :=
  mk (sessions st) (users st) l (waitingPatients st) (heap st).
Definition with_waitingPatients (st : t) (l : list ref) : t :=
  mk (sessions st) (users st) (waitingDoctors st) l (heap st).

(** [u.role === role && u.language === language && u.voiceId === voiceId] *)
Definition sameTriple (d : UserData) (u : User) : bool :=
  String.eqb (role u) (d_role d) && String.eqb (language u) (d_language d)
  && String.eqb (voiceId u) (d_voiceId d).

Definition userMatches (h : list User) (d : UserData) (r : ref) : bool :=
  match h !! r with
  | Some u => sameTriple d u
  | None => false
  end.

(** [Array.from(this.users.values()).find(...)] *)
Definition existingUser (st : t) (d : UserData) : option ref :=
  List.find (userMatches (heap st) d) (JsMap.values (users st)).

(** The slot test of the reconnect branch:
    [session.doctor && session.doctor.socketId === existingUser.socketId]. *)
Definition slotHasSocketId (h : list User) (slot : option ref) (sid : string) : bool :=
  match slot with
  | Some r => match h !! r with
              | Some u => String.eqb (socketId u) sid
              | None => false
              end
  | None => false
  end.

Definition resocketSlot (h : list User) (slot : option ref) (cur : string)
    (sid : string) (sock : option Socket) : list User :=
  if slotHasSocketId h slot cur then
    match slot with
    | Some r => update h r (set_socket sid sock)
    | None => h
    end
  else h.

(** Lines 14-45 of [addUser]: the reconnection check.  Returns the state
    after the branch and the session returned from inside it, if any.  The
    assignment to [existingUser.socketId] precedes
    [this.users.delete(existingUser.socketId)], so the key that is deleted
    is the new socket id. *)
Definition reconnect (st : t) (sid : string) (d : UserData) : t * option Session :=
  match existingUser st d with
  | None => (st, None)
  | Some r =>
      match heap st !! r with
      | None => (st, None)
      | Some u =>
          if truthy (sessionId u) then
            let u1 := set_socket sid (d_socket d) u in
            let h1 := <[r := u1]> (heap st) in
            let cur := socketId u1 in  (* read after the assignment *)
            let us1 := JsMap.set (JsMap.delete (users st) cur) sid r in
            let st1 := with_users (with_heap st h1) us1 in
            match sessionId u with
            | None => (st1, None)
            | Some sess =>
                match JsMap.get (sessions st1) sess with
                | None => (st1, None)
                | Some s =>
                    let h2 := resocketSlot h1 (doctor s) cur sid (d_socket d) in
                    let h3 := resocketSlot h2 (patient s) cur sid (d_socket d) in
                    (with_heap st1 h3, Some s)
                end
            end
          else (st, None)
      end
  end.

Definition zeroStats : Stats := mkStats 0 0%Z 0%Z 0.

(** [createSession(doctor, patient)] *)
Definition createSession (st : t) (doc pat : ref) (uuid : string) (now : Z) : t * Session :=
  let s := mkSession uuid (Some doc) (Some pat) now active None zeroStats in
  let h1 := update (heap st) doc (set_sessionId (Some uuid)) in
  let h2 := update h1 pat (set_sessionId (Some uuid)) in
  (with_sessions (with_heap st h2) (JsMap.set (sessions st) uuid s), s).

(** [createPendingSession(user)] *)
Definition createPendingSession (st : t) (r : ref) (uuid : string) (now : Z) : t * Session :=
  let urole := match heap st !! r with Some u => role u | None => EmptyString end in
  let s := mkSession uuid
             (if String.eqb urole "doctor" then Some r else None)
             (if String.eqb urole "patient" then Some r else None)
             now pending None zeroStats in
  (with_sessions st (JsMap.set (sessions st) uuid s), s).

(** [list.findIndex(p => p.language !== language)] *)
Definition languageDiffers (h : list User) (lang : string) (r : ref) : bool :=
  match h !! r with
  | Some u => negb (String.eqb (language u) lang)
  | None => false
  end.

Fixpoint findIndex {A} (p : A -> bool) (l : list A) : option nat :=
  match l with
  | [] => None
  | x :: l' => if p x then Some 0 else option_map S (findIndex p l')
  end.

(** [list.splice(i, 1)]: the list without its [i]-th element. *)
Definition splice1 {A} (l : list A) (i : nat) : list A :=
  firstn i l ++ skipn (S i) l.

(** Lines 47-104 of [addUser]: a new user object is created, stored and
    matched. *)
Definition joinFresh (st : t) (sid : string) (d : UserData) (uuid : string) (now : Z)
    : t * Result Session :=
  let user := mkUser sid (d_role d) (d_language d) (d_voiceId d) (d_socket d) now None in
  let r := length (heap st) in
  let st1 := with_users (with_heap st (heap st ++ [user])) (JsMap.set (users st) sid r) in
  let finish (p : t * Session) : t * Result Session :=
    let '(st2, s) := p in
    (with_heap st2 (update (heap st2) r (set_sessionId (Some (id s)))), Ok s) in
  if String.eqb (d_role d) "doctor" then
    match findIndex (languageDiffers (heap st1) (d_language d)) (waitingPatients st1) with
    | Some i =>
        match waitingPatients st1 !! i with
        | Some pat =>
            finish (createSession
                      (with_waitingPatients st1 (splice1 (waitingPatients st1) i))
                      r pat uuid now)
        | None => (st1, Throw "TypeError")
        end
    | None =>
        finish (createPendingSession
                  (with_waitingDoctors st1 (waitingDoctors st1 ++ [r])) r uuid now)
    end
  else if String.eqb (d_role d) "patient" then
    match findIndex (languageDiffers (heap st1) (d_language d)) (waitingDoctors st1) with
    | Some i =>
        match waitingDoctors st1 !! i with
        | Some doc =>
            finish (createSession
                      (with_waitingDoctors st1 (splice1 (waitingDoctors st1) i))
                      doc r uuid now)
        | None => (st1, Throw "TypeError")
        end
    | None =>
        finish (createPendingSession
                  (with_waitingPatients st1 (waitingPatients st1 ++ [r])) r uuid now)
    end
  else (st1, Throw ("Invalid role. Must be " ++ dquote ++ "doctor" ++ dquote
                    ++ " or " ++ dquote ++ "patient" ++ dquote)).

(** [addUser(socketId, userData)] *)
Definition addUser (st : t) (sid : string) (d : UserData) (uuid : string) (now : Z)
    : t * Result Session :=
  match reconnect st sid d with
  | (st1, Some s) => (st1, Ok s)
  | (st1, None) => joinFresh st1 sid d uuid now
  end.

(** [removeUser(socketId)].  The last [emit] of the active branch is not
    guarded: a partner without a socket makes it throw, and the final
    [users.delete] is then not reached. *)
Definition socketIdDiffers (h : list User) (sid : string) (r : ref) : bool :=
  match h !! r with
  | Some u => negb (String.eqb (socketId u) sid)
  | None => true
  end.

Definition otherSlot (u : User) (s : Session) : option ref :=
  if String.eqb (role u) "doctor" then patient s else doctor s.

Definition end_session (s : Session) (now : Z) : Session :=
  mkSession (id s) (doctor s) (patient s) (createdAt s) ended (Some now) (stats s).

Definition removeUser (st : t) (sid : string) (now : Z)
    : t * list Emit * Result (option ref) :=
  match JsMap.get (users st) sid with
  | None => (st, [], Ok None)
  | Some r =>
      match heap st !! r with
      | None => (st, [], Throw "TypeError")
      | Some user =>
          let st1 :=
            mk (sessions st) (users st)
               (List.filter (socketIdDiffers (heap st) sid) (waitingDoctors st))
               (List.filter (socketIdDiffers (heap st) sid) (waitingPatients st))
               (heap st) in
          let finish (st2 : t) (out : list Emit) :=
            (with_users st2 (JsMap.delete (users st2) sid), out, Ok (Some r)) in
          if truthy (sessionId user) then
            match sessionId user with
            | None => finish st1 []
            | Some sess =>
                match JsMap.get (sessions st1) sess with
                | None => finish st1 []
                | Some s =>
                    match status s with
                    | pending => finish (with_sessions st1 (JsMap.delete (sessions st1) sess)) []
                    | ended => finish st1 []
                    | active =>
                        let other := otherSlot user s in
                        let otherUser := other ≫= (fun o => heap st1 !! o) in
                        let out1 :=
                          match otherUser with
                          | Some ou =>
                              match socket ou with
                              | Some sock =>
                                  [mkEmit sock (partner_disconnected
                                     ("The " ++ role user ++ " has disconnected") None)]
                              | None => []
                              end
                          | None => []
                          end in
                        let st2 := with_sessions st1 (JsMap.set (sessions st1) sess (end_session s now)) in
                        match other, otherUser with
                        | Some o, Some ou =>
                            let st3 := with_heap st2 (update (heap st2) o (set_sessionId None)) in
                            let st4 :=
                              if String.eqb (role ou) "doctor"
                              then with_waitingDoctors st3 (waitingDoctors st3 ++ [o])
                              else with_waitingPatients st3 (waitingPatients st3 ++ [o]) in
                            match socket ou with
                            | Some sock =>
                                finish st4
                                  (out1 ++ [mkEmit sock (waiting_for_partner
                                     (if String.eqb (role ou) "doctor" then "patient" else "doctor"))])
                            | None => (st4, out1, Throw "TypeError")
                            end
                        | _, _ => finish st2 out1
                        end
                    end
                end
            end
          else finish st1 []
      end
  end.

(** [getUser(socketId)] *)
Definition getUser (st : t) (sid : string) : option User :=
  JsMap.get (users st) sid ≫= (fun r => heap st !! r).

(** [getSession(sessionId)] *)
Definition getSession (st : t) (sess : string) : option Session :=
  JsMap.get (sessions st) sess.

(** [getPartnerInfo(socketId)]: the partner of a user in an active session. *)
Definition getPartnerInfo (st : t) (sid : string) : option User :=
  match getUser st sid with
  | None => None
  | Some user =>
      if truthy (sessionId user) then
        match sessionId user ≫= getSession st with
        | None => None
        | Some s =>
            if status_eqb (status s) active
            then otherSlot user s ≫= (fun o => heap st !! o)
            else None
        end
      else None
  end.

(** *** Vocabulary of the pairing rule *)

Definition waitingOwn (rl : string) (st : t) : list ref :=
  if String.eqb rl "doctor" then waitingDoctors st else waitingPatients st.

Definition waitingOpposite (rl : string) (st : t) : list ref :=
  if String.eqb rl "doctor" then waitingPatients st else waitingDoctors st.

Definition ownSlot (rl : string) (s : Session) : option ref :=
  if String.eqb rl "doctor" then doctor s else patient s.

Definition oppositeSlot (rl : string) (s : Session) : option ref :=
  if String.eqb rl "doctor" then patient s else doctor s.

(** [w], at index [i] of the queue [l], is the first waiter whose language
    is not [lang]. *)
Definition firstDiffering (st : t) (lang : string) (l : list ref) (i : nat) (w : ref) : Prop :=
  l !! i = Some w
  /\ (exists u, heap st !! w = Some u /\ language u <> lang)
  /\ (forall j w' u', j < i -> l !! j = Some w' -> heap st !! w' = Some u' ->
                      language u' = lang).

(** Every waiter of the queue [l] speaks [lang]. *)
Definition allSame (st : t) (lang : string) (l : list ref) : Prop :=
  forall w u, In w l -> heap st !! w = Some u -> language u = lang.

End SessionManager.

(** ** JavaScript strings

    A text is held as its UTF-8 bytes.  The operations that depend on the
    characters ([trim], [toLowerCase], [length], the class [\s]) read the
    bytes as Unicode code points; an ill-formed byte reads as U+FFFD.  The
    case tables are those of Unicode 14.0. *)

Module Js.

Definition chars (s : string) : list ascii := list_ascii_of_string s.
Definition str (l : list ascii) : string := string_of_list_ascii l.

(** *** Code points *)

Definition continuation (b : N) : bool := ((128 <=? b) && (b <? 192))%N.

Fixpoint decode (l : list N) : list N :=
  match l with
  | [] => []
  | b0 :: r0 =>
      if (b0 <? 128)%N then b0 :: decode r0
      else
        match r0 with
        | [] => [65533%N]
        | b1 :: r1 =>
            if ((194 <=? b0) && (b0 <? 224))%N && continuation b1 then
              ((b0 - 192) * 64 + (b1 - 128))%N :: decode r1
            else
              match r1 with
              | [] => 65533%N :: decode r0
              | b2 :: r2 =>
                  let p3 := ((b0 - 224) * 4096 + (b1 - 128) * 64 + (b2 - 128))%N in
                  if ((224 <=? b0) && (b0 <? 240))%N && continuation b1 && continuation b2
                     && (2048 <=? p3)%N && negb ((55296 <=? p3) && (p3 <=? 57343))%N
                  then p3 :: decode r2
                  else
                    match r2 with
                    | [] => 65533%N :: decode r0
                    | b3 :: r3 =>
                        let p4 := ((b0 - 240) * 262144 + (b1 - 128) * 4096
                                   + (b2 - 128) * 64 + (b3 - 128))%N in
                        if ((240 <=? b0) && (b0 <? 245))%N && continuation b1
                           && continuation b2 && continuation b3
                           && (65536 <=? p4)%N && (p4 <=? 1114111)%N
                        then p4 :: decode r3
                        else 65533%N :: decode r0
                    end
              end
        end
  end.

Definition encodePoint (p : N) : list N :=
  if (p <? 128)%N then [p]
  else if (p <? 2048)%N then [192 + p / 64; 128 + p mod 64]%N
  else if (p <? 65536)%N then [224 + p / 4096; 128 + (p / 64) mod 64; 128 + p mod 64]%N
  else [240 + p / 262144; 128 + (p / 4096) mod 64; 128 + (p / 64) mod 64; 128 + p mod 64]%N.

(** The code points of a text, and the text of a list of code points. *)
Definition points (s : string) : list N := decode (map N_of_ascii (chars s)).
Definition ofPoints (l : list N) : string :=
  str (map ascii_of_N (flat_map encodePoint l)).

(** [s.length]: the number of UTF-16 code units. *)
Definition length (s : string) : nat :=
  list_sum (map (fun p => if (p <? 65536)%N then 1 else 2) (points s)).

(** White space of [trim] and of the regular-expression class [\s]:
    WhiteSpace and LineTerminator of the language. *)
Definition isSpace (p : N) : bool :=
  ((p =? 32) || ((9 <=? p) && (p <=? 13)) || (p =? 160) || (p =? 5760)
   || ((8192 <=? p) && (p <=? 8202)) || (p =? 8232) || (p =? 8233) || (p =? 8239)
   || (p =? 8287) || (p =? 12288) || (p =? 65279))%N.

(** The regular-expression class [\w]: ASCII letters, digits and [_]. *)
Definition isWordChar (c : ascii) : bool :=
  let n := nat_of_ascii c in
  (((48 <=? n) && (n <=? 57)) || ((65 <=? n) && (n <=? 90))
   || ((97 <=? n) && (n <=? 122)) || (n =? 95))%nat.

Fixpoint dropWhile {A} (p : A -> bool) (l : list A) : list A :=
  match l with
  | [] => []
  | x :: l' => if p x then dropWhile p l' else l
  end.

Definition dropWhileEnd {A} (p : A -> bool) (l : list A) : list A :=
  rev (dropWhile p (rev l)).

(** [s.trim()] *)
Definition trim (s : string) : string :=
  ofPoints (dropWhileEnd isSpace (dropWhile isSpace (points s))).

(** *** Lower case *)

(** The simple lower-case mappings: the code points [lo], [lo + step],
    ..., [hi] map to [target], [target + step], ... *)
Definition lowerTable : list (N * N * N * N) :=
  [
   (65, 90, 97, 1); (192, 214, 224, 1); (216, 222, 248, 1); (256, 302, 257, 2);
   (306, 310, 307, 2); (313, 327, 314, 2); (330, 374, 331, 2); (376, 376, 255, 1);
   (377, 381, 378, 2); (385, 385, 595, 1); (386, 388, 387, 2); (390, 390, 596, 1);
   (391, 391, 392, 1); (393, 394, 598, 1); (395, 395, 396, 1); (398, 398, 477, 1);
   (399, 399, 601, 1); (400, 400, 603, 1); (401, 401, 402, 1); (403, 403, 608, 1);
   (404, 404, 611, 1); (406, 406, 617, 1); (407, 407, 616, 1); (408, 408, 409, 1);
   (412, 412, 623, 1); (413, 413, 626, 1); (415, 415, 629, 1); (416, 420, 417, 2);
   (422, 422, 640, 1); (423, 423, 424, 1); (425, 425, 643, 1); (428, 428, 429, 1);
   (430, 430, 648, 1); (431, 431, 432, 1); (433, 434, 650, 1); (435, 437, 436, 2);
   (439, 439, 658, 1); (440, 440, 441, 1); (444, 444, 445, 1); (452, 452, 454, 1);
   (453, 453, 454, 1); (455, 455, 457, 1); (456, 456, 457, 1); (458, 458, 460, 1);
   (459, 475, 460, 2); (478, 494, 479, 2); (497, 497, 499, 1); (498, 500, 499, 2);
   (502, 502, 405, 1); (503, 503, 447, 1); (504, 542, 505, 2); (544, 544, 414, 1);
   (546, 562, 547, 2); (570, 570, 11365, 1); (571, 571, 572, 1); (573, 573, 410, 1);
   (574, 574, 11366, 1); (577, 577, 578, 1); (579, 579, 384, 1); (580, 580, 649, 1);
   (581, 581, 652, 1); (582, 590, 583, 2); (880, 882, 881, 2); (886, 886, 887, 1);
   (895, 895, 1011, 1); (902, 902, 940, 1); (904, 906, 941, 1); (908, 908, 972, 1);
   (910, 911, 973, 1); (913, 929, 945, 1); (932, 939, 964, 1); (975, 975, 983, 1);
   (984, 1006, 985, 2); (1012, 1012, 952, 1); (1015, 1015, 1016, 1); (1017, 1017, 1010, 1);
   (1018, 1018, 1019, 1); (1021, 1023, 891, 1); (1024, 1039, 1104, 1); (1040, 1071, 1072, 1);
   (1120, 1152, 1121, 2); (1162, 1214, 1163, 2); (1216, 1216, 1231, 1);
   (1217, 1229, 1218, 2); (1232, 1326, 1233, 2); (1329, 1366, 1377, 1);
   (4256, 4293, 11520, 1); (4295, 4295, 11559, 1); (4301, 4301, 11565, 1);
   (5024, 5103, 43888, 1); (5104, 5109, 5112, 1); (7312, 7354, 4304, 1);
   (7357, 7359, 4349, 1); (7680, 7828, 7681, 2); (7838, 7838, 223, 1); (7840, 7934, 7841, 2);
   (7944, 7951, 7936, 1); (7960, 7965, 7952, 1); (7976, 7983, 7968, 1);
   (7992, 7999, 7984, 1); (8008, 8013, 8000, 1); (8025, 8031, 8017, 2);
   (8040, 8047, 8032, 1); (8072, 8079, 8064, 1); (8088, 8095, 8080, 1);
   (8104, 8111, 8096, 1); (8120, 8121, 8112, 1); (8122, 8123, 8048, 1);
   (8124, 8124, 8115, 1); (8136, 8139, 8050, 1); (8140, 8140, 8131, 1);
   (8152, 8153, 8144, 1); (8154, 8155, 8054, 1); (8168, 8169, 8160, 1);
   (8170, 8171, 8058, 1); (8172, 8172, 8165, 1); (8184, 8185, 8056, 1);
   (8186, 8187, 8060, 1); (8188, 8188, 8179, 1); (8486, 8486, 969, 1); (8490, 8490, 107, 1);
   (8491, 8491, 229, 1); (8498, 8498, 8526, 1); (8544, 8559, 8560, 1); (8579, 8579, 8580, 1);
   (9398, 9423, 9424, 1); (11264, 11311, 11312, 1); (11360, 11360, 11361, 1);
   (11362, 11362, 619, 1); (11363, 11363, 7549, 1); (11364, 11364, 637, 1);
   (11367, 11371, 11368, 2); (11373, 11373, 593, 1); (11374, 11374, 625, 1);
   (11375, 11375, 592, 1); (11376, 11376, 594, 1); (11378, 11378, 11379, 1);
   (11381, 11381, 11382, 1); (11390, 11391, 575, 1); (11392, 11490, 11393, 2);
   (11499, 11501, 11500, 2); (11506, 11506, 11507, 1); (42560, 42604, 42561, 2);
   (42624, 42650, 42625, 2); (42786, 42798, 42787, 2); (42802, 42862, 42803, 2);
   (42873, 42875, 42874, 2); (42877, 42877, 7545, 1); (42878, 42886, 42879, 2);
   (42891, 42891, 42892, 1); (42893, 42893, 613, 1); (42896, 42898, 42897, 2);
   (42902, 42920, 42903, 2); (42922, 42922, 614, 1); (42923, 42923, 604, 1);
   (42924, 42924, 609, 1); (42925, 42925, 620, 1); (42926, 42926, 618, 1);
   (42928, 42928, 670, 1); (42929, 42929, 647, 1); (42930, 42930, 669, 1);
   (42931, 42931, 43859, 1); (42932, 42946, 42933, 2); (42948, 42948, 42900, 1);
   (42949, 42949, 642, 1); (42950, 42950, 7566, 1); (42951, 42953, 42952, 2);
   (42960, 42960, 42961, 1); (42966, 42968, 42967, 2); (42997, 42997, 42998, 1);
   (65313, 65338, 65345, 1); (66560, 66599, 66600, 1); (66736, 66771, 66776, 1);
   (66928, 66938, 66967, 1); (66940, 66954, 66979, 1); (66956, 66962, 66995, 1);
   (66964, 66965, 67003, 1); (68736, 68786, 68800, 1); (71840, 71871, 71872, 1);
   (93760, 93791, 93792, 1); (125184, 125217, 125218, 1)
  ]%N.

(** Ranges of the code points with the property Case_Ignorable, and of
    those with the property Cased that are not Case_Ignorable. *)
Definition caseIgnorableTable : list (N * N) :=
  [
   (39, 39); (46, 46); (58, 58); (94, 94); (96, 96); (168, 168); (173, 173); (175, 175);
   (180, 180); (183, 184); (688, 879); (884, 885); (890, 890); (900, 901); (903, 903);
   (1155, 1161); (1369, 1369); (1375, 1375); (1425, 1469); (1471, 1471); (1473, 1474);
   (1476, 1477); (1479, 1479); (1524, 1524); (1536, 1541); (1552, 1562); (1564, 1564);
   (1600, 1600); (1611, 1631); (1648, 1648); (1750, 1757); (1759, 1768); (1770, 1773);
   (1807, 1807); (1809, 1809); (1840, 1866); (1958, 1968); (2027, 2037); (2042, 2042);
   (2045, 2045); (2070, 2093); (2137, 2139); (2184, 2184); (2192, 2193); (2200, 2207);
   (2249, 2306); (2362, 2362); (2364, 2364); (2369, 2376); (2381, 2381); (2385, 2391);
   (2402, 2403); (2417, 2417); (2433, 2433); (2492, 2492); (2497, 2500); (2509, 2509);
   (2530, 2531); (2558, 2558); (2561, 2562); (2620, 2620); (2625, 2626); (2631, 2632);
   (2635, 2637); (2641, 2641); (2672, 2673); (2677, 2677); (2689, 2690); (2748, 2748);
   (2753, 2757); (2759, 2760); (2765, 2765); (2786, 2787); (2810, 2815); (2817, 2817);
   (2876, 2876); (2879, 2879); (2881, 2884); (2893, 2893); (2901, 2902); (2914, 2915);
   (2946, 2946); (3008, 3008); (3021, 3021); (3072, 3072); (3076, 3076); (3132, 3132);
   (3134, 3136); (3142, 3144); (3146, 3149); (3157, 3158); (3170, 3171); (3201, 3201);
   (3260, 3260); (3263, 3263); (3270, 3270); (3276, 3277); (3298, 3299); (3328, 3329);
   (3387, 3388); (3393, 3396); (3405, 3405); (3426, 3427); (3457, 3457); (3530, 3530);
   (3538, 3540); (3542, 3542); (3633, 3633); (3636, 3642); (3654, 3662); (3761, 3761);
   (3764, 3772); (3782, 3782); (3784, 3789); (3864, 3865); (3893, 3893); (3895, 3895);
   (3897, 3897); (3953, 3966); (3968, 3972); (3974, 3975); (3981, 3991); (3993, 4028);
   (4038, 4038); (4141, 4144); (4146, 4151); (4153, 4154); (4157, 4158); (4184, 4185);
   (4190, 4192); (4209, 4212); (4226, 4226); (4229, 4230); (4237, 4237); (4253, 4253);
   (4348, 4348); (4957, 4959); (5906, 5908); (5938, 5939); (5970, 5971); (6002, 6003);
   (6068, 6069); (6071, 6077); (6086, 6086); (6089, 6099); (6103, 6103); (6109, 6109);
   (6155, 6159); (6211, 6211); (6277, 6278); (6313, 6313); (6432, 6434); (6439, 6440);
   (6450, 6450); (6457, 6459); (6679, 6680); (6683, 6683); (6742, 6742); (6744, 6750);
   (6752, 6752); (6754, 6754); (6757, 6764); (6771, 6780); (6783, 6783); (6823, 6823);
   (6832, 6862); (6912, 6915); (6964, 6964); (6966, 6970); (6972, 6972); (6978, 6978);
   (7019, 7027); (7040, 7041); (7074, 7077); (7080, 7081); (7083, 7085); (7142, 7142);
   (7144, 7145); (7149, 7149); (7151, 7153); (7212, 7219); (7222, 7223); (7288, 7293);
   (7376, 7378); (7380, 7392); (7394, 7400); (7405, 7405); (7412, 7412); (7416, 7417);
   (7468, 7530); (7544, 7544); (7579, 7679); (8125, 8125); (8127, 8129); (8141, 8143);
   (8157, 8159); (8173, 8175); (8189, 8190); (8203, 8207); (8216, 8217); (8228, 8228);
   (8231, 8231); (8234, 8238); (8288, 8292); (8294, 8303); (8305, 8305); (8319, 8319);
   (8336, 8348); (8400, 8432); (11388, 11389); (11503, 11505); (11631, 11631);
   (11647, 11647); (11744, 11775); (11823, 11823); (12293, 12293); (12330, 12333);
   (12337, 12341); (12347, 12347); (12441, 12446); (12540, 12542); (40981, 40981);
   (42232, 42237); (42508, 42508); (42607, 42610); (42612, 42621); (42623, 42623);
   (42652, 42655); (42736, 42737); (42752, 42785); (42864, 42864); (42888, 42890);
   (42994, 42996); (43000, 43001); (43010, 43010); (43014, 43014); (43019, 43019);
   (43045, 43046); (43052, 43052); (43204, 43205); (43232, 43249); (43263, 43263);
   (43302, 43309); (43335, 43345); (43392, 43394); (43443, 43443); (43446, 43449);
   (43452, 43453); (43471, 43471); (43493, 43494); (43561, 43566); (43569, 43570);
   (43573, 43574); (43587, 43587); (43596, 43596); (43632, 43632); (43644, 43644);
   (43696, 43696); (43698, 43700); (43703, 43704); (43710, 43711); (43713, 43713);
   (43741, 43741); (43756, 43757); (43763, 43764); (43766, 43766); (43867, 43871);
   (43881, 43883); (44005, 44005); (44008, 44008); (44013, 44013); (64286, 64286);
   (64434, 64450); (65024, 65039); (65043, 65043); (65056, 65071); (65106, 65106);
   (65109, 65109); (65279, 65279); (65287, 65287); (65294, 65294); (65306, 65306);
   (65342, 65342); (65344, 65344); (65392, 65392); (65438, 65439); (65507, 65507);
   (65529, 65531); (66045, 66045); (66272, 66272); (66422, 66426); (67456, 67461);
   (67463, 67504); (67506, 67514); (68097, 68099); (68101, 68102); (68108, 68111);
   (68152, 68154); (68159, 68159); (68325, 68326); (68900, 68903); (69291, 69292);
   (69446, 69456); (69506, 69509); (69633, 69633); (69688, 69702); (69744, 69744);
   (69747, 69748); (69759, 69761); (69811, 69814); (69817, 69818); (69821, 69821);
   (69826, 69826); (69837, 69837); (69888, 69890); (69927, 69931); (69933, 69940);
   (70003, 70003); (70016, 70017); (70070, 70078); (70089, 70092); (70095, 70095);
   (70191, 70193); (70196, 70196); (70198, 70199); (70206, 70206); (70367, 70367);
   (70371, 70378); (70400, 70401); (70459, 70460); (70464, 70464); (70502, 70508);
   (70512, 70516); (70712, 70719); (70722, 70724); (70726, 70726); (70750, 70750);
   (70835, 70840); (70842, 70842); (70847, 70848); (70850, 70851); (71090, 71093);
   (71100, 71101); (71103, 71104); (71132, 71133); (71219, 71226); (71229, 71229);
   (71231, 71232); (71339, 71339); (71341, 71341); (71344, 71349); (71351, 71351);
   (71453, 71455); (71458, 71461); (71463, 71467); (71727, 71735); (71737, 71738);
   (71995, 71996); (71998, 71998); (72003, 72003); (72148, 72151); (72154, 72155);
   (72160, 72160); (72193, 72202); (72243, 72248); (72251, 72254); (72263, 72263);
   (72273, 72278); (72281, 72283); (72330, 72342); (72344, 72345); (72752, 72758);
   (72760, 72765); (72767, 72767); (72850, 72871); (72874, 72880); (72882, 72883);
   (72885, 72886); (73009, 73014); (73018, 73018); (73020, 73021); (73023, 73029);
   (73031, 73031); (73104, 73105); (73109, 73109); (73111, 73111); (73459, 73460);
   (78896, 78904); (92912, 92916); (92976, 92982); (92992, 92995); (94031, 94031);
   (94095, 94111); (94176, 94177); (94179, 94180); (110576, 110579); (110581, 110587);
   (110589, 110590); (113821, 113822); (113824, 113827); (118528, 118573); (118576, 118598);
   (119143, 119145); (119155, 119170); (119173, 119179); (119210, 119213); (119362, 119364);
   (121344, 121398); (121403, 121452); (121461, 121461); (121476, 121476); (121499, 121503);
   (121505, 121519); (122880, 122886); (122888, 122904); (122907, 122913); (122915, 122916);
   (122918, 122922); (123184, 123197); (123566, 123566); (123628, 123631); (125136, 125142);
   (125252, 125259); (127995, 127999); (917505, 917505); (917536, 917631); (917760, 917999)
  ]%N.

Definition casedTable : list (N * N) :=
  [
   (65, 90); (97, 122); (170, 170); (181, 181); (186, 186); (192, 214); (216, 246);
   (248, 442); (444, 447); (452, 659); (661, 687); (880, 883); (886, 887); (891, 893);
   (895, 895); (902, 902); (904, 906); (908, 908); (910, 929); (931, 1013); (1015, 1153);
   (1162, 1327); (1329, 1366); (1376, 1416); (4256, 4293); (4295, 4295); (4301, 4301);
   (4304, 4346); (4349, 4351); (5024, 5109); (5112, 5117); (7296, 7304); (7312, 7354);
   (7357, 7359); (7424, 7467); (7531, 7543); (7545, 7578); (7680, 7957); (7960, 7965);
   (7968, 8005); (8008, 8013); (8016, 8023); (8025, 8025); (8027, 8027); (8029, 8029);
   (8031, 8061); (8064, 8116); (8118, 8124); (8126, 8126); (8130, 8132); (8134, 8140);
   (8144, 8147); (8150, 8155); (8160, 8172); (8178, 8180); (8182, 8188); (8450, 8450);
   (8455, 8455); (8458, 8467); (8469, 8469); (8473, 8477); (8484, 8484); (8486, 8486);
   (8488, 8488); (8490, 8493); (8495, 8500); (8505, 8505); (8508, 8511); (8517, 8521);
   (8526, 8526); (8544, 8575); (8579, 8580); (9398, 9449); (11264, 11387); (11390, 11492);
   (11499, 11502); (11506, 11507); (11520, 11557); (11559, 11559); (11565, 11565);
   (42560, 42605); (42624, 42651); (42786, 42863); (42865, 42887); (42891, 42894);
   (42896, 42954); (42960, 42961); (42963, 42963); (42965, 42969); (42997, 42998);
   (43002, 43002); (43824, 43866); (43872, 43880); (43888, 43967); (64256, 64262);
   (64275, 64279); (65313, 65338); (65345, 65370); (66560, 66639); (66736, 66771);
   (66776, 66811); (66928, 66938); (66940, 66954); (66956, 66962); (66964, 66965);
   (66967, 66977); (66979, 66993); (66995, 67001); (67003, 67004); (68736, 68786);
   (68800, 68850); (71840, 71903); (93760, 93823); (119808, 119892); (119894, 119964);
   (119966, 119967); (119970, 119970); (119973, 119974); (119977, 119980); (119982, 119993);
   (119995, 119995); (119997, 120003); (120005, 120069); (120071, 120074); (120077, 120084);
   (120086, 120092); (120094, 120121); (120123, 120126); (120128, 120132); (120134, 120134);
   (120138, 120144); (120146, 120485); (120488, 120512); (120514, 120538); (120540, 120570);
   (120572, 120596); (120598, 120628); (120630, 120654); (120656, 120686); (120688, 120712);
   (120714, 120744); (120746, 120770); (120772, 120779); (122624, 122633); (122635, 122654);
   (125184, 125251); (127280, 127305); (127312, 127337); (127344, 127369)
  ]%N.

Definition inRanges (tbl : list (N * N)) (p : N) : bool :=
  existsb (fun r => (fst r <=? p) && (p <=? snd r))%N tbl.

Definition caseIgnorable : N -> bool := inRanges caseIgnorableTable.
Definition casedLetter : N -> bool := inRanges casedTable.

Fixpoint lookupLower (tbl : list (N * N * N * N)) (p : N) : N :=
  match tbl with
  | [] => p
  | (lo, hi, target, step) :: tbl' =>
      if ((lo <=? p) && (p <=? hi) && ((p - lo) mod step =? 0))%N
      then (target + (p - lo))%N
      else lookupLower tbl' p
  end.

Definition lowerPoint (p : N) : N := lookupLower lowerTable p.

(** The context Final_Sigma: a cased letter before, case-ignorable
    characters skipped, and no cased letter after. *)
Definition finalSigma (before after : list N) : bool :=
  match dropWhile caseIgnorable before with
  | c :: _ =>
      casedLetter c
      && match dropWhile caseIgnorable after with
         | d :: _ => negb (casedLetter d)
         | [] => true
         end
  | [] => false
  end.

(** Lower case of the code points [l] that follow [before] (held in
    reverse): capital sigma by its context, the capital dotted I to an
    [i] with a combining dot, every other code point by the table. *)
Fixpoint lowerFrom (before l : list N) : list N :=
  match l with
  | [] => []
  | p :: rest =>
      (if (p =? 931)%N then [if finalSigma before rest then 962%N else 963%N]
       else if (p =? 304)%N then [105%N; 775%N]
       else [lowerPoint p])
      ++ lowerFrom (p :: before) rest
  end.

(** [s.toLowerCase()] *)
Definition toLowerCase (s : string) : string :=
  ofPoints (lowerFrom [] (points s)).

(** Case folding of a regular expression with the flag [i] and ASCII
    letters in its pattern: only the ASCII capitals are folded. *)
Definition lowerChar (c : ascii) : ascii :=
  let n := nat_of_ascii c in
  if ((65 <=? n) && (n <=? 90))%nat then ascii_of_nat (n + 32) else c.

Definition foldAscii (s : string) : string :=
  str (map lowerChar (chars s)).

(** [s.startsWith(p)] *)
Definition startsWith (s p : string) : bool := String.prefix p s.

(** [s.includes(sub)] *)
Fixpoint includes (s sub : string) : bool :=
  String.prefix sub s ||
  match s with
  | EmptyString => false
  | String _ s' => includes s' sub
  end.

(** [s.endsWith(p)] *)
Definition endsWith (s p : string) : bool :=
  String.prefix (str (rev (chars p))) (str (rev (chars s))).

(** [s.split(sep)] for a separator that is one maximal run of code
    points of class [p]: [/\s+/] with [p := isSpace]. *)
Fixpoint splitRuns (p : N -> bool) (l : list N) (cur : list N)
    (inSep : bool) : list string :=
  match l with
  | [] => [ofPoints (rev cur)]
  | c :: l' =>
      if p c then
        if inSep then splitRuns p l' cur true
        else ofPoints (rev cur) :: splitRuns p l' [] true
      else splitRuns p l' (c :: cur) false
  end.

(** [s.split(/\s+/)] *)
Definition splitWs (s : string) : list string :=
  splitRuns isSpace (points s) [] false.

Fixpoint splitOn (sep : ascii) (l : list ascii) (cur : list ascii) : list string :=
  match l with
  | [] => [str (rev cur)]
  | c :: l' =>
      if Ascii.eqb c sep then str (rev cur) :: splitOn sep l' []
      else splitOn sep l' (c :: cur)
  end.

(** [s.split(' ')] *)
Definition splitSpace (s : string) : list string :=
  splitOn " "%char (chars s) [].

(** The maximal runs of [\w] characters of a text, each with the rest of
    the text that follows it. *)
Fixpoint wordRuns (l : list ascii) (cur : list ascii) : list (string * list ascii) :=
  match l with
  | [] => match cur with [] => [] | _ => [(str (rev cur), [])] end
  | c :: l' =>
      if isWordChar c then wordRuns l' (c :: cur)
      else match cur with
           | [] => wordRuns l' []
           | _ => (str (rev cur), l) :: wordRuns l' []
           end
  end.

Definition lastChar (s : string) : option ascii := last (chars s).

(** [/[.!?]$/.test(s)] *)
Definition endsWithSentencePunct (s : string) : bool :=
  match lastChar s with
  | Some c => Ascii.eqb c "."%char || Ascii.eqb c "!"%char || Ascii.eqb c "?"%char
  | None => false
  end.

(** [s.replace(/[.,!?\s]+$/g, '')] *)
Definition isTrailingJunk (p : N) : bool :=
  ((p =? 46) || (p =? 44) || (p =? 33) || (p =? 63))%N || isSpace p.

Definition stripTrailingPunct (s : string) : string :=
  ofPoints (dropWhileEnd isTrailingJunk (points s)).

End Js.

(** ** Node buffers

    [Buffer.from(text, 'base64')]: the decoder reads each code unit of the
    text by its low byte, skips what is not a letter of the alphabet (the
    URL-safe letters [-] and [_] are read as [+] and [/]), stops at the
    first [=], and drops the bits of an incomplete last byte. *)

Module Buffer.

(** A buffer: its bytes. *)
Definition t := string.

Definition length (b : t) : nat := String.length b.

(** The UTF-16 code units of a text. *)
Definition units (s : string) : list N :=
  flat_map (fun p => if (p <? 65536)%N then [p]
                     else [55296 + (p - 65536) / 1024; 56320 + (p - 65536) mod 1024]%N)
           (Js.points s).

Definition unbase64 (c : N) : option N :=
  if ((65 <=? c) && (c <=? 90))%N then Some (c - 65)%N
  else if ((97 <=? c) && (c <=? 122))%N then Some (c - 71)%N
  else if ((48 <=? c) && (c <=? 57))%N then Some (c + 4)%N
  else if ((c =? 43) || (c =? 45))%N then Some 62%N
  else if ((c =? 47) || (c =? 95))%N then Some 63%N
  else None.

(** The 6-bit values of the letters before the first [=]. *)
Fixpoint sextets (l : list N) : list N :=
  match l with
  | [] => []
  | c :: rest =>
      if (c =? 61)%N then []
      else match unbase64 c with
           | Some v => v :: sextets rest
           | None => sextets rest
           end
  end.

Fixpoint bytesOf (l : list N) : list N :=
  match l with
  | a :: b :: c :: d :: rest =>
      (a * 4 + b / 16)%N :: ((b mod 16) * 16 + c / 4)%N :: ((c mod 4) * 64 + d)%N
      :: bytesOf rest
  | [a; b; c] => [a * 4 + b / 16; (b mod 16) * 16 + c / 4]%N
  | [a; b] => [a * 4 + b / 16]%N
  | _ => []
  end.

(** [Buffer.from(text, 'base64')] *)
Definition fromBase64 (text : string) : t :=
  Js.str (map ascii_of_N (bytesOf (sextets (map (fun u => u mod 256)%N (units text))))).

End Buffer.

(** ** JavaScript numbers

    The processor computes with IEEE-754 doubles.  Its definitions are
    written once over the operations below and read at two instances:
    [float] (binary64, what the program computes) and [Q] (the same
    formulas in exact arithmetic). *)

Class Number (num : Type) := {
  ofQ : Q -> num;          (* a decimal literal *)
  ofZ : Z -> num;          (* an integer value *)
  nadd : num -> num -> num;
  nsub : num -> num -> num;
  nmul : num -> num -> num;
  ndiv : num -> num -> num;
  nle : num -> num -> bool;
  nlt : num -> num -> bool;
  nmin : num -> num -> num;
  nmax : num -> num -> num;
  nfalsy : num -> bool     (* zero or NaN: the falsy numbers *)
}.

Definition ofNat {num} `{Number num} (n : nat) : num := ofZ (Z.of_nat n).
(** [a >= b] *)
Definition nge {num} `{Number num} (a b : num) : bool := nle b a.

Module F64.
Definition of_Z (z : Z) : float :=
  if (z <? 0)%Z then PrimFloat.opp (PrimFloat.of_uint63 (Uint63.of_Z (- z)))
  else PrimFloat.of_uint63 (Uint63.of_Z z).

(** The double nearest to a decimal literal: numerator and denominator
    are exact, the quotient is rounded once. *)
Definition of_Q (q : Q) : float :=
  PrimFloat.div (of_Z (Qnum q)) (of_Z (Zpos (Qden q))).

Definition is_neg_zero (a : float) : bool :=
  PrimFloat.eqb a 0%float && PrimFloat.ltb (PrimFloat.div 1%float a) 0%float.

(** [Math.min(a, b)] and [Math.max(a, b)] *)
Definition min (a b : float) : float :=
  if PrimFloat.is_nan a then a else if PrimFloat.is_nan b then b
  else if PrimFloat.ltb a b then a else if PrimFloat.ltb b a then b
  else if is_neg_zero a then a else b.

Definition max (a b : float) : float :=
  if PrimFloat.is_nan a then a else if PrimFloat.is_nan b then b
  else if PrimFloat.ltb a b then b else if PrimFloat.ltb b a then a
  else if is_neg_zero a then b else a.
End F64.

#[export] Instance Number_float : Number float := {|
  ofQ := F64.of_Q;
  ofZ := F64.of_Z;
  nadd := PrimFloat.add;
  nsub := PrimFloat.sub;
  nmul := PrimFloat.mul;
  ndiv := PrimFloat.div;
  nle := PrimFloat.leb;
  nlt := PrimFloat.ltb;
  nmin := F64.min;
  nmax := F64.max;
  nfalsy := fun a => PrimFloat.eqb a 0%float || PrimFloat.is_nan a
|}.

#[export] Instance Number_Q : Number Q := {|
  ofQ := fun q => q;
  ofZ := inject_Z;
  nadd := Qplus;
  nsub := Qminus;
  nmul := Qmult;
  ndiv := Qdiv;
  nle := Qle_bool;
  nlt := fun a b => negb (Qle_bool b a);
  nmin := fun a b => if Qle_bool a b then a else b;
  nmax := fun a b => if Qle_bool a b then b else a;
  nfalsy := fun a => Qeq_bool a 0%Q
|}.

(** ** Utterance gate (the professional conversation processor) *)

Module Gate.

(** Keyword tables of [detectMedicalTerms], [detectUrgency],
    [detectConversationMarkers] and [startsNewTopic]. *)
Definition medicalKeywords : list string :=
  ["pain"; "ache"; "hurt"; "symptom"; "medicine"; "medication"; "prescription";
   "doctor"; "nurse"; "hospital"; "clinic"; "appointment"; "diagnosis";
   "blood"; "pressure"; "heart"; "temperature"; "fever"; "nausea";
   "headache"; "stomach"; "chest"; "breathing"; "dizzy"; "tired";
   "ağrı"; "acı"; "belirti"; "ilaç"; "reçete"; "doktor"; "hemşire";
   "hastane"; "klinik"; "randevu"; "teşhis"; "kan"; "basınç"; "kalp";
   "ateş"; "mide"; "göğüs"; "nefes"; "baş ağrısı"; "yorgun"].

Definition urgencyKeywords : list string :=
  ["urgent"; "emergency"; "help"; "pain"; "severe"; "serious"; "immediately";
   "acil"; "yardım"; "ağrı"; "ciddi"; "hemen"; "şiddetli"].

Definition markers : list string :=
  ["so"; "well"; "now"; "then"; "okay"; "alright"; "actually";
   "şey"; "yani"; "şimdi"; "tamam"; "peki"; "aslında"].

Definition topicStarters : list string :=
  ["so"; "now"; "well"; "actually"; "by the way"; "şey"; "şimdi"; "aslında"].

Definition interrogatives : list string :=
  ["what"; "how"; "when"; "where"; "why"; "who"; "can"; "could"; "would";
   "should"; "do"; "does"; "did"; "is"; "are"; "was"; "were"].

Definition enVerbs : list string :=
  ["am"; "is"; "are"; "was"; "were"; "have"; "has"; "had"; "do"; "does";
   "did"; "will"; "would"; "could"; "should"; "can"; "may"; "might"; "must"].

Definition trSuffixes : list string :=
  ["yor"; "du"; "di"; "acak"; "ecek"; "ir"; "er"; "ar"; "ur"].

(** [keywords.filter(term => text.toLowerCase().includes(term.toLowerCase()))] *)
Definition detect (keywords : list string) (text : string) : list string :=
  List.filter (fun term => Js.includes (Js.toLowerCase text) (Js.toLowerCase term)) keywords.

Definition detectMedicalTerms := detect medicalKeywords.
Definition detectUrgency := detect urgencyKeywords.

(** [markers.filter(term => text.toLowerCase().startsWith(term.toLowerCase()))] *)
Definition detectConversationMarkers (text : string) : list string :=
  List.filter (fun term => Js.startsWith (Js.toLowerCase text) (Js.toLowerCase term)) markers.

(** [/^(what|how|...|were)/i.test(text)] *)
Definition startsWithInterrogative (text : string) : bool :=
  existsb (fun w => Js.startsWith (Js.foldAscii text) w) interrogatives.

(** A word followed by a boundary and preceded by [\b\w+]: the suffix of a
    maximal [\w] run that is longer than the suffix. *)
Definition runEndsWith (run suffix : string) : bool :=
  Js.endsWith (Js.foldAscii run) suffix
  && (String.length suffix <? String.length run)%nat.

(** The alternatives [muş], [miş], [mış] end in letters outside [\w]: the
    run ends with the ASCII part, the other letters follow it (the flag
    [i] lets [ş] match its capital; the dotless [ı] matches only itself),
    and the closing [\b] asks for a [\w] character right after them. *)
Definition runThenLetters (run : string) (rest : list ascii) (asciiPart : string)
    (tails : list string) : bool :=
  runEndsWith run asciiPart
  && existsb (fun tail =>
                String.prefix tail (Js.str rest)
                && match skipn (String.length tail) rest with
                   | c :: _ => Js.isWordChar c
                   | [] => false
                   end) tails.

(** [hasVerb(text, language)] *)
Definition hasVerb (text language : string) : bool :=
  let runs := Js.wordRuns (Js.chars text) [] in
  if String.eqb language "en" then
    (* /\b(am|is|...|must)\b/i *)
    existsb (fun r => existsb (String.eqb (Js.foldAscii (fst r))) enVerbs) runs
    (* /\b\w+ing\b|\b\w+ed\b/i *)
    || existsb (fun r => runEndsWith (fst r) "ing" || runEndsWith (fst r) "ed") runs
  else if String.eqb language "tr" then
    (* /\b\w+(yor|du|di|muş|miş|mış|acak|ecek|ir|er|ar|ur)\b/i *)
    existsb (fun r =>
               existsb (runEndsWith (fst r)) trSuffixes
               || runThenLetters (fst r) (snd r) "mu" ["ş"; "Ş"]
               || runThenLetters (fst r) (snd r) "mi" ["ş"; "Ş"]
               || runThenLetters (fst r) (snd r) "m" ["ış"; "ıŞ"]) runs
  else true.

Section WithNumber.
Context {num : Type} `{Number num}.

(** The numeric options of the constructor; the boolean feature flags of
    the source are never read. *)
Record Config := mkConfig {
  conversationalPauseThreshold : num;
  sentenceCompletionThreshold : num;
  thoughtCompletionThreshold : num;
  emergencyTimeout : num;
  shortMessageTimeout : num;
  minConfidenceThreshold : num;
  minWordsForProcessing : nat;
  minCharactersForProcessing : nat
}.

Definition defaultConfig : Config :=
  mkConfig (ofZ 750) (ofZ 1200) (ofZ 2000) (ofZ 4000) (ofZ 3000) (ofQ 0.8) 3 15.

Record PersonalTiming := mkTiming {
  shortPause : num;
  mediumPause : num;
  longPause : num
}.

Record Pattern := mkPattern {
  p_length : nat;
  p_confidence : num;
  p_completionScore : num;
  p_timestamp : Z
}.

Record Conversation := mkConversation {
  userId : string;
  language : string;
  role : string;
  avgSentenceLength : num;
  avgPauseLength : num;
  speechRate : num;
  currentSentence : string;
  sentenceStartTime : Z;
  lastProcessedText : string;
  lastProcessingTime : Z;
  conversationHistory : list string;
  confidenceHistory : list num;
  sentencePatterns : list Pattern;
  totalSentences : nat;
  personalTiming : PersonalTiming;
  medicalTermsUsed : list string;
  conversationTopic : string;
  urgencyLevel : string
}.

(** [initializeProfessionalConversation(userId, language, role)] builds
    this object and stores it. *)
Definition newConversation (cfg : Config) (uid lang rl : string) (now : Z) : Conversation :=
  let isDoctor := String.eqb rl "doctor" in
  mkConversation uid lang rl
    (if isDoctor then ofZ 12 else ofZ 8)
    (if isDoctor then ofZ 1000 else ofZ 800)
    (if isDoctor then ofZ 130 else ofZ 150)
    EmptyString now EmptyString 0%Z [] [] [] 0
    (mkTiming (conversationalPauseThreshold cfg) (sentenceCompletionThreshold cfg)
              (thoughtCompletionThreshold cfg))
    [] "general" "normal".

Record Signals := mkSignals {
  s_hasEndPunctuation : bool;
  s_isQuestion : bool;
  s_isStatement : bool;
  s_isExclamation : bool;
  s_hasCompleteStructure : bool;
  s_isCompleteThought : bool;
  s_isSubstantialLength : bool;
  s_isHighConfidence : bool;
  s_isTypicalLength : bool;
  s_medicalTerms : list string;
  s_urgencyIndicators : list string;
  s_conversationMarkers : list string;
  s_buildsOnPrevious : bool;
  s_startsNewTopic : bool;
  s_wordCount : nat;
  s_avgLength : num
}.

Definition nonEmpty {A} (l : list A) : bool :=
  match l with [] => false | _ => true end.

Definition addIf (b : bool) (q : Q) (score : num) : num :=
  if b then nadd score (ofQ q) else score.

(** [calculateProfessionalCompletionScore(signals)] *)
Definition calculateProfessionalCompletionScore (s : Signals) : num :=
  let score := ofZ 0 in
  let score := addIf (s_hasEndPunctuation s) 0.35 score in
  let score :=
    if s_isQuestion s then
      if (3 <=? s_wordCount s)%nat then nadd score (ofQ 0.4)
      else if (2 <=? s_wordCount s)%nat then nadd score (ofQ 0.2)
      else nadd score (ofQ 0.1)
    else score in
  let score := addIf (s_isStatement s) 0.3 score in
  let score := addIf (s_isExclamation s) 0.25 score in
  let score := addIf (s_hasCompleteStructure s) 0.25 score in
  let score := addIf (s_isCompleteThought s) 0.3 score in
  let score := addIf (s_isSubstantialLength s) 0.15 score in
  let score := addIf (s_isHighConfidence s) 0.1 score in
  let lengthRatio := ndiv (ofNat (s_wordCount s)) (s_avgLength s) in
  let score := addIf (nge lengthRatio (ofQ 0.8)) 0.1 score in
  let score := addIf (nge lengthRatio (ofQ 1.2)) 0.05 score in
  let score := addIf (nonEmpty (s_medicalTerms s)) 0.1 score in
  let score := addIf (nonEmpty (s_urgencyIndicators s)) 0.15 score in
  let score := addIf (nonEmpty (s_conversationMarkers s)) 0.05 score in
  let score := addIf (s_startsNewTopic s) 0.1 score in
  let score := if s_buildsOnPrevious s then nsub score (ofQ 0.1) else score in
  nmin score (ofZ 1).

Record Analysis := mkAnalysis {
  wordCount : nat;
  hasEndPunctuation : bool;
  isQuestion : bool;
  isStatement : bool;
  isExclamation : bool;
  hasCompleteStructure : bool;
  isCompleteThought : bool;
  isSubstantialLength : bool;
  isHighConfidence : bool;
  isTypicalLength : bool;
  completionScore : num;
  medicalTerms : list string;
  urgencyIndicators : list string;
  conversationMarkers : list string;
  buildsOnPrevious : bool;
  startsNewTopic : bool
}.

(** [text.trim().split(/\s+/).length] *)
Definition countWords (text : string) : nat :=
  length (Js.splitWs (Js.trim text)).

(** [isCompleteThought(text, conversation)] *)
Definition isCompleteThoughtOf (text : string) (c : Conversation) : bool :=
  let n := countWords text in
  (3 <=? n)%nat
  && (Js.includes text "." || Js.includes text "?" || Js.includes text "!"
      || nge (ofNat n) (nmul (avgSentenceLength c) (ofQ 0.8))).

(** [buildsOnPreviousSentence(text, conversation)] *)
Definition buildsOnPreviousSentence (text : string) (c : Conversation) : bool :=
  match last (conversationHistory c) with
  | None => false
  | Some lastSentence =>
      match Js.splitSpace (Js.toLowerCase lastSentence) with
      | first :: _ => Js.includes (Js.toLowerCase text) first
      | [] => false
      end
  end.

(** [startsNewTopic(text, conversation)] *)
Definition startsNewTopicOf (text : string) : bool :=
  existsb (fun starter => Js.startsWith (Js.toLowerCase text) (Js.toLowerCase starter))
          topicStarters.

(** [analyzeProfessionalSpeech(text, confidence, conversation)] *)
Definition analyzeProfessionalSpeech (cfg : Config) (text : string) (confidence : num)
    (c : Conversation) : Analysis :=
  let wc := countWords text in
  let endP := Js.endsWithSentencePunct (Js.trim text) in
  let question := Js.includes text "?" || startsWithInterrogative text in
  let statement := endP && negb question in
  let exclamation := Js.includes text "!" in
  let medical := detectMedicalTerms text in
  let urgency := detectUrgency text in
  let convMarkers := detectConversationMarkers text in
  let hasSubject := (2 <=? wc)%nat in
  let structure := hasSubject && hasVerb text (language c) in
  let thought := isCompleteThoughtOf text c in
  let substantial := (minWordsForProcessing cfg <=? wc)%nat in
  let highConf := nge confidence (minConfidenceThreshold cfg) in
  let typical := nge (ofNat wc) (nmul (avgSentenceLength c) (ofQ 0.6)) in
  let builds := buildsOnPreviousSentence text c in
  let newTopic := startsNewTopicOf text in
  let score :=
    calculateProfessionalCompletionScore
      (mkSignals endP question statement exclamation structure thought substantial
                 highConf typical medical urgency convMarkers builds newTopic wc
                 (avgSentenceLength c)) in
  mkAnalysis wc endP question statement exclamation structure thought substantial
             highConf typical score medical urgency convMarkers builds newTopic.

Record Recent := mkRecent { r_text : string; r_timestamp : Z }.

(** An entry of [activeProcessing]; [pe_timerLive] tells whether the
    [setTimeout] stored in it is still to fire. *)
Record Pending := mkPending {
  pe_text : string;
  pe_confidence : num;
  pe_analysis : Analysis;
  pe_waitTime : num;
  pe_timestamp : Z;
  pe_isShortMessage : bool;
  pe_timerLive : bool
}.

Record t := mk {
  config : Config;
  userConversations : JsMap.t Conversation;
  activeProcessing : JsMap.t Pending;
  recentlyProcessed : JsMap.t Recent
}.

Definition create (cfg : Config) : t := mk cfg JsMap.empty JsMap.empty JsMap.empty.

Definition with_conversations (st : t) (m : JsMap.t Conversation) : t :=
  mk (config st) m (activeProcessing st) (recentlyProcessed st).
Definition with_processing (st : t) (m : JsMap.t Pending) : t :=
  mk (config st) (userConversations st) m (recentlyProcessed st).
Definition with_recent (st : t) (m : JsMap.t Recent) : t :=
  mk (config st) (userConversations st) (activeProcessing st) m.

Definition initializeProfessionalConversation (st : t) (uid lang rl : string) (now : Z) : t :=
  with_conversations st
    (JsMap.set (userConversations st) uid (newConversation (config st) uid lang rl now)).

(** [isDuplicate(userId, text)] *)
Definition isDuplicate (st : t) (uid text : string) (now : Z) : bool :=
  match JsMap.get (recentlyProcessed st) uid with
  | None => false
  | Some recent => String.eqb (r_text recent) text && (now - r_timestamp recent <? 3000)%Z
  end.

(** [markAsProcessed(userId, text)] *)
Definition markAsProcessed (st : t) (uid text : string) (now : Z) : t :=
  with_recent st (JsMap.set (recentlyProcessed st) uid (mkRecent text now)).

(** [clearPendingProcessing(userId)] *)
Definition clearPendingProcessing (st : t) (uid : string) : t :=
  match JsMap.get (activeProcessing st) uid with
  | Some _ => with_processing st (JsMap.delete (activeProcessing st) uid)
  | None => st
  end.

(** The object returned by [shouldProcessProfessionally]. *)
Record Decision := mkDecision {
  immediate : bool;
  queue : bool;
  d_text : string;
  reason : string;
  useShortTimeout : bool
}.

(** [shouldProcessProfessionally(userId, text, analysis, isFinal)] *)
Definition shouldProcessProfessionally (st : t) (uid text : string) (a : Analysis)
    (isFinal : bool) (now : Z) : Decision :=
  if isDuplicate st uid text now then
    mkDecision false false text EmptyString false
  else if nonEmpty (urgencyIndicators a) then
    mkDecision true false text "urgency" false
  else if nge (completionScore a) (ofQ 0.8) && isHighConfidence a then
    mkDecision true false text "high_completion" false
  else if isQuestion a && nge (completionScore a) (ofQ 0.6) then
    mkDecision true false text "question" false
  else if (wordCount a <=? 2)%nat && (1 <=? wordCount a)%nat
          && negb (isDuplicate st uid text now) then
    mkDecision false true text "short_message_timeout" true
  else if isFinal && isSubstantialLength a && isHighConfidence a then
    mkDecision true false text "final_quality" false
  else if nonEmpty (medicalTerms a) && nge (completionScore a) (ofQ 0.6) then
    mkDecision true false text "medical" false
  else if isSubstantialLength a && nge (completionScore a) (ofQ 0.4) then
    mkDecision false true text "queue_timing" false
  else
    mkDecision false false text "build_sentence" false.

(** [combineSentenceContext(userId, text)] *)
Definition combineSentenceContext (st : t) (uid text : string) : string :=
  match JsMap.get (userConversations st) uid with
  | None => text
  | Some c =>
      if (Js.length text <? Js.length (currentSentence c))%nat
         && Js.includes (currentSentence c) (Js.trim text)
      then currentSentence c
      else text
  end.

Definition pushBounded {A} (l : list A) (x : A) (bound : nat) : list A :=
  let l' := l ++ [x] in
  if (bound <? length l')%nat then tl l' else l'.

(** The body of [updateProfessionalLearning] on the conversation object. *)
Definition learn (c : Conversation) (text : string) (confidence : num) (a : Analysis)
    (now : Z) : Conversation :=
  let words := countWords text in
  let avg := nadd (nmul (avgSentenceLength c) (ofQ 0.85)) (nmul (ofNat words) (ofQ 0.15)) in
  let used :=
    if nonEmpty (medicalTerms a) then medicalTermsUsed c ++ medicalTerms a
    else medicalTermsUsed c in
  let processingTime := (now - sentenceStartTime c)%Z in
  let timing := personalTiming c in
  let medium := nadd (nmul (mediumPause timing) (ofQ 0.8)) (nmul (ofZ processingTime) (ofQ 0.2)) in
  mkConversation (userId c) (language c) (role c)
    avg (avgPauseLength c) (speechRate c)
    (currentSentence c) (sentenceStartTime c) (lastProcessedText c) (lastProcessingTime c)
    (conversationHistory c)
    (pushBounded (confidenceHistory c) confidence 10)
    (pushBounded (sentencePatterns c) (mkPattern words confidence (completionScore a) now) 20)
    (S (totalSentences c))
    (mkTiming (shortPause timing) medium (longPause timing))
    used (conversationTopic c) (urgencyLevel c).

(** [updateProfessionalLearning(userId, text, confidence, analysis)] *)
Definition updateProfessionalLearning (st : t) (uid text : string) (confidence : num)
    (a : Analysis) (now : Z) : t :=
  match JsMap.get (userConversations st) uid with
  | None => st
  | Some c =>
      with_conversations st (JsMap.set (userConversations st) uid (learn c text confidence a now))
  end.

Definition resetSentence (c : Conversation) (now : Z) : Conversation :=
  mkConversation (userId c) (language c) (role c)
    (avgSentenceLength c) (avgPauseLength c) (speechRate c)
    EmptyString now (lastProcessedText c) (lastProcessingTime c)
    (conversationHistory c) (confidenceHistory c) (sentencePatterns c) (totalSentences c)
    (personalTiming c) (medicalTermsUsed c) (conversationTopic c) (urgencyLevel c).

Definition set_currentSentence (c : Conversation) (text : string) : Conversation :=
  mkConversation (userId c) (language c) (role c)
    (avgSentenceLength c) (avgPauseLength c) (speechRate c)
    text (sentenceStartTime c) (lastProcessedText c) (lastProcessingTime c)
    (conversationHistory c) (confidenceHistory c) (sentencePatterns c) (totalSentences c)
    (personalTiming c) (medicalTermsUsed c) (conversationTopic c) (urgencyLevel c).

Definition set_lastProcessingTime (c : Conversation) (ts : Z) : Conversation :=
  mkConversation (userId c) (language c) (role c)
    (avgSentenceLength c) (avgPauseLength c) (speechRate c)
    (currentSentence c) (sentenceStartTime c) (lastProcessedText c) ts
    (conversationHistory c) (confidenceHistory c) (sentencePatterns c) (totalSentences c)
    (personalTiming c) (medicalTermsUsed c) (conversationTopic c) (urgencyLevel c).

(** The event [professional_speech_ready]. *)
Record Ready := mkReady {
  rd_userId : string;
  rd_text : string;
  rd_confidence : num;
  rd_timestamp : Z
}.

(** [processImmediatelyProfessional(userId, text, confidence, analysis)].
    Without a conversation object the assignment to
    [conversation.currentSentence] throws after the text was marked, and
    nothing is emitted. *)
Definition processImmediatelyProfessional (st : t) (uid text : string) (confidence : num)
    (a : Analysis) (now : Z) : t * list Ready :=
  let finalText := combineSentenceContext st uid text in
  if isDuplicate st uid finalText now then (st, [])
  else
    let st1 := markAsProcessed st uid finalText now in
    let st2 := updateProfessionalLearning st1 uid finalText confidence a now in
    match JsMap.get (userConversations st2) uid with
    | None => (st2, [])
    | Some c =>
        let st3 := with_conversations st2
                     (JsMap.set (userConversations st2) uid (resetSentence c now)) in
        (clearPendingProcessing st3 uid, [mkReady uid finalText confidence now])
    end.

(** [determineProfessionalWaitTime(analysis, conversation)] *)
Definition determineProfessionalWaitTime (cfg : Config) (a : Analysis) (c : Conversation) : num :=
  let base := mediumPause (personalTiming c) in
  let base :=
    if nge (completionScore a) (ofQ 0.6) then nmul base (ofQ 0.6)
    else if nle (completionScore a) (ofQ 0.3) then nmul base (ofQ 1.4)
    else base in
  let base := if String.eqb (role c) "doctor" then nmul base (ofQ 1.1) else base in
  let base := if nonEmpty (medicalTerms a) then nmul base (ofQ 1.2) else base in
  nmax (ofZ 500) (nmin base (emergencyTimeout cfg)).

(** [queueForProfessionalProcessing(userId, text, confidence, analysis, options)]:
    the pending timer is replaced by a new one. *)
Definition queueForProfessionalProcessing (st : t) (uid text : string) (confidence : num)
    (a : Analysis) (short : bool) (now : Z) : t :=
  let st1 := clearPendingProcessing st uid in
  let waitTime :=
    if short then Some (shortMessageTimeout (config st1))
    else option_map (determineProfessionalWaitTime (config st1) a)
                    (JsMap.get (userConversations st1) uid) in
  match waitTime with
  | None => st1
  | Some w =>
      with_processing st1
        (JsMap.set (activeProcessing st1) uid (mkPending text confidence a w now short true))
  end.

(** [updateCurrentSentence(userId, text)] *)
Definition updateCurrentSentence (st : t) (uid text : string) : t :=
  match JsMap.get (userConversations st) uid with
  | None => st
  | Some c =>
      if String.eqb (currentSentence c) EmptyString
         || (Js.length (currentSentence c) <? Js.length text)%nat
      then with_conversations st
             (JsMap.set (userConversations st) uid (set_currentSentence c text))
      else st
  end.

Record TranscriptionData := mkData {
  t_text : string;
  t_confidence : num;
  t_isFinal : bool;
  t_timestamp : Z
}.

(** [processProfessionalTranscription(userId, transcriptionData)] *)
Definition processProfessionalTranscription (st : t) (uid : string) (data : TranscriptionData)
    (now : Z) : t * list Ready :=
  let text := t_text data in
  if (String.length (Js.trim text) =? 0)%nat then (st, [])
  else
    match JsMap.get (userConversations st) uid with
    | None => (st, [])
    | Some c =>
        let c1 := set_lastProcessingTime c (t_timestamp data) in
        let st1 := with_conversations st (JsMap.set (userConversations st) uid c1) in
        let a := analyzeProfessionalSpeech (config st1) text (t_confidence data) c1 in
        let d := shouldProcessProfessionally st1 uid text a (t_isFinal data) now in
        if immediate d then
          processImmediatelyProfessional st1 uid (d_text d) (t_confidence data) a now
        else if queue d then
          (queueForProfessionalProcessing st1 uid (d_text d) (t_confidence data) a
             (useShortTimeout d) now, [])
        else (updateCurrentSentence st1 uid text, [])
    end.

(** The callback of the timer stored in [activeProcessing]: the entry it
    finds is its own, so the test on the text passes. *)
Definition timerFires (st : t) (uid : string) (now : Z) : t * list Ready :=
  match JsMap.get (activeProcessing st) uid with
  | None => (st, [])
  | Some pe =>
      if pe_timerLive pe then
        let fired := mkPending (pe_text pe) (pe_confidence pe) (pe_analysis pe)
                       (pe_waitTime pe) (pe_timestamp pe) (pe_isShortMessage pe) false in
        let st1 := with_processing st (JsMap.set (activeProcessing st) uid fired) in
        let finalText := combineSentenceContext st1 uid (pe_text pe) in
        processImmediatelyProfessional st1 uid finalText (pe_confidence pe)
          (pe_analysis pe) now
      else (st, [])
  end.

(** [removeProfessionalConversation(userId)] *)
Definition removeProfessionalConversation (st : t) (uid : string) : t :=
  let st1 := clearPendingProcessing st uid in
  mk (config st1) (JsMap.delete (userConversations st1) uid) (activeProcessing st1)
     (JsMap.delete (recentlyProcessed st1) uid).

(** *** Vocabulary of the firing rule and of the gate's runs *)

(** The five conditions of immediate firing as the specification lists
    them, for a candidate with analysis [a]. *)
Definition claimedImmediate (a : Analysis) (confidence : num) (isFinal : bool) : Prop :=
  urgencyIndicators a <> []
  \/ (nge (completionScore a) (ofQ 0.8) = true /\ nge confidence (ofQ 0.8) = true)
  \/ (isQuestion a = true /\ nge (completionScore a) (ofQ 0.6) = true)
  \/ (isFinal = true /\ 3 <= wordCount a /\ nge confidence (ofQ 0.8) = true)
  \/ (medicalTerms a <> [] /\ nge (completionScore a) (ofQ 0.6) = true).

(** The same, with the domain-term condition restricted to candidates of
    at least three words. *)
Definition immediateRule (a : Analysis) (confidence : num) (isFinal : bool) : Prop :=
  urgencyIndicators a <> []
  \/ (nge (completionScore a) (ofQ 0.8) = true /\ nge confidence (ofQ 0.8) = true)
  \/ (isQuestion a = true /\ nge (completionScore a) (ofQ 0.6) = true)
  \/ (isFinal = true /\ 3 <= wordCount a /\ nge confidence (ofQ 0.8) = true)
  \/ (medicalTerms a <> [] /\ nge (completionScore a) (ofQ 0.6) = true
      /\ 3 <= wordCount a).

(** What happens to a processor: a conversation starts, a transcript
    arrives, a pending timer expires, a conversation is removed. *)
Inductive Event :=
| Initialize (uid lang rl : string) (now : Z)
| Transcription (uid : string) (data : TranscriptionData) (now : Z)
| TimerFires (uid : string) (now : Z)
| Remove (uid : string).

Definition step (st : t) (e : Event) : t :=
  match e with
  | Initialize uid lang rl now => initializeProfessionalConversation st uid lang rl now
  | Transcription uid data now => fst (processProfessionalTranscription st uid data now)
  | TimerFires uid now => fst (timerFires st uid now)
  | Remove uid => removeProfessionalConversation st uid
  end.

Definition run (st : t) (events : list Event) : t := fold_left step events st.

End WithNumber.
End Gate.

(** ** Machine translation client (TranslationService.translate) *)

Module Translation.

(** The request of [axios.post]: body fields and the [timeout] option. *)
Record Request := mkRequest {
  rq_text : string;
  source_lang : option string;
  target_lang : string;
  timeout : Z
}.

(** What the provider does with a request: a 2xx response with the
    [translations] array of its body (text and detected source language),
    an error response, no response at all, or a failure before sending. *)
Inductive Outcome :=
| Response (translations : option (list (string * string)))
| ErrorResponse (status : nat) (message : option string)
| NoResponse
| OtherError (message : string).

Record Translated := mkTranslated {
  translatedText : string;
  detectedLanguage : string;
  confidence : Z
}.

(** [mapLanguageForDeepL(language)] *)
Definition mapLanguageForDeepL (language : string) : string :=
  if String.eqb language "en" then "EN"
  else if String.eqb language "tr" then "TR"
  else if String.eqb language "auto" then "auto"
  else "EN".

Definition showNat (n : nat) : string := NilEmpty.string_of_uint (Nat.to_uint n).

Definition orUnknown (m : option string) : string :=
  match m with
  | Some s => if String.eqb s EmptyString then "Unknown error" else s
  | None => "Unknown error"
  end.

(** [translate(text, sourceLanguage, targetLanguage)].  [post n rq] is the
    outcome of the request [rq] when [n] requests were issued before it;
    the first component of the result lists the requests issued. *)
Definition translate (post : nat -> Request -> Outcome)
    (text sourceLanguage targetLanguage : string) : list Request * Result Translated :=
  if (String.length (Js.trim text) =? 0)%nat then
    ([], Ok (mkTranslated EmptyString sourceLanguage 0))
  else
    let sourceLang := mapLanguageForDeepL sourceLanguage in
    let targetLang := mapLanguageForDeepL targetLanguage in
    let rq := mkRequest text
                (if String.eqb sourceLang "auto" then None else Some sourceLang)
                targetLang 10000 in
    ([rq],
     match post 0 rq with
     | Response (Some ((translated, detected) :: _)) =>
         Ok (mkTranslated translated detected 1)
     | Response _ => Throw "No translation returned from DeepL"
     | ErrorResponse status message =>
         if (status =? 456)%nat then Throw "Translation quota exceeded"
         else if (status =? 403)%nat then Throw "DeepL API key invalid"
         else Throw ("DeepL API error: " ++ showNat status ++ " - " ++ orUnknown message)
     | NoResponse => Throw "DeepL API network error - no response received"
     | OtherError message => Throw message
     end).

End Translation.

(** ** Emotional profile: the fields the pipeline and the synthesis client
    read.  [intensity_toFixed1] is [intensity.toFixed(1)]. *)

Module Emotion.
Record Profile := mkProfile {
  primaryEmotion : string;
  intensity_toFixed1 : string;
  tonality : string
}.

(** [getDefaultEmotionalProfile()] *)
Definition default : Profile := mkProfile "neutral" "0.5" "neutral".
End Emotion.

(** ** Streaming synthesis client and its request cache *)

Module Synthesis.

Record StreamInfo := mkStream {
  s_userId : string;
  s_voiceId : string;
  s_targetLanguage : string;
  s_isActive : bool;
  s_lastActivity : Z;
  s_createdAt : Z
}.

Record CacheEntry := mkEntry {
  result : option string;   (* base64 audio, or null *)
  timestamp : Z
}.

Record t := mk {
  activeStreams : JsMap.t StreamInfo;
  requestCache : JsMap.t CacheEntry
}.

Definition create : t := mk JsMap.empty JsMap.empty.

(** What the provider does with one synthesis request: audio, an empty
    body, an error response (axios reports its status in the message) or
    no response at all (with the message axios gives). *)
Inductive Outcome :=
| Audio (base64 : string)
| EmptyBody
| Status (code : nat)
| Failure (message : string).

(** The loop of [synthesizeWithRetry]: attempts [attempt], [attempt+1], ...
    while [remaining] attempts are left.  Returns the number of requests
    issued and the result. *)
Fixpoint retryLoop (post : nat -> Outcome) (attempt remaining : nat)
    : nat * Result (option string) :=
  match remaining with
  | 0 => (0, Ok None)
  | S rest =>
      match post attempt with
      | Audio b => (1, Ok (Some b))
      | EmptyBody => (1, Ok None)
      | Status code =>
          if (code =? 429)%nat && negb (rest =? 0)%nat then
            let '(n, r) := retryLoop post (S attempt) rest in (S n, r)
          else (1, Throw ("Request failed with status code " ++ Translation.showNat code))
      | Failure message => (1, Throw message)
      end
  end.

Definition synthesizeWithRetry (post : nat -> Outcome) (maxRetries : nat) :=
  retryLoop post 1 maxRetries.

Definition emotionKey (profile : option Emotion.Profile) : string :=
  match profile with
  | Some p => Emotion.primaryEmotion p ++ "-" ++ Emotion.intensity_toFixed1 p
  | None => "neutral"
  end.

Definition baseTextKey (voiceId trimmedText language : string) : string :=
  voiceId ++ "-" ++ trimmedText ++ "-" ++ language.

Definition cacheKey (voiceId trimmedText language : string)
    (profile : option Emotion.Profile) : string :=
  baseTextKey voiceId trimmedText language ++ "-" ++ emotionKey profile.

(** The first entry, in insertion order, whose key starts with the base
    key and that is younger than 3 seconds. *)
Definition similarHit (cache : JsMap.t CacheEntry) (base : string) (now : Z)
    : option (string * CacheEntry) :=
  List.find (fun kv => Js.startsWith (fst kv) base && (now - timestamp (snd kv) <? 3000)%Z)
            (JsMap.entries cache).

(** The two cache checks at the head of [synthesizeChunk]. *)
Definition lookup (cache : JsMap.t CacheEntry) (voiceId trimmedText language : string)
    (profile : option Emotion.Profile) (now : Z) : option CacheEntry :=
  match JsMap.get cache (cacheKey voiceId trimmedText language profile) with
  | Some cached =>
      if (now - timestamp cached <? 5000)%Z then Some cached
      else option_map snd (similarHit cache (baseTextKey voiceId trimmedText language) now)
  | None => option_map snd (similarHit cache (baseTextKey voiceId trimmedText language) now)
  end.

(** [cleanCache()] *)
Definition cleanCache (cache : JsMap.t CacheEntry) (now : Z) : JsMap.t CacheEntry :=
  List.filter (fun kv => negb (10000 <? now - timestamp (snd kv))%Z) cache.

(** The end of [synthesizeChunk], when the provider has answered with
    [r]: the result is stored under the key of the call with the time
    [now] that the call read when it started, and [cleanCache] runs at
    the time [nowClean] of the answer. *)
Definition store (cache : JsMap.t CacheEntry) (voiceId trimmedText language : string)
    (profile : option Emotion.Profile) (r : option string) (now nowClean : Z)
    : JsMap.t CacheEntry :=
  cleanCache (JsMap.set cache (cacheKey voiceId trimmedText language profile) (mkEntry r now))
             nowClean.

(** [synthesizeChunk(voiceId, text, language, emotionalProfile)].  [now] is
    read on entry, [nowClean] by [cleanCache] after the provider answered.
    Returns the cache, the number of provider requests and the result.
    The call awaits the provider between [lookup] and [store]; this
    definition runs one call from its start to its end on the cache it
    found.  A call that starts while another is awaited sees the cache of
    that moment: [lookup] on it, and later [store] on the cache of the
    time of its own answer. *)
Definition synthesizeChunk (cache : JsMap.t CacheEntry) (post : nat -> Outcome)
    (voiceId text language : string) (profile : option Emotion.Profile)
    (now nowClean : Z) : JsMap.t CacheEntry * nat * Result (option string) :=
  let trimmedText := Js.trim text in
  match lookup cache voiceId trimmedText language profile now with
  | Some hit => (cache, 0, Ok (result hit))
  | None =>
      match synthesizeWithRetry post 3 with
      | (n, Ok r) => (store cache voiceId trimmedText language profile r now nowClean, n, Ok r)
      | (n, Throw e) => (cache, n, Throw e)
      end
  end.

(** [startStreamingSynthesis(userId, voiceId, targetLanguage, ...)] *)
Definition startStreamingSynthesis (st : t) (uid voiceId targetLanguage : string) (now : Z) : t :=
  mk (JsMap.set (JsMap.delete (activeStreams st) uid) uid
        (mkStream uid voiceId targetLanguage true now now))
     (requestCache st).

(** [stopStreamingSynthesis(userId)] *)
Definition stopStreamingSynthesis (st : t) (uid : string) : t :=
  mk (JsMap.delete (activeStreams st) uid) (requestCache st).

Definition touch (s : StreamInfo) (now : Z) : StreamInfo :=
  mkStream (s_userId s) (s_voiceId s) (s_targetLanguage s) (s_isActive s) now (s_createdAt s).

(** The argument of [onAudioChunk]. *)
Record AudioChunk := mkChunk {
  audioData : string;
  c_text : string;
  c_isFinal : bool;
  c_userId : string;
  c_timestamp : Z
}.

(** What [synthesizeText] did: its return value, the callbacks it made
    and the number of provider requests. *)
Record Report := mkReport {
  started : bool;
  onAudioChunk : option AudioChunk;
  onComplete : bool;
  onError : option string;
  requests : nat
}.

(** [synthesizeText(userId, text, isFinal, emotionalProfile)] *)
Definition synthesizeText (st : t) (post : nat -> Outcome) (uid text : string)
    (isFinal : bool) (profile : option Emotion.Profile) (now nowClean : Z) : t * Report :=
  match JsMap.get (activeStreams st) uid with
  | None => (st, mkReport false None false None 0)
  | Some stream =>
      if negb (s_isActive stream) then (st, mkReport false None false None 0)
      else
        let st1 := mk (JsMap.set (activeStreams st) uid (touch stream now)) (requestCache st) in
        let wordCount := length (Js.splitWs (Js.trim text)) in
        let shouldSynthesize :=
          isFinal || ((20 <=? Js.length text)%nat && (4 <=? wordCount)%nat) in
        if shouldSynthesize && negb (String.length (Js.trim text) =? 0)%nat then
          match synthesizeChunk (requestCache st1) post (s_voiceId stream) text
                  (s_targetLanguage stream) profile now nowClean with
          | (cache, n, Ok (Some audio)) =>
              if (String.length audio =? 0)%nat then
                (mk (activeStreams st1) cache, mkReport true None false None n)
              else
                (mk (activeStreams st1) cache,
                 mkReport true (Some (mkChunk audio text isFinal uid now)) isFinal None n)
          | (cache, n, Ok None) =>
              (mk (activeStreams st1) cache, mkReport true None false None n)
          | (cache, n, Throw e) =>
              (mk (activeStreams st1) cache, mkReport false None false (Some e) n)
          end
        else (st1, mkReport false None false None 0)
  end.

End Synthesis.

(** ** Streaming transcription service: the path of an audio frame *)

Module Transcription.

(** The payload of a [streaming-audio] message, as the client sent it:
    a text, the base64 form of the samples. *)
Definition Frame := string.

Inductive ReadyState := CONNECTING | OPEN | CLOSING | CLOSED.

Definition isOpen (r : ReadyState) : bool :=
  match r with OPEN => true | _ => false end.

(** A connection of the service's own map: the Deepgram WebSocket, or the
    REST fallback with its buffer of frames. *)
Inductive Mode :=
| WebSocketMode (ws : option ReadyState)
| RestApi (audioBuffer : list Frame).

Record Connection := mkConnection {
  c_language : string;
  c_isConnected : bool;
  c_mode : Mode;
  c_lastActivity : Z
}.

(** Connections of the three other providers. *)
Record GoogleConnection := mkGoogle {
  g_isConnected : bool;
  g_stream : bool;
  g_lastActivity : Z;
  g_totalAudioSent : nat
}.

Record AssemblyConnection := mkAssembly {
  a_isConnected : bool;
  a_ws : option ReadyState;
  a_lastActivity : Z
}.

Record WhisperConnection := mkWhisper {
  w_language : string;
  w_isConnected : bool;
  w_audioBuffer : list Frame;
  w_lastActivity : Z
}.

Record t := mk {
  activeConnections : JsMap.t Connection;
  google : JsMap.t GoogleConnection;
  assembly : JsMap.t AssemblyConnection;
  whisper : JsMap.t WhisperConnection
}.

Definition create : t := mk JsMap.empty JsMap.empty JsMap.empty JsMap.empty.

(** Where the samples went: the bytes written to a provider's stream
    ([Buffer.from(audioData, 'base64')]), or the bytes of a batch of
    buffered frames ([Buffer.from(frames.join(''), 'base64')]) posted for
    recognition. *)
Inductive Effect :=
| DeepgramSend (uid : string) (bytes : Buffer.t)
| DeepgramRecognize (uid : string) (audio : Buffer.t)
| GoogleWrite (uid : string) (bytes : Buffer.t)
| AssemblySend (uid : string) (bytes : Buffer.t)
| WhisperRecognize (uid : string) (audio : Buffer.t).

(** [frames.join('')] decoded. *)
Definition batch (frames : list Frame) : Buffer.t :=
  Buffer.fromBase64 (String.concat EmptyString frames).

(** [googleCloudService.sendAudioData(userId, audioData)] *)
Definition googleSend (st : t) (uid : string) (frame : Frame) (now : Z)
    : t * list Effect * bool :=
  match JsMap.get (google st) uid with
  | Some c =>
      if g_isConnected c && g_stream c then
        (mk (activeConnections st)
            (JsMap.set (google st) uid
               (mkGoogle true true now
                  (g_totalAudioSent c + Buffer.length (Buffer.fromBase64 frame))))
            (assembly st) (whisper st),
         [GoogleWrite uid (Buffer.fromBase64 frame)], true)
      else (st, [], false)
  | None => (st, [], false)
  end.

(** [assemblyAIService.sendAudioData(userId, audioData)] *)
Definition assemblySend (st : t) (uid : string) (frame : Frame) (now : Z)
    : t * list Effect * bool :=
  match JsMap.get (assembly st) uid with
  | Some c =>
      if a_isConnected c then
        match a_ws c with
        | Some OPEN =>
            (mk (activeConnections st) (google st)
                (JsMap.set (assembly st) uid (mkAssembly true (Some OPEN) now))
                (whisper st),
             [AssemblySend uid (Buffer.fromBase64 frame)], true)
        | _ => (st, [], false)
        end
      else (st, [], false)
  | None => (st, [], false)
  end.

(** [whisperService.sendAudioData(userId, audioData)] *)
Definition whisperSend (st : t) (uid : string) (frame : Frame) (now : Z)
    : t * list Effect * bool :=
  match JsMap.get (whisper st) uid with
  | Some c =>
      if w_isConnected c then
        let buffer := w_audioBuffer c ++ [frame] in
        let chunksNeeded := if String.eqb (w_language c) "tr" then 25 else 30 in
        if (chunksNeeded <=? length buffer)%nat then
          (mk (activeConnections st) (google st) (assembly st)
              (JsMap.set (whisper st) uid (mkWhisper (w_language c) true [] now)),
           [WhisperRecognize uid (batch buffer)], true)
        else
          (mk (activeConnections st) (google st) (assembly st)
              (JsMap.set (whisper st) uid (mkWhisper (w_language c) true buffer now)),
           [], true)
      else (st, [], false)
  | None => (st, [], false)
  end.

Definition googleHasActiveConnection (st : t) (uid : string) : bool :=
  match JsMap.get (google st) uid with
  | Some c => g_isConnected c
  | None => false
  end.

Definition with_connection (st : t) (uid : string) (c : Connection) : t :=
  mk (JsMap.set (activeConnections st) uid c) (google st) (assembly st) (whisper st).

(** [sendAudioData(userId, audioData)] of the streaming transcription
    service. *)
Definition sendAudioData (st : t) (uid : string) (frame : Frame) (now : Z)
    : t * list Effect * bool :=
  let viaOthers :=
    if googleHasActiveConnection st uid then googleSend st uid frame now
    else if (0 <? JsMap.size (assembly st))%nat then assemblySend st uid frame now
    else if (0 <? JsMap.size (whisper st))%nat then whisperSend st uid frame now
    else (st, [], false) in
  match JsMap.get (activeConnections st) uid with
  | None => viaOthers
  | Some c =>
      if negb (c_isConnected c) then viaOthers
      else
        match c_mode c with
        | RestApi audioBuffer =>
            let buffer := audioBuffer ++ [frame] in
            let chunksNeeded := if String.eqb (c_language c) "tr" then 15 else 20 in
            if (chunksNeeded <=? length buffer)%nat then
              (with_connection st uid (mkConnection (c_language c) true (RestApi []) now),
               [DeepgramRecognize uid (batch buffer)], true)
            else
              (with_connection st uid (mkConnection (c_language c) true (RestApi buffer) now),
               [], true)
        | WebSocketMode (Some OPEN) =>
            (with_connection st uid
               (mkConnection (c_language c) true (WebSocketMode (Some OPEN)) now),
             [DeepgramSend uid (Buffer.fromBase64 frame)], true)
        | WebSocketMode _ => (st, [], false)
        end
  end.

(** The connection registered when the Deepgram socket is created, its
    [open] event, and [startRestApiFallback]. *)
Definition deepgramConnect (st : t) (uid language : string) (now : Z) : t :=
  with_connection st uid (mkConnection language false (WebSocketMode (Some CONNECTING)) now).

Definition deepgramOpen (st : t) (uid : string) : t :=
  match JsMap.get (activeConnections st) uid with
  | Some c =>
      match c_mode c with
      | WebSocketMode (Some _) =>
          with_connection st uid
            (mkConnection (c_language c) true (WebSocketMode (Some OPEN)) (c_lastActivity c))
      | _ => st
      end
  | None => st
  end.

Definition startRestApiFallback (st : t) (uid language : string) (now : Z) : t :=
  with_connection st uid (mkConnection language true (RestApi []) now).

(** How [startStreamingTranscription] went: which providers are
    configured and whether their start succeeded. *)
Record StartOracle := mkStart {
  googleStarts : option bool;     (* None: no GOOGLE_CLOUD_PROJECT_ID *)
  assemblyStarts : option bool;   (* None: no ASSEMBLYAI_API_KEY *)
  openaiKey : bool;
  deepgramThrows : bool
}.

(** [startStreamingTranscription(userId, language, ...)] *)
Definition startStreamingTranscription (st : t) (o : StartOracle) (uid language : string)
    (now : Z) : t * bool :=
  match googleStarts o with
  | Some true =>
      (mk (activeConnections st) (JsMap.set (google st) uid (mkGoogle true true now 0))
          (assembly st) (whisper st), true)
  | _ =>
      match assemblyStarts o with
      | Some true =>
          (mk (activeConnections st) (google st)
              (JsMap.set (assembly st) uid (mkAssembly false (Some CONNECTING) now))
              (whisper st), true)
      | _ =>
          if String.eqb language "tr" && openaiKey o then
            (mk (activeConnections st) (google st) (assembly st)
                (JsMap.set (whisper st) uid (mkWhisper language true [] now)), true)
          else if deepgramThrows o then (st, false)
          else (deepgramConnect st uid language now, true)
      end
  end.

(** [stopStreamingTranscription(userId)]: the later definition of the
    class, an alias of [stopTranscription]; the AssemblyAI and Whisper
    services have no [stopTranscription] method, so only the service's own
    connection and the Google one are dropped. *)
Definition stopStreamingTranscription (st : t) (uid : string) : t :=
  mk (JsMap.delete (activeConnections st) uid) (JsMap.delete (google st) uid)
     (assembly st) (whisper st).

End Transcription.

(** ** Streaming translation pipeline (streamingTranslationPipeline.js) *)

Module Pipeline.

Import Transcription.

Record SessionStats := mkStats {
  audioChunks : nat;
  partialResults : nat;
  finalResults : nat;
  translations : nat;
  synthesisChunks : nat
}.

Record Sample := mkSample { sm_data : Frame; sm_timestamp : Z }.

(** The per-user object of [activeSessions] (the two unused buffers of the
    source are left out). *)
Record SessionInfo := mkInfo {
  sessionId : string;
  userId : string;
  userLanguage : string;
  partnerLanguage : string;
  partnerVoiceId : string;
  socket : option Socket;
  role : string;
  isActive : bool;
  startTime : Z;
  lastActivity : Z;
  stats : SessionStats;
  audioBuffer : option (list Sample);
  lastProcessedNormalized : option string;
  lastProcessedAt : option Z
}.

Definition with_lastActivity (s : SessionInfo) (now : Z) : SessionInfo :=
  mkInfo (sessionId s) (userId s) (userLanguage s) (partnerLanguage s) (partnerVoiceId s)
    (socket s) (role s) (isActive s) (startTime s) now (stats s) (audioBuffer s)
    (lastProcessedNormalized s) (lastProcessedAt s).

Definition with_stats (s : SessionInfo) (st : SessionStats) : SessionInfo :=
  mkInfo (sessionId s) (userId s) (userLanguage s) (partnerLanguage s) (partnerVoiceId s)
    (socket s) (role s) (isActive s) (startTime s) (lastActivity s) st (audioBuffer s)
    (lastProcessedNormalized s) (lastProcessedAt s).

Definition with_audioBuffer (s : SessionInfo) (b : list Sample) : SessionInfo :=
  mkInfo (sessionId s) (userId s) (userLanguage s) (partnerLanguage s) (partnerVoiceId s)
    (socket s) (role s) (isActive s) (startTime s) (lastActivity s) (stats s) (Some b)
    (lastProcessedNormalized s) (lastProcessedAt s).

Definition with_lastProcessed (s : SessionInfo) (normalized : string) (now : Z) : SessionInfo :=
  mkInfo (sessionId s) (userId s) (userLanguage s) (partnerLanguage s) (partnerVoiceId s)
    (socket s) (role s) (isActive s) (startTime s) (lastActivity s) (stats s) (audioBuffer s)
    (Some normalized) (Some now).

Definition bump_audioChunks (t : SessionStats) : SessionStats :=
  mkStats (S (audioChunks t)) (partialResults t) (finalResults t) (translations t)
    (synthesisChunks t).
Definition bump_partialResults (t : SessionStats) : SessionStats :=
  mkStats (audioChunks t) (S (partialResults t)) (finalResults t) (translations t)
    (synthesisChunks t).
Definition bump_finalResults (t : SessionStats) : SessionStats :=
  mkStats (audioChunks t) (partialResults t) (S (finalResults t)) (translations t)
    (synthesisChunks t).
Definition bump_translations (t : SessionStats) : SessionStats :=
  mkStats (audioChunks t) (partialResults t) (finalResults t) (S (translations t))
    (synthesisChunks t).
Definition bump_synthesisChunks (t : SessionStats) : SessionStats :=
  mkStats (audioChunks t) (partialResults t) (finalResults t) (translations t)
    (S (synthesisChunks t)).

(** [normalize] of [processCompleteTranslation]:
    [(s || '').trim().toLowerCase().replace(/[.,!?\s]+$/g, '')] *)
Definition normalize (s : string) : string :=
  Js.stripTrailingPunct (Js.toLowerCase (Js.trim s)).

(** The duplicate test of [processCompleteTranslation]. *)
Definition isRepeat (s : SessionInfo) (normalized : string) (now : Z) : bool :=
  match lastProcessedNormalized s with
  | Some l =>
      String.eqb l normalized
      && (now - match lastProcessedAt s with Some a => a | None => 0 end <? 3000)%Z
  | None => false
  end.

(** The providers and clocks a translation consults after the duplicate
    test. *)
Record Oracles := mkOracles {
  postTranslate : nat -> Translation.Request -> Translation.Outcome;
  analyzeEmotionalContent : string -> Result Emotion.Profile;
  postSynthesis : nat -> Synthesis.Outcome;
  nowClean : Z;            (* [Date.now()] in [cleanCache] *)
  translationTime : Z;
  totalLatency : Z
}.

(** What a handler did to the outside world. *)
Record Effects := mkEffects {
  mtCalls : list (string * string * string);   (* calls of [translate] *)
  mtRequests : list Translation.Request;        (* provider requests *)
  ttsCalls : list (string * string);            (* calls of [synthesizeText] *)
  ttsRequests : nat;
  emits : list Emit
}.

Definition noEffects : Effects := mkEffects [] [] [] 0 [].

Definition seqEffects (a b : Effects) : Effects :=
  mkEffects (mtCalls a ++ mtCalls b) (mtRequests a ++ mtRequests b)
    (ttsCalls a ++ ttsCalls b) (ttsRequests a + ttsRequests b) (emits a ++ emits b).

Section WithNumber.
Context {num : Type} `{Number num}.

Record t := mk {
  activeSessions : JsMap.t SessionInfo;
  transcriptionService : Transcription.t;
  synthesisService : Synthesis.t;
  conversationProcessor : Gate.t (num := num);
  emotionalProfiles : JsMap.t Emotion.Profile
}.

(** The constructor: the processor gets the pipeline's options. *)
Definition create : t :=
  mk JsMap.empty Transcription.create Synthesis.create
     (Gate.create Gate.defaultConfig) JsMap.empty.

Definition with_sessions (st : t) (m : JsMap.t SessionInfo) : t :=
  mk m (transcriptionService st) (synthesisService st) (conversationProcessor st)
     (emotionalProfiles st).

Definition with_session (st : t) (uid : string) (s : SessionInfo) : t :=
  with_sessions st (JsMap.set (activeSessions st) uid s).

(** [findPartnerSession(userId)] *)
Definition findPartnerSession (st : t) (uid : string) : option (string * SessionInfo) :=
  match JsMap.get (activeSessions st) uid with
  | None => None
  | Some userSession =>
      List.find (fun kv => negb (String.eqb (fst kv) uid)
                           && String.eqb (sessionId (snd kv)) (sessionId userSession)
                           && isActive (snd kv))
                (JsMap.entries (activeSessions st))
  end.

(** [stopTranslationSession(userId)] *)
Definition stopTranslationSession (st : t) (uid : string) : t :=
  match JsMap.get (activeSessions st) uid with
  | None => st
  | Some _ =>
      mk (JsMap.delete (activeSessions st) uid)
         (Transcription.stopStreamingTranscription (transcriptionService st) uid)
         (Synthesis.stopStreamingSynthesis (synthesisService st) uid)
         (Gate.removeProfessionalConversation (conversationProcessor st) uid)
         (JsMap.delete (emotionalProfiles st) uid)
  end.

(** [startTranslationSession(sessionId, userId, userLanguage,
    partnerLanguage, partnerVoiceId, socket, role)] *)
Definition startTranslationSession (st : t) (o : Transcription.StartOracle)
    (sess uid userLang partnerLang partnerVoice : string) (sock : option Socket)
    (rl : string) (now : Z) : t * bool :=
  let inferredRole :=
    if String.eqb rl EmptyString
    then (if String.eqb userLang "tr" then "doctor" else "patient")
    else rl in
  let info := mkInfo sess uid userLang partnerLang partnerVoice sock inferredRole true
                now now (mkStats 0 0 0 0 0) None None None in
  let st1 := with_session st uid info in
  let gate := Gate.initializeProfessionalConversation (conversationProcessor st1)
                uid userLang inferredRole now in
  let '(ts, started) :=
    Transcription.startStreamingTranscription (transcriptionService st1) o uid userLang now in
  let st2 := mk (activeSessions st1) ts (synthesisService st1) gate (emotionalProfiles st1) in
  if started then
    (mk (activeSessions st2) (transcriptionService st2)
        (Synthesis.startStreamingSynthesis (synthesisService st2) uid partnerVoice partnerLang now)
        (conversationProcessor st2) (emotionalProfiles st2), true)
  else (stopTranslationSession st2 uid, false).

(** [processAudioData(userId, audioData)] *)
Definition processAudioData (st : t) (uid : string) (frame : Frame) (now : Z)
    : t * list Transcription.Effect * bool :=
  match JsMap.get (activeSessions st) uid with
  | None => (st, [], false)
  | Some session =>
      if negb (isActive session) then (st, [], false)
      else
        let '(ts, effects, sent) :=
          Transcription.sendAudioData (transcriptionService st) uid frame now in
        let st1 := mk (activeSessions st) ts (synthesisService st) (conversationProcessor st)
                      (emotionalProfiles st) in
        if sent then
          let s1 := with_lastActivity (with_stats session (bump_audioChunks (stats session))) now in
          let st2 := with_session st1 uid s1 in
          let st3 :=
            match findPartnerSession st2 uid with
            | Some (pid, ps) => with_session st2 pid (with_lastActivity ps now)
            | None => st2
            end in
          let buffer := match audioBuffer s1 with Some b => b | None => [] end in
          let buffer := buffer ++ [mkSample frame now] in
          let buffer := List.filter (fun sample => (now - sm_timestamp sample <? 5000)%Z) buffer in
          (with_session st3 uid (with_audioBuffer s1 buffer), effects, true)
        else (st1, effects, false)
  end.

(** [handleSynthesisChunk(userId, audioChunk)] *)
Definition handleSynthesisChunk (st : t) (uid : string) (chunk : Synthesis.AudioChunk)
    (now : Z) : t * list Emit :=
  match JsMap.get (activeSessions st) uid with
  | None => (st, [])
  | Some session =>
      let s1 := with_lastActivity (with_stats session (bump_synthesisChunks (stats session))) now in
      let st1 := with_session st uid s1 in
      match findPartnerSession st1 uid with
      | Some (_, partnerSession) =>
          match socket partnerSession with
          | Some sock =>
              (st1, [mkEmit sock (synthesized_audio (Synthesis.audioData chunk)
                                    (Synthesis.c_text chunk) (Synthesis.c_isFinal chunk))])
          | None => (st1, [])
          end
      | None => (st1, [])
      end
  end.

(** [handleSynthesisComplete(userId)] *)
Definition handleSynthesisComplete (st : t) (uid : string) (now : Z) : t :=
  match JsMap.get (activeSessions st) uid with
  | Some session => with_session st uid (with_lastActivity session now)
  | None => st
  end.

(** [handleSynthesisError(userId, error)] *)
Definition handleSynthesisError (st : t) (uid e : string) : list Emit :=
  match JsMap.get (activeSessions st) uid with
  | Some session =>
      match socket session with
      | Some sock => [mkEmit sock (synthesis_error e)]
      | None => []
      end
  | None => []
  end.

(** The part of [processCompleteTranslation] from the emission of the
    translation on, for a speaker whose socket is [own]. *)
Definition deliver (st : t) (o : Oracles) (uid text translated : string) (own : Socket)
    (profile : option Emotion.Profile) (now : Z) : t * Effects :=
  let toSelf := [mkEmit own (live_translation text translated "self")] in
  let toPartner :=
    match findPartnerSession st uid with
    | Some (_, partnerSession) =>
        match socket partnerSession with
        | Some sock => [mkEmit sock (live_translation text translated "partner")]
        | None => []
        end
    | None => []
    end in
  let '(syn, report) :=
    Synthesis.synthesizeText (synthesisService st) (postSynthesis o) uid translated true
      profile now (nowClean o) in
  let st1 := mk (activeSessions st) (transcriptionService st) syn (conversationProcessor st)
                (emotionalProfiles st) in
  let '(st2, audio) :=
    match Synthesis.onAudioChunk report with
    | Some chunk => handleSynthesisChunk st1 uid chunk now
    | None => (st1, [])
    end in
  let st3 := if Synthesis.onComplete report then handleSynthesisComplete st2 uid now else st2 in
  let failed :=
    match Synthesis.onError report with
    | Some e => handleSynthesisError st3 uid e
    | None => []
    end in
  (st3,
   mkEffects [] [] [(uid, translated)] (Synthesis.requests report)
     (toSelf ++ toPartner ++ audio ++ failed
      ++ [mkEmit own (latency_stats (translationTime o) (totalLatency o))])).

(** [processCompleteTranslation(userId, text, confidence)]; the
    [confidence] argument is not read by the source. *)
Definition processCompleteTranslation (st : t) (o : Oracles) (uid text : string) (now : Z)
    : t * Effects :=
  match JsMap.get (activeSessions st) uid with
  | None => (st, noEffects)
  | Some session =>
      let normalized := normalize text in
      if isRepeat session normalized now then (st, noEffects)
      else
        let s1 := with_lastProcessed session normalized now in
        let st1 := with_session st uid s1 in
        let '(requests, translation) :=
          Translation.translate (postTranslate o) text (userLanguage s1) (partnerLanguage s1) in
        let called := mkEffects [(text, userLanguage s1, partnerLanguage s1)] requests [] 0 [] in
        let failure (st' : t) (details : string) : t * Effects :=
          (st', seqEffects called
                  (mkEffects [] [] [] 0
                     match socket s1 with
                     | Some own => [mkEmit own (pipeline_error details)]
                     | None => []
                     end)) in
        match translation with
        | Throw e => failure st1 e
        | Ok tr =>
            if String.eqb (Translation.translatedText tr) EmptyString then
              failure st1 "Translation service returned empty result"
            else
              let s2 := with_stats s1 (bump_translations (stats s1)) in
              let st2 := with_session st1 uid s2 in
              let recentAudio :=
                match audioBuffer s2 with
                | Some b => String.concat EmptyString (map sm_data b)
                | None => EmptyString
                end in
              let '(st3, profile) :=
                if String.eqb recentAudio EmptyString then (st2, None)
                else
                  match analyzeEmotionalContent o recentAudio with
                  | Ok p =>
                      (mk (activeSessions st2) (transcriptionService st2) (synthesisService st2)
                          (conversationProcessor st2)
                          (JsMap.set (emotionalProfiles st2) uid p), Some p)
                  | Throw _ => (st2, Some Emotion.default)
                  end in
              match socket s2 with
              | None => (st3, called)
              | Some own =>
                  let '(st4, effects) :=
                    deliver st3 o uid text (Translation.translatedText tr) own profile now in
                  (st4, seqEffects called effects)
              end
        end
  end.

(** *** Vocabulary of the routing and duplicate properties *)

(** Every entry of [activeSessions] holds the socket its key names, as
    [index.js] registers them ([userId] is [socket.id]). *)
Definition socketKeyed (st : t) : Prop :=
  forall k s sock, In (k, s) (JsMap.entries (activeSessions st)) ->
                   socket s = Some sock -> sock = k.

(** The message [e] goes to the socket of a partner of [uid]: an active
    entry under another key with the session id of [uid]. *)
Definition toPartnerOf (st : t) (uid : string) (e : Emit) : Prop :=
  exists us pid ps,
    JsMap.get (activeSessions st) uid = Some us
    /\ In (pid, ps) (JsMap.entries (activeSessions st))
    /\ pid <> uid
    /\ sessionId ps = sessionId us
    /\ isActive ps = true
    /\ socket ps = Some (to e).

(** [text] has the normalised form that was processed last for this
    session, less than 3 seconds before [now]. *)
Definition repeatsLast (s : SessionInfo) (text : string) (now : Z) : Prop :=
  lastProcessedNormalized s = Some (normalize text)
  /\ (now - match lastProcessedAt s with Some a => a | None => 0 end < 3000)%Z.

(** A normalised provider result. *)
Record Transcript := mkTranscript {
  tr_text : string;
  tr_confidence : num;
  tr_timestamp : option Z
}.

(** The listener of [professional_speech_ready] runs
    [processCompleteTranslation] for each event. *)
Fixpoint onReady (st : t) (o : Oracles) (events : list (Gate.Ready (num := num))) (now : Z)
    : t * Effects :=
  match events with
  | [] => (st, noEffects)
  | e :: rest =>
      let '(st1, e1) := processCompleteTranslation st o (Gate.rd_userId e) (Gate.rd_text e) now in
      let '(st2, e2) := onReady st1 o rest now in
      (st2, seqEffects e1 e2)
  end.

Definition consider (st : t) (o : Oracles) (uid : string)
    (data : Gate.TranscriptionData (num := num)) (now : Z) : t * Effects :=
  let '(gate, events) :=
    Gate.processProfessionalTranscription (conversationProcessor st) uid data now in
  onReady (mk (activeSessions st) (transcriptionService st) (synthesisService st) gate
              (emotionalProfiles st)) o events now.

Definition orNow (ts : option Z) (now : Z) : Z :=
  match ts with
  | Some v => if (v =? 0)%Z then now else v
  | None => now
  end.

(** [handlePartialTranscription(userId, partialResult)] *)
Definition handlePartialTranscription (st : t) (o : Oracles) (uid : string)
    (r : Transcript) (now : Z) : t * Effects :=
  match JsMap.get (activeSessions st) uid with
  | None => (st, noEffects)
  | Some session =>
      let s1 := with_lastActivity (with_stats session (bump_partialResults (stats session))) now in
      let st1 := with_session st uid s1 in
      match socket s1 with
      | None => (st1, noEffects)
      | Some own =>
          let '(st2, effects) :=
            consider st1 o uid
              (Gate.mkData (tr_text r) (tr_confidence r) false (orNow (tr_timestamp r) now)) now in
          (st2, seqEffects (mkEffects [] [] [] 0 [mkEmit own (live_transcription (tr_text r) true)])
                  effects)
      end
  end.

(** [handleFinalTranscription(userId, finalResult)]:
    the confidence handed to the gate is
    [Math.max(finalResult.confidence || 0.9, 0.8)]. *)
Definition handleFinalTranscription (st : t) (o : Oracles) (uid : string)
    (r : Transcript) (now : Z) : t * Effects :=
  match JsMap.get (activeSessions st) uid with
  | None => (st, noEffects)
  | Some session =>
      let s1 := with_lastActivity (with_stats session (bump_finalResults (stats session))) now in
      let st1 := with_session st uid s1 in
      match socket s1 with
      | None => (st1, noEffects)
      | Some own =>
          let boosted :=
            nmax (if nfalsy (tr_confidence r) then ofQ 0.9 else tr_confidence r) (ofQ 0.8) in
          let '(st2, effects) :=
            consider st1 o uid
              (Gate.mkData (tr_text r) boosted true (orNow (tr_timestamp r) now)) now in
          (st2, seqEffects (mkEffects [] [] [] 0 [mkEmit own (live_transcription (tr_text r) false)])
                  effects)
      end
  end.

(** The gate's timer for [uid] expires. *)
Definition onTimer (st : t) (o : Oracles) (uid : string) (now : Z) : t * Effects :=
  let '(gate, events) := Gate.timerFires (conversationProcessor st) uid now in
  onReady (mk (activeSessions st) (transcriptionService st) (synthesisService st) gate
              (emotionalProfiles st)) o events now.

End WithNumber.
End Pipeline.

(** ** Socket handlers (index.js) *)

Module Server.
Section WithNumber.
Context {num : Type} `{Number num}.

Import SessionManager.

Record t := mk {
  sessionManager : SessionManager.t;
  streamingPipeline : Pipeline.t (num := num)
}.

Definition create : t := mk SessionManager.init Pipeline.create.

Definition slotUser (sm : SessionManager.t) (slot : option ref) : option User :=
  slot ≫= (fun r => heap sm !! r).

Definition isEmpty (s : string) : bool := String.eqb s EmptyString.

(** The handler of [join-session] on the socket [sock]. *)
Definition joinSession (st : t) (sock : Socket) (rl lang voice uuid : string)
    (oDoctor oPatient : Transcription.StartOracle) (now : Z) : t * list Emit :=
  if isEmpty rl || isEmpty lang || isEmpty voice then
    (st, [mkEmit sock (error "Role, language, and voiceId are required")])
  else
    match addUser (sessionManager st) sock (mkUserData rl lang voice (Some sock)) uuid now with
    | (sm, Throw m) => (mk sm (streamingPipeline st), [mkEmit sock (error m)])
    | (sm, Ok session) =>
        let joined := mkEmit sock (session_joined (id session) rl lang) in
        let waiting :=
          (mk sm (streamingPipeline st),
           [joined;
            mkEmit sock (waiting_for_partner
                           (if String.eqb rl "doctor" then "patient" else "doctor"))]) in
        match slotUser sm (doctor session), slotUser sm (patient session) with
        | Some d, Some p =>
            match socket d, socket p with
            | Some ds, Some ps =>
                let '(p1, okDoctor) :=
                  Pipeline.startTranslationSession (streamingPipeline st) oDoctor (id session)
                    ds (language d) (language p) (voiceId p) (Some ds) "doctor" now in
                let '(p2, okPatient) :=
                  Pipeline.startTranslationSession p1 oPatient (id session)
                    ps (language p) (language d) (voiceId d) (Some ps) "patient" now in
                (mk sm p2,
                 if okDoctor && okPatient then
                   [joined;
                    mkEmit ds (session_ready (language p) "patient");
                    mkEmit ps (session_ready (language d) "doctor")]
                 else
                   [joined;
                    mkEmit ds (error "Failed to start real-time translation");
                    mkEmit ps (error "Failed to start real-time translation")])
            | _, _ => waiting
            end
        | _, _ => waiting
        end
    end.

(** The handler of [streaming-audio]. *)
Definition streamingAudio (st : t) (sock : Socket) (frame : Transcription.Frame) (now : Z)
    : t * list Transcription.Effect * bool :=
  let '(p, effects, processed) :=
    Pipeline.processAudioData (streamingPipeline st) sock frame now in
  (mk (sessionManager st) p, effects, processed).

(** The notification the [disconnect] handler sends itself, before it
    calls [removeUser]. *)
Definition notifyPartner (sm : SessionManager.t) (sock : Socket) (reason : string)
    : list Emit :=
  match getUser sm sock with
  | None => []
  | Some user =>
      match getPartnerInfo sm sock with
      | None => []
      | Some _ =>
          match sessionId user ≫= getSession sm with
          | None => []
          | Some session =>
              match slotUser sm (otherSlot user session) ≫= socket with
              | Some partnerSocket =>
                  [mkEmit partnerSocket
                     (partner_disconnected (role user ++ " disconnected") (Some reason))]
              | None => []
              end
          end
      end
  end.

(** The handler of [disconnect]. *)
Definition disconnect (st : t) (sock : Socket) (reason : string) (now : Z)
    : t * list Emit :=
  let p := Pipeline.stopTranslationSession (streamingPipeline st) sock in
  let notice := notifyPartner (sessionManager st) sock reason in
  let '(sm, out, _) := removeUser (sessionManager st) sock now in
  (mk sm p, notice ++ out).

(** What happens to the server: the three socket handlers, the callbacks
    of the recognizer (a partial or a final transcript for the pipeline
    user [uid], the [open] event of its Deepgram socket) and the expiry of
    a gate timer.  The periodic clean-up and the close and error events
    of the recognizer's socket, which only stop sessions and connections
    or switch a connection to the REST fallback, are not among them. *)
Inductive Event :=
| Join (sock : Socket) (rl lang voice uuid : string)
       (oDoctor oPatient : Transcription.StartOracle) (now : Z)
| Audio (sock : Socket) (frame : Transcription.Frame) (now : Z)
| Disconnect (sock : Socket) (reason : string) (now : Z)
| Partial (uid : string) (r : Pipeline.Transcript (num := num)) (o : Pipeline.Oracles) (now : Z)
| Final (uid : string) (r : Pipeline.Transcript (num := num)) (o : Pipeline.Oracles) (now : Z)
| Timer (uid : string) (o : Pipeline.Oracles) (now : Z)
| RecognizerOpen (uid : string).

Definition with_pipeline (st : t) (p : Pipeline.t (num := num)) : t :=
  mk (sessionManager st) p.

Definition step (st : t) (e : Event) : t :=
  match e with
  | Join sock rl lang voice uuid oDoctor oPatient now =>
      fst (joinSession st sock rl lang voice uuid oDoctor oPatient now)
  | Audio sock frame now => fst (fst (streamingAudio st sock frame now))
  | Disconnect sock reason now => fst (disconnect st sock reason now)
  | Partial uid r o now =>
      with_pipeline st (fst (Pipeline.handlePartialTranscription (streamingPipeline st) o uid r now))
  | Final uid r o now =>
      with_pipeline st (fst (Pipeline.handleFinalTranscription (streamingPipeline st) o uid r now))
  | Timer uid o now =>
      with_pipeline st (fst (Pipeline.onTimer (streamingPipeline st) o uid now))
  | RecognizerOpen uid =>
      let p := streamingPipeline st in
      with_pipeline st
        (Pipeline.mk (Pipeline.activeSessions p)
           (Transcription.deepgramOpen (Pipeline.transcriptionService p) uid)
           (Pipeline.synthesisService p) (Pipeline.conversationProcessor p)
           (Pipeline.emotionalProfiles p))
  end.

Definition run (st : t) (events : list Event) : t := fold_left step events st.

(** How many [partner-disconnected] messages a trace delivers to [sock]. *)
Definition partnerDisconnectedCount (sock : Socket) (trace : list Emit) : nat :=
  length (List.filter
            (fun e => String.eqb (to e) sock && is_partner_disconnected (event e)) trace).

End WithNumber.
End Server.

(** ** The invariant of the running average, in exact arithmetic *)

Module GateInvariant.
Import Gate.

(** Every conversation of the map has an average sentence length of at
    least one word. *)
Definition avgAtLeastOne (m : JsMap.t (Conversation (num := Q))) : Prop :=
  forall uid c, JsMap.get m uid = Some c -> (1 <= avgSentenceLength c)%Q.

End GateInvariant.

(** ** Concrete states used to exercise the statements *)

Module Scenario.

Definition plainStart : Transcription.StartOracle :=
  Transcription.mkStart None None false false.

(** Two users of one session, each with an open Deepgram socket. *)
Definition twoUsers : Pipeline.t (num := float) :=
  let st1 := fst (Pipeline.startTranslationSession Pipeline.create plainStart
                    "session-1" "u1" "en" "tr" "v_tr" (Some "u1") "patient" 1000) in
  let st2 := fst (Pipeline.startTranslationSession st1 plainStart
                    "session-1" "u2" "tr" "en" "v_en" (Some "u2") "doctor" 1000) in
  Pipeline.mk (Pipeline.activeSessions st2)
    (Transcription.deepgramOpen
       (Transcription.deepgramOpen (Pipeline.transcriptionService st2) "u1") "u2")
    (Pipeline.synthesisService st2) (Pipeline.conversationProcessor st2)
    (Pipeline.emotionalProfiles st2).

Definition providers : Pipeline.Oracles :=
  Pipeline.mkOracles
    (fun _ _ => Translation.Response (Some [("merhaba", "EN")]))
    (fun _ => Ok Emotion.default)
    (fun _ => Synthesis.Audio "QUJD")
    1300 120 300.

(** A doctor joins on socket [s1], a patient on socket [s2]. *)
Definition consultation : list (Server.Event (num := float)) :=
  [Server.Join "s1" "doctor" "tr" "v_tr" "session-1" plainStart plainStart 1000;
   Server.Join "s2" "patient" "en" "v_en" "session-2" plainStart plainStart 2000].

(** The doctor then joins again, same role, language and voice, on socket
    [s3] while [s1] is still registered. *)
Definition reconnection : list (Server.Event (num := float)) :=
  consultation
  ++ [Server.Join "s3" "doctor" "tr" "v_tr" "session-3" plainStart plainStart 3000].

(** A gate with one English-speaking patient. *)
Definition patientGate {num} `{Number num} : Gate.t (num := num) :=
  Gate.initializeProfessionalConversation (Gate.create Gate.defaultConfig)
    "u1" "en" "patient" 0.

Definition happy : option Emotion.Profile :=
  Some (Emotion.mkProfile "happy" "0.5" "positive").

(** A provider that does not answer the first request and would answer
    the second; one that answers the first with status 503. *)
Definition flaky (n : nat) (_ : Translation.Request) : Translation.Outcome :=
  match n with
  | 0 => Translation.NoResponse
  | _ => Translation.Response (Some [("merhaba", "EN")])
  end.

Definition unavailable (n : nat) (_ : Translation.Request) : Translation.Outcome :=
  match n with
  | 0 => Translation.ErrorResponse 503 None
  | _ => Translation.Response (Some [("merhaba", "EN")])
  end.

(** [n] words. *)
Fixpoint words (n : nat) : string :=
  match n with
  | 0 => EmptyString
  | 1 => "a"
  | S m => "a " ++ words m
  end.

End Scenario.


(** ** Runs of the processor, with the utterances it fires *)

Module GateRuns.
Section WithNumber.
Context {num : Type} `{Number num}.
Import Gate.

(** One event of the processor and the [professional_speech_ready] events
    it emits. *)
Definition stepOut (st : Gate.t (num := num)) (e : Event) : Gate.t * list Ready :=
  match e with
  | Initialize uid lang rl now => (initializeProfessionalConversation st uid lang rl now, [])
  | Transcription uid data now => processProfessionalTranscription st uid data now
  | TimerFires uid now => timerFires st uid now
  | Remove uid => (removeProfessionalConversation st uid, [])
  end.

Fixpoint runOut (st : Gate.t (num := num)) (events : list Event) : Gate.t * list Ready :=
  match events with
  | [] => (st, [])
  | e :: rest =>
      let '(st1, out1) := stepOut st e in
      let '(st2, out2) := runOut st1 rest in
      (st2, out1 ++ out2)
  end.

(** The event starts or ends the conversation of [uid]. *)
Definition resets (uid : string) (e : Event (num := num)) : bool :=
  match e with
  | Initialize u _ _ _ => String.eqb u uid
  | Remove u => String.eqb u uid
  | _ => false
  end.

(** The utterances fired for [uid], in the order of firing. *)
Definition firedFor (uid : string) (out : list (Ready (num := num))) : list Ready :=
  List.filter (fun r => String.eqb (rd_userId r) uid) out.

(** [!text || text.trim().length === 0] *)
Definition blank (s : string) : bool := (String.length (Js.trim s) =? 0)%nat.

(** The sentence being built is empty or has a visible character; the
    two windows of the learning step are within their bounds. *)
Definition conversationOk (c : Conversation (num := num)) : Prop :=
  (currentSentence c = EmptyString \/ blank (currentSentence c) = false)
  /\ length (confidenceHistory c) <= 10
  /\ length (sentencePatterns c) <= 20.

Definition wellFormed (st : Gate.t (num := num)) : Prop :=
  (forall uid c, JsMap.get (userConversations st) uid = Some c -> conversationOk c)
  /\ (forall uid pe, JsMap.get (activeProcessing st) uid = Some pe ->
                     blank (pe_text pe) = false).

End WithNumber.

(** Every pending utterance waits between 500 ms and the emergency
    timeout of 4 s. *)
Definition waitsBounded (st : Gate.t (num := Q)) : Prop :=
  forall uid pe, JsMap.get (Gate.activeProcessing st) uid = Some pe ->
                 (500 <= Gate.pe_waitTime pe <= 4000)%Q.

End GateRuns.


(** ** Runs of the pipeline, with the utterances handed to the translator *)

Module PipelineRuns.
Section WithNumber.
Context {num : Type} `{Number num}.
Import Pipeline.

(** The calls that reach the pipeline: [startTranslationSession] (from
    the join handler), [stopTranslationSession] (from the disconnect
    handler, the periodic clean-up and the shutdown), [processAudioData],
    the recognizer's callbacks and the expiry of a timer of the
    processor. *)
Inductive Op :=
| Start (o : Transcription.StartOracle)
        (sess uid userLang partnerLang partnerVoice : string)
        (sock : option Socket) (rl : string) (now : Z)
| Stop (uid : string)
| Audio (uid : string) (frame : Transcription.Frame) (now : Z)
| Partial (uid : string) (r : Transcript (num := num)) (o : Oracles) (now : Z)
| Final (uid : string) (r : Transcript (num := num)) (o : Oracles) (now : Z)
| Timer (uid : string) (o : Oracles) (now : Z)
| RecognizerOpen (uid : string).

Definition apply (st : Pipeline.t (num := num)) (op : Op) : Pipeline.t :=
  match op with
  | Start o sess uid userLang partnerLang partnerVoice sock rl now =>
      fst (startTranslationSession st o sess uid userLang partnerLang partnerVoice sock rl now)
  | Stop uid => stopTranslationSession st uid
  | Audio uid frame now => fst (fst (processAudioData st uid frame now))
  | Partial uid r o now => fst (handlePartialTranscription st o uid r now)
  | Final uid r o now => fst (handleFinalTranscription st o uid r now)
  | Timer uid o now => fst (onTimer st o uid now)
  | RecognizerOpen uid =>
      mk (activeSessions st) (Transcription.deepgramOpen (transcriptionService st) uid)
         (synthesisService st) (conversationProcessor st) (emotionalProfiles st)
  end.

Definition run (st : Pipeline.t (num := num)) (ops : list Op) : Pipeline.t :=
  fold_left apply ops st.

(** What a call does to the session records, and which utterances it
    hands to [processCompleteTranslation]. *)
Inductive Entry :=
| Started (uid : string)                  (* [activeSessions.set(userId, sessionInfo)] *)
| Stopped (uid : string)                  (* [activeSessions.delete(userId)] *)
| Fired (uid text : string) (now : Z).    (* [professional_speech_ready] was emitted *)

Definition firedEntries (events : list (Gate.Ready (num := num))) (now : Z) : list Entry :=
  map (fun e => Fired (Gate.rd_userId e) (Gate.rd_text e) now) events.

(** The data the two transcript handlers hand to the processor. *)
Definition partialData (r : Transcript (num := num)) (now : Z) : Gate.TranscriptionData :=
  Gate.mkData (tr_text r) (tr_confidence r) false (orNow (tr_timestamp r) now).

Definition finalData (r : Transcript (num := num)) (now : Z) : Gate.TranscriptionData :=
  Gate.mkData (tr_text r)
    (nmax (if nfalsy (tr_confidence r) then ofQ 0.9 else tr_confidence r) (ofQ 0.8))
    true (orNow (tr_timestamp r) now).

(** The handlers call the processor only for a user with a session record
    and a socket; what the processor then emits. *)
Definition heard (st : Pipeline.t (num := num)) (uid : string)
    (data : Gate.TranscriptionData) (now : Z) : list Gate.Ready :=
  match JsMap.get (activeSessions st) uid with
  | None => []
  | Some session =>
      match socket session with
      | None => []
      | Some _ =>
          snd (Gate.processProfessionalTranscription (conversationProcessor st) uid data now)
      end
  end.

Definition entries (st : Pipeline.t (num := num)) (op : Op) : list Entry :=
  match op with
  | Start o sess uid userLang partnerLang partnerVoice sock rl now =>
      if snd (startTranslationSession st o sess uid userLang partnerLang partnerVoice
                sock rl now)
      then [Started uid]
      else [Started uid; Stopped uid]
  | Stop uid => [Stopped uid]
  | Audio _ _ _ => []
  | Partial uid r o now => firedEntries (heard st uid (partialData r now) now) now
  | Final uid r o now => firedEntries (heard st uid (finalData r now) now) now
  | Timer uid o now =>
      firedEntries (snd (Gate.timerFires (conversationProcessor st) uid now)) now
  | RecognizerOpen _ => []
  end.

Fixpoint logOf (st : Pipeline.t (num := num)) (ops : list Op) : list Entry :=
  match ops with
  | [] => []
  | op :: rest => entries st op ++ logOf (apply st op) rest
  end.

End WithNumber.

(** *** The last processed utterance, as the specification words it *)

(** What is remembered of a participant: no session record; a record and
    no utterance processed since it was created; or the normal form and the
    time of the utterance processed last. *)
Inductive Memory :=
| NoSession
| Nothing
| Last (normalized : string) (time : Z).

(** [text] has the remembered normal form and comes less than 3 seconds
    after it. *)
Definition repeats (m : Memory) (text : string) (now : Z) : bool :=
  match m with
  | Last normalized time =>
      String.eqb normalized (Pipeline.normalize text) && (now - time <? 3000)%Z
  | _ => false
  end.

Definition repeatsRemembered (m : Memory) (text : string) (now : Z) : Prop :=
  exists normalized time,
    m = Last normalized time
    /\ normalized = Pipeline.normalize text /\ (now - time < 3000)%Z.

(** A fired utterance that repeats the remembered one is dropped and
    leaves the memory as it is; any other is processed and remembered.  A
    record created anew remembers nothing. *)
Definition note (uid : string) (m : Memory) (e : Entry) : Memory :=
  match e with
  | Started u => if String.eqb u uid then Nothing else m
  | Stopped u => if String.eqb u uid then NoSession else m
  | Fired u text now =>
      if String.eqb u uid then
        match m with
        | NoSession => NoSession
        | _ => if repeats m text now then m else Last (Pipeline.normalize text) now
        end
      else m
  end.

Definition lastProcessed (log : list Entry) (uid : string) : Memory :=
  fold_left (note uid) log NoSession.

(** The two fields of a session record that the duplicate test reads. *)
Definition remembered (s : Pipeline.SessionInfo) : option string * option Z :=
  (Pipeline.lastProcessedNormalized s, Pipeline.lastProcessedAt s).

Definition fields (m : Memory) : option (option string * option Z) :=
  match m with
  | NoSession => None
  | Nothing => Some (None, None)
  | Last normalized time => Some (Some normalized, Some time)
  end.

(** The session records hold what the memory [g] tells, and no key
    twice. *)
Definition recordsAgree {num} `{Number num} (st : Pipeline.t (num := num))
    (g : string -> Memory) : Prop :=
  NoDup (JsMap.keys (Pipeline.activeSessions st))
  /\ forall uid, option_map remembered (JsMap.get (Pipeline.activeSessions st) uid)
                 = fields (g uid).

(** *** The calls the socket handlers make *)

Import SessionManager.

Definition opsOf {num} `{Number num} (st : Server.t (num := num)) (e : Server.Event)
    : list (Op (num := num)) :=
  match e with
  | Server.Join sock rl lang voice uuid oDoctor oPatient now =>
      if Server.isEmpty rl || Server.isEmpty lang || Server.isEmpty voice then []
      else
        match addUser (Server.sessionManager st) sock (mkUserData rl lang voice (Some sock))
                uuid now with
        | (sm, Throw _) => []
        | (sm, Ok session) =>
            match Server.slotUser sm (doctor session), Server.slotUser sm (patient session) with
            | Some d, Some p =>
                match socket d, socket p with
                | Some ds, Some ps =>
                    [Start oDoctor (id session) ds (language d) (language p) (voiceId p)
                       (Some ds) "doctor" now;
                     Start oPatient (id session) ps (language p) (language d) (voiceId d)
                       (Some ps) "patient" now]
                | _, _ => []
                end
            | _, _ => []
            end
        end
  | Server.Audio sock frame now => [Audio sock frame now]
  | Server.Disconnect sock reason now => [Stop sock]
  | Server.Partial uid r o now => [Partial uid r o now]
  | Server.Final uid r o now => [Final uid r o now]
  | Server.Timer uid o now => [Timer uid o now]
  | Server.RecognizerOpen uid => [RecognizerOpen uid]
  end.

Fixpoint serverLog {num} `{Number num} (st : Server.t (num := num))
    (events : list Server.Event) : list Entry :=
  match events with
  | [] => []
  | e :: rest =>
      logOf (Server.streamingPipeline st) (opsOf st e) ++ serverLog (Server.step st e) rest
  end.

End PipelineRuns.


(** ** The string primitives *)

Module JsFacts.

(** [dropWhile] removes the longest prefix of elements that satisfy [p]. *)
Lemma dropWhile_spec {A} (p : A -> bool) (l : list A) :
  exists pre, l = pre ++ Js.dropWhile p l
              /\ forallb p pre = true
              /\ match Js.dropWhile p l with
                 | x :: _ => p x = false
                 | [] => True
                 end.
Proof.
  induction l as [|x l IH]; cbn [Js.dropWhile].
  - exists []. repeat split.
  - destruct (p x) eqn:E.
    + destruct IH as (pre & Heq & Hall & Hhead).
      exists (x :: pre). cbn [forallb app]. rewrite E, Hall. repeat split; [|exact Hhead].
      now rewrite <- Heq.
    + exists []. repeat split. exact E.
Qed.

(** [dropWhileEnd] removes the longest suffix of elements that satisfy
    [p]: what [trim] does at the end with the white space, and the
    replacement of [/[.,!?\s]+$/] with these four marks and the white
    space. *)
Lemma dropWhileEnd_spec {A} (p : A -> bool) (l : list A) :
  exists junk, l = Js.dropWhileEnd p l ++ junk
               /\ forallb p junk = true
               /\ match rev (Js.dropWhileEnd p l) with
                  | x :: _ => p x = false
                  | [] => True
                  end.
Proof.
  unfold Js.dropWhileEnd.
  destruct (dropWhile_spec p (rev l)) as (pre & Heq & Hall & Hhead).
  exists (rev pre). split; [|split].
  - rewrite <- rev_app_distr, <- Heq. now rewrite rev_involutive.
  - rewrite forallb_forall in *. intros x Hin. apply Hall. now apply in_rev.
  - rewrite rev_involutive. exact Hhead.
Qed.

(** A text that ends in none of the trimmed or stripped characters is
    left alone. *)
Lemma dropWhileEnd_keeps {A} (p : A -> bool) (l : list A) x :
  p x = false -> Js.dropWhileEnd p (l ++ [x]) = l ++ [x].
Proof.
  intros Hx. unfold Js.dropWhileEnd. rewrite rev_app_distr. cbn [rev app Js.dropWhile].
  rewrite Hx. cbn [rev]. now rewrite rev_involutive.
Qed.

End JsFacts.

(** ** The string and number primitives at small inputs *)

Module PrimitiveExamples.

(** [" Hello  there ".trim()] and [split(/\s+/)]; the empty string splits
    into one empty word, so a blank text counts one word. *)
Example trim_example : Js.trim "  Hello  there " = "Hello  there".
Proof. reflexivity. Qed.

(** [trim] removes the white space and the line terminators of the
    language: here a no-break space in front, a byte order mark and a line
    separator behind. *)
Example trim_unicode :
  Js.points (Js.trim (Js.ofPoints [160; 97; 32; 98; 65279; 8232]%N)) = [97; 32; 98]%N.
Proof. vm_compute. reflexivity. Qed.

(** [length] counts UTF-16 code units: one for each letter of the Basic
    Multilingual Plane, two for a character beyond it. *)
Example length_example :
  Js.length "ağrı" = 4 /\ String.length "ağrı" = 6 /\ Js.length (Js.ofPoints [128512]%N) = 2.
Proof. repeat split; vm_compute; reflexivity. Qed.

(** [toLowerCase] follows the Unicode case mapping, without a locale:
    Turkish capitals, the dotted capital I (which becomes [i] and a
    combining dot) and the final sigma. *)
Example toLowerCase_example :
  Js.toLowerCase "Hello ŞİMDİ Ağrı ÇOK" = Js.ofPoints
    [104; 101; 108; 108; 111; 32; 351; 105; 775; 109; 100; 105; 775; 32;
     97; 287; 114; 305; 32; 231; 111; 107]%N
  /\ Js.toLowerCase "ÇĞÖŞÜ" = "çğöşü"
  /\ Js.points (Js.toLowerCase (Js.ofPoints [927; 916; 927; 931]%N)) = [959; 948; 959; 962]%N.
Proof. repeat split; vm_compute; reflexivity. Qed.

Example splitWs_example : Js.splitWs "a  b c" = ["a"; "b"; "c"].
Proof. reflexivity. Qed.

Example countWords_blank : Gate.countWords "   " = 1.
Proof. reflexivity. Qed.

Example countWords_example : Gate.countWords " I  have a fever. " = 4.
Proof. reflexivity. Qed.

(** The normal form used by the duplicate test: trimmed, in lower case,
    without the marks and the white space at its end; marks inside
    stay. *)
Example normalize_example :
  Pipeline.normalize "  Thank you!?  " = "thank you"
  /\ Pipeline.normalize "Hello, how are you?" = "hello, how are you"
  /\ Pipeline.normalize " Şimdi ÇOK ağrıyor . " = "şimdi çok ağrıyor"
  /\ Pipeline.normalize "No. 5" = "no. 5"
  /\ Pipeline.normalize "?!" = EmptyString.
Proof. repeat split; vm_compute; reflexivity. Qed.

(** [Buffer.from(text, 'base64')]: four letters give three bytes, the
    decoding stops at the padding, an incomplete last byte is dropped and
    characters outside the alphabet are skipped. *)
Example fromBase64_example :
  Buffer.fromBase64 "QUJD" = "ABC"
  /\ Buffer.fromBase64 "QUI=" = "AB"
  /\ Buffer.fromBase64 "QUI" = "AB"
  /\ Buffer.fromBase64 "QU JD" = "ABC"
  /\ Buffer.length (Buffer.fromBase64 "abc") = 2
  /\ Buffer.fromBase64 "QQ==QUJD" = "A".
Proof. repeat split; vm_compute; reflexivity. Qed.

(** Keywords are matched as substrings, in the order of the table. *)
Example detectMedicalTerms_example :
  Gate.detectMedicalTerms "I have a Fever and pain" = ["pain"; "fever"].
Proof. vm_compute. reflexivity. Qed.

(** [\b\w+ing\b] matches a word that ends in [ing] and is longer. *)
Example hasVerb_example :
  Gate.hasVerb "ring" "en" = true /\ Gate.hasVerb "this_is" "en" = false.
Proof. split; vm_compute; reflexivity. Qed.

(** The decimal literals of the source are the doubles nearest to them. *)
Example literals_are_doubles :
  F64.of_Q 0.35 = 0.35%float /\ F64.of_Q 0.15 = 0.15%float /\ F64.of_Q 0.85 = 0.85%float
  /\ F64.of_Q 0.8 = 0.8%float /\ F64.of_Q 0.6 = 0.6%float /\ F64.of_Q 0.4 = 0.4%float
  /\ F64.of_Q 1.2 = 1.2%float /\ F64.of_Q 0.92 = 0.92%float.
Proof. repeat split; vm_compute; reflexivity. Qed.

Example cacheKey_example : Synthesis.cacheKey "v1" "hello" "en" None = "v1-hello-en-neutral".
Proof. reflexivity. Qed.

End PrimitiveExamples.


(** * Properties *)

(** ** JavaScript maps *)

Module JsMapFacts.
Section Facts.
Context {V : Type}.
Implicit Types (m : JsMap.t V) (k : string) (v : V).

Lemma get_set_eq m k v : JsMap.get (JsMap.set m k v) k = Some v.
Proof.
  induction m as [|[k' v'] m IH]; simpl.
  - now rewrite String.eqb_refl.
  - destruct (String.eqb k' k) eqn:E; simpl.
    + now rewrite String.eqb_refl.
    + now rewrite E.
Qed.

Lemma get_set_ne m k k' v : k <> k' -> JsMap.get (JsMap.set m k v) k' = JsMap.get m k'.
Proof.
  intros Hne. induction m as [|[k0 v0] m IH]; simpl.
  - destruct (String.eqb k k') eqn:E; [apply String.eqb_eq in E; congruence | reflexivity].
  - destruct (String.eqb k0 k) eqn:E; simpl.
    + apply String.eqb_eq in E. subst k0.
      destruct (String.eqb k k') eqn:E'; [apply String.eqb_eq in E'; congruence | reflexivity].
    + destruct (String.eqb k0 k'); [reflexivity | exact IH].
Qed.

Lemma get_delete_eq m k : JsMap.get (JsMap.delete m k) k = None.
Proof.
  induction m as [|[k' v'] m IH]; simpl; [reflexivity|].
  destruct (String.eqb k' k) eqn:E; simpl; [exact IH | now rewrite E].
Qed.

Lemma get_delete_ne m k k' : k <> k' -> JsMap.get (JsMap.delete m k) k' = JsMap.get m k'.
Proof.
  intros Hne. induction m as [|[k0 v0] m IH]; simpl; [reflexivity|].
  destruct (String.eqb k0 k) eqn:E; simpl.
  - apply String.eqb_eq in E. subst k0.
    destruct (String.eqb k k') eqn:E'; [apply String.eqb_eq in E'; congruence | exact IH].
  - destruct (String.eqb k0 k'); [reflexivity | exact IH].
Qed.

Lemma delete_absent m k : JsMap.get m k = None -> JsMap.delete m k = m.
Proof.
  induction m as [|[k' v'] m IH]; simpl; [reflexivity|].
  destruct (String.eqb k' k) eqn:E; [discriminate|].
  intros Hg. now rewrite IH.
Qed.

Lemma get_In m k v : JsMap.get m k = Some v -> In (k, v) m.
Proof.
  induction m as [|[k' v'] m IH]; simpl; [discriminate|].
  destruct (String.eqb k' k) eqn:E.
  - apply String.eqb_eq in E. intros [= ->]. subst. now left.
  - intros Hg. right. now apply IH.
Qed.

Lemma In_keys_get m k : In k (JsMap.keys m) <-> exists v, JsMap.get m k = Some v.
Proof.
  induction m as [|[k' v'] m IH]; simpl.
  - split; [tauto | intros [v Hv]; discriminate].
  - destruct (String.eqb k' k) eqn:E.
    + apply String.eqb_eq in E. split; [eauto | now left].
    + apply String.eqb_neq in E. rewrite <- IH. split; [intros [?|?]; [congruence | assumption] | now right].
Qed.
Lemma get_set m k k' v :
  JsMap.get (JsMap.set m k v) k' = if String.eqb k k' then Some v else JsMap.get m k'.
Proof.
  destruct (String.eqb k k') eqn:E.
  - apply String.eqb_eq in E. subst. apply get_set_eq.
  - apply String.eqb_neq in E. now apply get_set_ne.
Qed.

Lemma get_delete_Some m k k' v :
  JsMap.get (JsMap.delete m k) k' = Some v -> JsMap.get m k' = Some v.
Proof.
  destruct (String.eqb k k') eqn:E.
  - apply String.eqb_eq in E. subst. now rewrite get_delete_eq.
  - apply String.eqb_neq in E. now rewrite get_delete_ne.
Qed.

Lemma find_set_own (P : string * V -> bool) m k v :
  (forall v', P (k, v') = false) ->
  List.find P (JsMap.set m k v) = List.find P m.
Proof.
  intros HP. induction m as [|[k' v'] m IH]; simpl.
  - now rewrite HP.
  - destruct (String.eqb k' k) eqn:E; simpl.
    + apply String.eqb_eq in E. subst k'. now rewrite !HP.
    + now rewrite IH.
Qed.

Lemma In_set_other m k v k' v' :
  k' <> k -> In (k', v') (JsMap.set m k v) -> In (k', v') m.
Proof.
  intros Hne. induction m as [|[k0 v0] m IH]; simpl.
  - intros [[= <- <-]|[]]. congruence.
  - destruct (String.eqb k0 k) eqn:E; simpl.
    + intros [[= <- <-]|Hin]; [congruence | now right].
    + intros [Heq|Hin]; [now left | right; now apply IH].
Qed.

Lemma In_delete m k k' v' :
  In (k', v') (JsMap.delete m k) -> In (k', v') m.
Proof.
  induction m as [|[k0 v0] m IH]; simpl; [tauto|].
  destruct (String.eqb k0 k); simpl; [now right; apply IH|].
  intros [Heq|Hin]; [now left | right; now apply IH].
Qed.

Lemma In_set m k v k' v' :
  In (k', v') (JsMap.set m k v) -> (k' = k /\ v' = v) \/ In (k', v') m.
Proof.
  induction m as [|[k0 v0] m IH]; simpl.
  - intros [[= <- <-]|[]]. now left.
  - destruct (String.eqb k0 k) eqn:E; simpl.
    + intros [[= <- <-]|Hin]; [now left | right; now right].
    + intros [Heq|Hin]; [right; now left|].
      destruct (IH Hin) as [Hl|Hr]; [now left | right; now right].
Qed.

Lemma In_set_self m k v : In (k, v) (JsMap.set m k v).
Proof.
  induction m as [|[k' v'] m IH]; simpl; [now left|].
  destruct (String.eqb k' k); [now left | now right].
Qed.
End Facts.
End JsMapFacts.

(** ** Session manager: the pairing rule *)

Module SessionManagerFacts.
Import SessionManager JsMapFacts.

Lemma findIndex_Some {A} (p : A -> bool) l i :
  findIndex p l = Some i ->
  exists x, l !! i = Some x /\ p x = true
            /\ forall j y, j < i -> l !! j = Some y -> p y = false.
Proof.
  revert i. induction l as [|a l IH]; intros i; simpl; [discriminate|].
  destruct (p a) eqn:Ea.
  - intros [= <-]. exists a. repeat split; auto. intros j y Hj. lia.
  - destruct (findIndex p l) as [i'|] eqn:E; simpl; [|discriminate].
    intros [= <-]. destruct (IH i' eq_refl) as (x & Hx & Hp & Hbefore).
    exists x. repeat split; auto.
    intros [|j] y Hj; simpl.
    + intros [= <-]. exact Ea.
    + intros Hy. apply (Hbefore j); [lia | exact Hy].
Qed.

Lemma findIndex_None {A} (p : A -> bool) l :
  findIndex p l = None -> forall x, In x l -> p x = false.
Proof.
  induction l as [|a l IH]; simpl; [tauto|].
  destruct (p a) eqn:Ea; [discriminate|].
  destruct (findIndex p l); simpl; [discriminate|].
  intros _ x [<-|Hx]; auto.
Qed.

Lemma findIndex_first {A} (p : A -> bool) l i x :
  l !! i = Some x -> p x = true ->
  (forall j y, j < i -> l !! j = Some y -> p y = false) ->
  findIndex p l = Some i.
Proof.
  revert i. induction l as [|a l IH]; intros [|i]; simpl; try discriminate.
  - intros [= ->] Hp _. now rewrite Hp.
  - intros Hx Hp Hbefore.
    rewrite (Hbefore 0 a); [|lia|reflexivity].
    rewrite (IH i); [reflexivity | exact Hx | exact Hp |].
    intros j y Hj Hy. apply (Hbefore (S j)); [lia | exact Hy].
Qed.

Lemma findIndex_all_false {A} (p : A -> bool) l :
  (forall x, In x l -> p x = false) -> findIndex p l = None.
Proof.
  induction l as [|a l IH]; simpl; [reflexivity|].
  intros Hall. rewrite (Hall a); [|now left].
  rewrite IH; [reflexivity|]. intros x Hx. apply Hall. now right.
Qed.

Lemma findIndex_ext {A} (p q : A -> bool) l :
  (forall x, p x = q x) -> findIndex p l = findIndex q l.
Proof.
  intros Hpq. induction l as [|a l IH]; simpl; [reflexivity|].
  now rewrite Hpq, IH.
Qed.

(** [update] on the heap. *)
Lemma length_update h r f : length (update h r f) = length h.
Proof. unfold update. destruct (h !! r); [apply length_insert | reflexivity]. Qed.

Lemma lookup_update_ne h r r' f : r <> r' -> update h r f !! r' = h !! r'.
Proof.
  intros Hne. unfold update. destruct (h !! r); [|reflexivity].
  now apply list_lookup_insert_ne.
Qed.

Lemma lookup_update_eq h r f : update h r f !! r = f <$> h !! r.
Proof.
  unfold update. destruct (h !! r) as [u|] eqn:E; simpl.
  - apply list_lookup_insert_eq. now apply lookup_lt_Some in E.
  - now rewrite E.
Qed.

Lemma lookup_update h r r' f :
  update h r f !! r' = if Nat.eqb r r' then f <$> h !! r' else h !! r'.
Proof.
  destruct (Nat.eqb r r') eqn:E.
  - apply Nat.eqb_eq in E. subst. apply lookup_update_eq.
  - apply Nat.eqb_neq in E. now apply lookup_update_ne.
Qed.

(** What the reconnection check leaves alone when it does not return. *)
Lemma reconnect_None_frame st sid d :
  snd (reconnect st sid d) = None ->
  let st0 := fst (reconnect st sid d) in
  waitingDoctors st0 = waitingDoctors st
  /\ waitingPatients st0 = waitingPatients st
  /\ sessions st0 = sessions st
  /\ length (heap st0) = length (heap st)
  /\ forall r, language <$> heap st0 !! r = language <$> heap st !! r.
Proof.
  unfold reconnect.
  destruct (existingUser st d) as [r|]; [|simpl; auto].
  destruct (heap st !! r) as [u|] eqn:Hu; [|simpl; auto].
  destruct (truthy (sessionId u)) eqn:Ht; [|simpl; auto].
  destruct (sessionId u) as [sess|]; [|discriminate].
  simpl.
  destruct (JsMap.get (sessions st) sess) as [s|] eqn:Hs; simpl; [discriminate|].
  intros _. repeat split; try reflexivity.
  - apply length_insert.
  - intros r'. destruct (decide (r = r')) as [<-|Hne].
    + rewrite list_lookup_insert_eq by (now apply lookup_lt_Some in Hu).
      now rewrite Hu.
    + now rewrite list_lookup_insert_ne.
Qed.

(** Appending the joiner to the heap does not change which waiters differ
    in language from it. *)
Lemma languageDiffers_joiner st st0 u lang :
  length (heap st0) = length (heap st) ->
  (forall r, language <$> heap st0 !! r = language <$> heap st !! r) ->
  language u = lang ->
  forall w, languageDiffers (heap st0 ++ [u]) lang w = languageDiffers (heap st) lang w.
Proof.
  intros Hlen Hlang Hu w. unfold languageDiffers.
  destruct (lt_eq_lt_dec w (length (heap st0))) as [[Hlt|Heq]|Hgt].
  - rewrite lookup_app_l by exact Hlt.
    specialize (Hlang w).
    destruct (heap st0 !! w) as [a|], (heap st !! w) as [b|]; simpl in Hlang;
      try discriminate; [|reflexivity].
    now injection Hlang as ->.
  - subst w. rewrite list_lookup_middle by reflexivity.
    rewrite Hu, String.eqb_refl. simpl.
    rewrite lookup_ge_None_2 by lia. reflexivity.
  - rewrite lookup_ge_None_2 by (rewrite length_app; simpl; lia).
    rewrite lookup_ge_None_2 by lia. reflexivity.
Qed.

Lemma firstDiffering_findIndex st lang l i w :
  firstDiffering st lang l i w ->
  findIndex (languageDiffers (heap st) lang) l = Some i.
Proof.
  intros (Hi & (u & Hu & Hne) & Hbefore).
  apply (findIndex_first _ _ _ w); [exact Hi | |].
  - unfold languageDiffers. rewrite Hu.
    apply negb_true_iff, String.eqb_neq. exact Hne.
  - intros j y Hj Hy. unfold languageDiffers.
    destruct (heap st !! y) as [u'|] eqn:Hy'; [|reflexivity].
    apply negb_false_iff, String.eqb_eq. now apply (Hbefore j y).
Qed.

Lemma allSame_findIndex st lang l :
  allSame st lang l -> findIndex (languageDiffers (heap st) lang) l = None.
Proof.
  intros Hall. apply findIndex_all_false. intros w Hw. unfold languageDiffers.
  destruct (heap st !! w) as [u|] eqn:Hu; [|reflexivity].
  apply negb_false_iff, String.eqb_eq. now apply (Hall w).
Qed.

(** The converse readings: what [findIndex] finds is the first differing
    waiter, and when it finds nothing all waiters speak the language. *)
Lemma findIndex_firstDiffering st lang l i :
  findIndex (languageDiffers (heap st) lang) l = Some i ->
  exists w, firstDiffering st lang l i w.
Proof.
  intros H. apply findIndex_Some in H as (w & Hw & Hp & Hbefore).
  exists w. split; [exact Hw|]. split.
  - unfold languageDiffers in Hp. destruct (heap st !! w) as [u|]; [|discriminate].
    exists u. split; [reflexivity|]. now apply String.eqb_neq, negb_true_iff.
  - intros j w' u' Hj Hw' Hu'. specialize (Hbefore j w' Hj Hw').
    unfold languageDiffers in Hbefore. rewrite Hu' in Hbefore.
    now apply String.eqb_eq, negb_false_iff.
Qed.

Lemma findIndex_allSame st lang l :
  findIndex (languageDiffers (heap st) lang) l = None -> allSame st lang l.
Proof.
  intros H w u Hw Hu. pose proof (findIndex_None _ _ H w Hw) as Hp.
  unfold languageDiffers in Hp. rewrite Hu in Hp.
  now apply String.eqb_eq, negb_false_iff.
Qed.

(** [splice(i, 1)] takes out the element at index [i] and nothing else. *)
Lemma splice1_spec {A} (l : list A) i w :
  l !! i = Some w ->
  exists pre post, l = pre ++ w :: post /\ length pre = i /\ splice1 l i = pre ++ post.
Proof.
  intros Hi. exists (take i l), (drop (S i) l). split; [|split].
  - symmetry. now apply take_drop_middle.
  - apply lookup_lt_Some in Hi. rewrite length_take. lia.
  - reflexivity.
Qed.

(** C2.  A join that is not a reconnection, with role doctor or patient,
    creates a user object [p] registered under the joining socket id.  If
    the opposite-role queue holds a waiter whose language differs from the
    joiner's, the first such waiter (in queue order) is removed from that
    queue, the joiner's own queue is untouched, and an active session
    holding exactly [p] and that waiter is created, stored and returned.
    If every opposite-role waiter speaks the joiner's language, nobody is
    paired: [p] is appended to its own queue and a pending session holding
    only [p] is created, stored and returned.  The removal is stated on
    the queue itself: it was [pre ++ w :: post] with [w] at the index of
    the first differing waiter, and it is [pre ++ post] afterwards. *)
Theorem addUser_pairs_first_differing_language st sid d uuid now :
  snd (reconnect st sid d) = None ->
  d_role d = "doctor" \/ d_role d = "patient" ->
  let p := length (heap st) in
  let st' := fst (addUser st sid d uuid now) in
  let res := snd (addUser st sid d uuid now) in
  JsMap.get (users st') sid = Some p
  /\ (exists u, heap st' !! p = Some u
                /\ role u = d_role d /\ language u = d_language d
                /\ voiceId u = d_voiceId d /\ socketId u = sid
                /\ sessionId u = Some uuid)
  /\ (forall i w,
        firstDiffering st (d_language d) (waitingOpposite (d_role d) st) i w ->
        (exists pre post,
            waitingOpposite (d_role d) st = pre ++ w :: post /\ length pre = i
            /\ waitingOpposite (d_role d) st' = pre ++ post)
        /\ waitingOwn (d_role d) st' = waitingOwn (d_role d) st
        /\ (exists u, heap st' !! w = Some u /\ sessionId u = Some uuid)
        /\ exists s, res = Ok s /\ id s = uuid /\ status s = active
                     /\ ownSlot (d_role d) s = Some p
                     /\ oppositeSlot (d_role d) s = Some w
                     /\ JsMap.get (sessions st') uuid = Some s)
  /\ (allSame st (d_language d) (waitingOpposite (d_role d) st) ->
        waitingOwn (d_role d) st' = waitingOwn (d_role d) st ++ [p]
        /\ waitingOpposite (d_role d) st' = waitingOpposite (d_role d) st
        /\ exists s, res = Ok s /\ id s = uuid /\ status s = pending
                     /\ ownSlot (d_role d) s = Some p
                     /\ oppositeSlot (d_role d) s = None
                     /\ JsMap.get (sessions st') uuid = Some s).
Proof.
  intros Hrec Hrole p st' res. subst p st' res.
  pose proof (reconnect_None_frame st sid d Hrec) as (HwD & HwP & Hsess & Hlen & Hlang).
  unfold addUser.
  destruct (reconnect st sid d) as [st0 o] eqn:Er. simpl in *. subst o.
  set (user := mkUser sid (d_role d) (d_language d) (d_voiceId d) (d_socket d) now None).
  assert (Hdiff : forall w, languageDiffers (heap st0 ++ [user]) (d_language d) w
                            = languageDiffers (heap st) (d_language d) w)
    by (apply languageDiffers_joiner; auto).
  assert (Hp : (heap st0 ++ [user]) !! length (heap st0) = Some user)
    by (now apply list_lookup_middle).
  rewrite <- Hlen.
  unfold joinFresh. fold user.
  destruct Hrole as [Hr|Hr]; rewrite Hr; simpl String.eqb; cbv iota;
    unfold waitingOpposite, waitingOwn, ownSlot, oppositeSlot; simpl String.eqb; cbv iota;
    cbn [waitingPatients waitingDoctors with_users with_heap heap users sessions];
    rewrite (findIndex_ext _ _ _ Hdiff).
  - (* a doctor joins *)
    rewrite HwP.
    destruct (findIndex (languageDiffers (heap st) (d_language d)) (waitingPatients st))
      as [i|] eqn:Efi.
    + destruct (findIndex_firstDiffering _ _ _ _ Efi) as (w & Hw).
      pose proof Hw as (Hi & (uw & Huw & _) & _).
      rewrite Hi.
      assert (Hwlt : w < length (heap st0)) by (rewrite Hlen; now apply lookup_lt_Some in Huw).
      assert (Hne : length (heap st0) <> w) by lia.
      cbn -[update JsMap.set JsMap.get splice1 String.eqb].
      assert (Ew : Nat.eqb w (length (heap st0)) = false) by (apply Nat.eqb_neq; lia).
      assert (Ew' : Nat.eqb (length (heap st0)) w = false) by now apply Nat.eqb_neq.
      rewrite !lookup_update, !Nat.eqb_refl, ?Ew, ?Ew'. rewrite Hp.
      split; [apply get_set_eq|].
      split; [eexists; split; [reflexivity|]; cbn; rewrite Hr; auto 10|].
      split.
      * intros i' w' Hw'. pose proof Hw' as (Hi' & _).
        apply firstDiffering_findIndex in Hw'.
        rewrite Efi in Hw'. injection Hw' as <-.
        rewrite Hi in Hi'. injection Hi' as <-.
        split; [exact (splice1_spec (waitingPatients st) i w Hi)|]. split; [exact HwD|].
        split.
        -- rewrite !lookup_update, ?Ew', ?Ew, ?Nat.eqb_refl.
           rewrite lookup_app_l by exact Hwlt.
           specialize (Hlang w). rewrite Huw in Hlang.
           destruct (heap st0 !! w) as [uw0|]; [|discriminate].
           eexists; split; [reflexivity|reflexivity].
        -- eexists. split; [reflexivity|]. cbn. rewrite Hsess.
           repeat split; try reflexivity. apply get_set_eq.
      * intros Hall. apply allSame_findIndex in Hall. congruence.
    + cbn -[update JsMap.set JsMap.get splice1 String.eqb].
      rewrite Hp. cbn [role user]. rewrite Hr. simpl String.eqb. cbv iota.
      cbn -[update JsMap.set JsMap.get splice1 String.eqb].
      rewrite !lookup_update, !Nat.eqb_refl. rewrite Hp.
      split; [apply get_set_eq|].
      split; [eexists; split; [reflexivity|]; cbn; rewrite Hr; auto 10|].
      split.
      * intros i w Hw. apply firstDiffering_findIndex in Hw. congruence.
      * intros _. split; [now rewrite HwD|]. split; [exact HwP|].
        eexists. split; [reflexivity|]. cbn. repeat split; try reflexivity.
        rewrite Hsess. apply get_set_eq.
  - (* a patient joins *)
    rewrite HwD.
    destruct (findIndex (languageDiffers (heap st) (d_language d)) (waitingDoctors st))
      as [i|] eqn:Efi.
    + destruct (findIndex_firstDiffering _ _ _ _ Efi) as (w & Hw).
      pose proof Hw as (Hi & (uw & Huw & _) & _).
      rewrite Hi.
      assert (Hwlt : w < length (heap st0)) by (rewrite Hlen; now apply lookup_lt_Some in Huw).
      assert (Hne : length (heap st0) <> w) by lia.
      cbn -[update JsMap.set JsMap.get splice1 String.eqb].
      rewrite !lookup_update, !Nat.eqb_refl.
      assert (Ew : Nat.eqb w (length (heap st0)) = false) by (apply Nat.eqb_neq; lia).
      assert (Ew' : Nat.eqb (length (heap st0)) w = false) by now apply Nat.eqb_neq.
      rewrite ?Ew, ?Ew'. rewrite Hp.
      split; [apply get_set_eq|].
      split; [eexists; split; [reflexivity|]; cbn; rewrite Hr; auto 10|].
      split.
      * intros i' w' Hw'. pose proof Hw' as (Hi' & _).
        apply firstDiffering_findIndex in Hw'.
        rewrite Efi in Hw'. injection Hw' as <-.
        rewrite Hi in Hi'. injection Hi' as <-.
        split; [exact (splice1_spec (waitingDoctors st) i w Hi)|]. split; [exact HwP|].
        split.
        -- rewrite !lookup_update, ?Ew', ?Ew, ?Nat.eqb_refl.
           rewrite lookup_app_l by exact Hwlt.
           specialize (Hlang w). rewrite Huw in Hlang.
           destruct (heap st0 !! w) as [uw0|]; [|discriminate].
           eexists; split; [reflexivity|reflexivity].
        -- eexists. split; [reflexivity|]. cbn. rewrite Hsess.
           repeat split; try reflexivity. apply get_set_eq.
      * intros Hall. apply allSame_findIndex in Hall. congruence.
    + cbn -[update JsMap.set JsMap.get splice1 String.eqb].
      rewrite Hp. cbn [role user]. rewrite Hr. simpl String.eqb. cbv iota.
      cbn -[update JsMap.set JsMap.get splice1 String.eqb].
      rewrite !lookup_update, !Nat.eqb_refl. rewrite Hp.
      split; [apply get_set_eq|].
      split; [eexists; split; [reflexivity|]; cbn; rewrite Hr; auto 10|].
      split.
      * intros i w Hw. apply firstDiffering_findIndex in Hw. congruence.
      * intros _. split; [now rewrite HwP|]. split; [exact HwD|].
        eexists. split; [reflexivity|]. cbn. repeat split; try reflexivity.
        rewrite Hsess. apply get_set_eq.
Qed.
(** Three patients wait, speaking Turkish, English and German; a
    Turkish-speaking doctor joins.  The first patient speaks the doctor's
    language, so the second one is taken out of the middle of the queue
    and the other two stay, in their order. *)
Lemma addUser_pairs_first_differing_language_witness :
  let st1 := fst (addUser init "s1" (mkUserData "patient" "tr" "v1" (Some "s1")) "session-1" 1000) in
  let st2 := fst (addUser st1 "s2" (mkUserData "patient" "en" "v2" (Some "s2")) "session-2" 2000) in
  let st := fst (addUser st2 "s3" (mkUserData "patient" "de" "v3" (Some "s3")) "session-3" 3000) in
  let d := mkUserData "doctor" "tr" "v4" (Some "s4") in
  waitingPatients st = [0; 1; 2]
  /\ waitingPatients (fst (addUser st "s4" d "session-4" 4000)) = [0; 2]
  /\ waitingDoctors (fst (addUser st "s4" d "session-4" 4000)) = []
  /\ exists s, snd (addUser st "s4" d "session-4" 4000) = Ok s
               /\ status s = active /\ doctor s = Some 3 /\ patient s = Some 1.
Proof.
  intros st1 st2 st d.
  assert (H1 : snd (reconnect st "s4" d) = None) by reflexivity.
  assert (H2 : d_role d = "doctor" \/ d_role d = "patient") by (left; reflexivity).
  assert (Hfd : firstDiffering st (d_language d) (waitingOpposite (d_role d) st) 1 1).
  { split; [reflexivity|]. split.
    - eexists. split; [reflexivity|]. discriminate.
    - intros j w' u' Hj Hl Hu. assert (j = 0) by lia. subst j.
      vm_compute in Hl. injection Hl as <-. vm_compute in Hu. injection Hu as <-.
      reflexivity. }
  destruct (addUser_pairs_first_differing_language st "s4" d "session-4" 4000 H1 H2)
    as (_ & _ & Hpair & _).
  destruct (Hpair 1 1 Hfd)
    as ((pre & post & Hsplit & Hlen & Hopp) & Hown & _ & s & Hs & _ & Hact & Hd & Hp & _).
  split; [reflexivity|].
  change (waitingOpposite (d_role d) st) with [0; 1; 2] in Hsplit.
  destruct pre as [|a [|b pre]]; cbn in Hlen; try discriminate Hlen.
  cbn in Hsplit. injection Hsplit as <- <-.
  split; [exact Hopp|]. split; [exact Hown|]. exists s. auto.
Defined.

End SessionManagerFacts.


(** ** Session manager: reconnection *)

Module ReconnectFacts.
Import SessionManager JsMapFacts SessionManagerFacts.

(** What a reconnection leaves alone: the sessions, both queues and the
    size of the heap; it returns the session the user already had. *)
Lemma reconnect_frame st sid d r u sess s :
  existingUser st d = Some r ->
  heap st !! r = Some u ->
  sessionId u = Some sess -> sess <> EmptyString ->
  JsMap.get (sessions st) sess = Some s ->
  forall uuid now,
    let st' := fst (addUser st sid d uuid now) in
    snd (addUser st sid d uuid now) = Ok s
    /\ sessions st' = sessions st
    /\ waitingDoctors st' = waitingDoctors st
    /\ waitingPatients st' = waitingPatients st
    /\ length (heap st') = length (heap st)
    /\ (exists u', heap st' !! r = Some u' /\ socketId u' = sid /\ socket u' = d_socket d
                   /\ role u' = role u /\ language u' = language u
                   /\ voiceId u' = voiceId u /\ sessionId u' = sessionId u).
Proof.
  intros He Hu Hs Hne Hsess uuid now. unfold addUser, reconnect.
  rewrite He, Hu, Hs. simpl truthy.
  apply String.eqb_neq in Hne. rewrite Hne. simpl negb. cbv iota.
  cbn [sessions with_users with_heap]. rewrite Hsess.
  cbn -[resocketSlot]. repeat split.
  - unfold resocketSlot.
    repeat match goal with
           | |- context [if ?b then _ else _] => destruct b
           | |- context [match ?o with Some _ => _ | None => _ end] => destruct o
           end; rewrite ?length_update, ?length_insert; reflexivity.
  - assert (Hr : (<[r := set_socket sid (d_socket d) u]> (heap st)) !! r
                 = Some (set_socket sid (d_socket d) u))
      by (apply list_lookup_insert_eq; now apply lookup_lt_Some in Hu).
    assert (Hstep : forall h slot,
               h !! r = Some (set_socket sid (d_socket d) u) ->
               resocketSlot h slot sid sid (d_socket d) !! r
               = Some (set_socket sid (d_socket d) u)).
    { intros h slot Hh. unfold resocketSlot.
      destruct (slotHasSocketId h slot sid); [|exact Hh].
      destruct slot as [r'|]; [|exact Hh].
      rewrite lookup_update. destruct (Nat.eqb r' r); [|exact Hh].
      now rewrite Hh. }
    eexists. split; [apply Hstep, Hstep, Hr|]. cbn. auto 10.
Qed.

(** The defect of the reconnect branch, in general: the key under which
    the user was registered is still there afterwards, next to the new
    one. *)
Lemma reconnect_leaves_stale_key st sid d r u sess s old :
  existingUser st d = Some r ->
  heap st !! r = Some u ->
  sessionId u = Some sess -> sess <> EmptyString ->
  JsMap.get (sessions st) sess = Some s ->
  JsMap.get (users st) old = Some r -> old <> sid ->
  forall uuid now,
    let st' := fst (addUser st sid d uuid now) in
    JsMap.get (users st') old = Some r /\ JsMap.get (users st') sid = Some r.
Proof.
  intros He Hu Hs Hne Hsess Hold Hdiff uuid now. unfold addUser, reconnect.
  rewrite He, Hu, Hs. simpl truthy.
  apply String.eqb_neq in Hne. rewrite Hne. simpl negb. cbv iota.
  cbn [sessions with_users with_heap]. rewrite Hsess.
  cbn -[resocketSlot JsMap.get JsMap.set JsMap.delete]. split.
  - rewrite get_set_ne by congruence. rewrite get_delete_ne by congruence. exact Hold.
  - apply get_set_eq.
Qed.

(** C7, at the failing input: a doctor joins on socket [s1] and joins
    again, same role, language and voice, on socket [s2].  The second join
    is a reconnection and returns the session of the first, but the user
    object is now registered under both socket ids. *)
Theorem reconnect_registers_two_keys :
  let d := mkUserData "doctor" "tr" "v_tr" in
  let st1 := fst (addUser init "s1" (d (Some "s1")) "session-1" 1000) in
  let st2 := fst (addUser st1 "s2" (d (Some "s2")) "session-2" 2000) in
  (exists s, snd (addUser st1 "s2" (d (Some "s2")) "session-2" 2000) = Ok s
             /\ id s = "session-1")
  /\ users st2 = [("s1", 0); ("s2", 0)]
  /\ length (List.filter (fun kv => Nat.eqb (snd kv) 0) (JsMap.entries (users st2))) = 2.
Proof.
  cbv zeta. split; [eexists; split; reflexivity|]. split; reflexivity.
Qed.

End ReconnectFacts.

(** ** Socket handlers: the disconnect notice *)

Module ServerFacts.
Section WithNumber.
Context {num : Type} `{Number num}.
Import SessionManager Server JsMapFacts.

(** C10.  When the socket of a user in an active session closes and the
    partner has a socket, the messages the handler sends are, in order:
    the handler's own [partner-disconnected], the [partner-disconnected]
    of [removeUser], and [waiting-for-partner]: the partner's socket gets
    [partner-disconnected] exactly twice. *)
Theorem disconnect_notifies_partner_twice (st : Server.t (num := num)) sock reason now
    r user sess s o partner psock :
  JsMap.get (users (sessionManager st)) sock = Some r ->
  heap (sessionManager st) !! r = Some user ->
  sessionId user = Some sess -> sess <> EmptyString ->
  JsMap.get (sessions (sessionManager st)) sess = Some s ->
  status s = active ->
  otherSlot user s = Some o ->
  heap (sessionManager st) !! o = Some partner ->
  socket partner = Some psock ->
  snd (disconnect st sock reason now)
  = [mkEmit psock (partner_disconnected (role user ++ " disconnected") (Some reason));
     mkEmit psock (partner_disconnected ("The " ++ role user ++ " has disconnected") None);
     mkEmit psock (waiting_for_partner
                     (if String.eqb (role partner) "doctor" then "patient" else "doctor"))]
  /\ partnerDisconnectedCount psock (snd (disconnect st sock reason now)) = 2.
Proof.
  intros Hr Hu Hs Hne Hsess Hact Ho Hp Hsock.
  assert (Htrace :
    snd (disconnect st sock reason now)
    = [mkEmit psock (partner_disconnected (role user ++ " disconnected") (Some reason));
       mkEmit psock (partner_disconnected ("The " ++ role user ++ " has disconnected") None);
       mkEmit psock (waiting_for_partner
                       (if String.eqb (role partner) "doctor" then "patient" else "doctor"))]).
  { apply String.eqb_neq in Hne.
    unfold disconnect, notifyPartner, getPartnerInfo, getUser, getSession, removeUser, slotUser.
    rewrite Hr. cbn [mbind option_bind]. rewrite Hu, Hs. cbn [mbind option_bind truthy].
    rewrite Hne. cbn [negb]. rewrite Hsess, Hact. cbn [status_eqb].
    rewrite Ho. cbn [mbind option_bind]. rewrite Hp. cbn [mbind option_bind].
    rewrite Hsock. cbn [heap sessions]. rewrite Hsess, Hact, Ho.
    cbn [mbind option_bind heap]. rewrite Hp, Hsock.
    destruct (String.eqb (role partner) "doctor"); reflexivity. }
  split; [exact Htrace|].
  rewrite Htrace. unfold partnerDisconnectedCount. cbn.
  rewrite String.eqb_refl. cbn.
  destruct (String.eqb (role partner) "doctor"); reflexivity.
Qed.

End WithNumber.

(** The scenario: a doctor and a patient are paired, then the doctor's
    socket closes. *)
Lemma disconnect_notifies_partner_twice_witness :
  let st1 := fst (Server.joinSession (num := float) Server.create "s1" "doctor" "tr" "v_tr"
                    "session-1" (Transcription.mkStart None None false false)
                    (Transcription.mkStart None None false false) 1000) in
  let st2 := fst (Server.joinSession st1 "s2" "patient" "en" "v_en"
                    "session-2" (Transcription.mkStart None None false false)
                    (Transcription.mkStart None None false false) 2000) in
  Server.partnerDisconnectedCount "s2" (snd (Server.disconnect st2 "s1" "transport close" 3000)) = 2.
Proof.
  intros st1 st2.
  refine (proj2 (disconnect_notifies_partner_twice st2 "s1" "transport close" 3000
                   0 (SessionManager.mkUser "s1" "doctor" "tr" "v_tr" (Some "s1") 1000 (Some "session-2"))
                   "session-2"
                   (SessionManager.mkSession "session-2" (Some 0) (Some 1) 2000
                      SessionManager.active None SessionManager.zeroStats)
                   1 (SessionManager.mkUser "s2" "patient" "en" "v_en" (Some "s2") 2000 (Some "session-2"))
                   "s2" _ _ _ _ _ _ _ _ _));
    try reflexivity; discriminate.
Defined.

End ServerFacts.


(** ** Pipeline: routing of synthesized audio, duplicates, audio frames *)

Module PipelineFacts.
Section WithNumber.
Context {num : Type} `{Number num}.
Import Pipeline JsMapFacts.
Implicit Types (st : Pipeline.t (num := num)) (uid : string).



(** Updating the speaker's own entry, session id kept, does not change who
    its partner is. *)
Lemma findPartnerSession_own_update st uid s s' :
  JsMap.get (activeSessions st) uid = Some s ->
  sessionId s' = sessionId s ->
  findPartnerSession (with_session st uid s') uid = findPartnerSession st uid.
Proof.
  intros Hg Hs. unfold findPartnerSession, with_session, with_sessions.
  cbn [activeSessions]. rewrite get_set_eq, Hg, Hs.
  apply find_set_own. intros v'. cbn. now rewrite String.eqb_refl.
Qed.

Lemma findPartnerSession_Some st uid pid ps :
  findPartnerSession st uid = Some (pid, ps) ->
  exists us, JsMap.get (activeSessions st) uid = Some us
             /\ In (pid, ps) (JsMap.entries (activeSessions st))
             /\ pid <> uid /\ sessionId ps = sessionId us /\ isActive ps = true.
Proof.
  unfold findPartnerSession.
  destruct (JsMap.get (activeSessions st) uid) as [us|]; [|discriminate].
  intros Hf. apply find_some in Hf as (Hin & Hp). cbn in Hp.
  apply andb_true_iff in Hp as (Hp & Hact). apply andb_true_iff in Hp as (Hk & Hsess).
  exists us. repeat split; auto.
  - apply negb_true_iff, String.eqb_neq in Hk. exact Hk.
  - now apply String.eqb_eq.
Qed.

(** [handleSynthesisChunk] sends at most one message, to the socket of the
    partner session. *)
Lemma handleSynthesisChunk_emits st uid chunk now e :
  In e (snd (handleSynthesisChunk st uid chunk now)) ->
  is_synthesized_audio (event e) = true
  /\ exists pid ps, findPartnerSession st uid = Some (pid, ps) /\ socket ps = Some (to e).
Proof.
  unfold handleSynthesisChunk.
  destruct (JsMap.get (activeSessions st) uid) as [session|] eqn:Hg; [|intros []].
  rewrite (findPartnerSession_own_update st uid session) by (exact Hg || reflexivity).
  destruct (findPartnerSession st uid) as [[pid ps]|]; [|intros []].
  destruct (socket ps) as [sock|] eqn:Hs; [|intros []].
  intros [<-|[]]. split; [reflexivity|]. exists pid, ps. split; [reflexivity | exact Hs].
Qed.

Lemma deliver_audio st o uid text translated own profile now e :
  In e (emits (snd (deliver st o uid text translated own profile now))) ->
  is_synthesized_audio (event e) = true ->
  exists pid ps, findPartnerSession st uid = Some (pid, ps) /\ socket ps = Some (to e).
Proof.
  unfold deliver.
  destruct (Synthesis.synthesizeText _ _ _ _ _ _ _ _) as [syn report].
  set (st1 := mk (activeSessions st) (transcriptionService st) syn (conversationProcessor st)
                 (emotionalProfiles st)).
  destruct (Synthesis.onAudioChunk report) as [chunk|].
  - destruct (handleSynthesisChunk st1 uid chunk now) as [st2 audio] eqn:Hh.
    cbn [snd emits]. intros Hin Haudio.
    rewrite !in_app_iff in Hin.
    destruct Hin as [Hin|[Hin|[Hin|[Hin|Hin]]]].
    + destruct Hin as [<-|[]]. discriminate.
    + destruct (findPartnerSession st uid) as [[pid ps]|]; [|destruct Hin].
      destruct (socket ps); [|destruct Hin]. destruct Hin as [<-|[]]. discriminate.
    + assert (Hin' : In e (snd (handleSynthesisChunk st1 uid chunk now))) by now rewrite Hh.
      apply handleSynthesisChunk_emits in Hin' as (_ & Hp). exact Hp.
    + destruct (Synthesis.onError report); [|destruct Hin].
      unfold handleSynthesisError in Hin.
      destruct (JsMap.get _ uid) as [s'|]; [|destruct Hin].
      destruct (socket s'); [|destruct Hin]. destruct Hin as [<-|[]]. discriminate.
    + destruct Hin as [<-|[]]. discriminate.
  - cbn [snd emits]. intros Hin Haudio.
    rewrite !in_app_iff in Hin.
    destruct Hin as [Hin|[Hin|[Hin|[Hin|Hin]]]].
    + destruct Hin as [<-|[]]. discriminate.
    + destruct (findPartnerSession st uid) as [[pid ps]|]; [|destruct Hin].
      destruct (socket ps); [|destruct Hin]. destruct Hin as [<-|[]]. discriminate.
    + destruct Hin.
    + destruct (Synthesis.onError report); [|destruct Hin].
      unfold handleSynthesisError in Hin.
      destruct (JsMap.get _ uid) as [s'|]; [|destruct Hin].
      destruct (socket s'); [|destruct Hin]. destruct Hin as [<-|[]]. discriminate.
    + destruct Hin as [<-|[]]. discriminate.
Qed.

Lemma processCompleteTranslation_audio st o uid text now e :
  In e (emits (snd (processCompleteTranslation st o uid text now))) ->
  is_synthesized_audio (event e) = true ->
  exists pid ps, findPartnerSession st uid = Some (pid, ps) /\ socket ps = Some (to e).
Proof.
  unfold processCompleteTranslation.
  destruct (JsMap.get (activeSessions st) uid) as [session|] eqn:Hg; [|intros []].
  destruct (isRepeat session (normalize text) now); [intros []|].
  set (s1 := with_lastProcessed session (normalize text) now).
  destruct (Translation.translate _ _ _ _) as [requests translation].
  assert (Hfail : forall details,
             In e (emits (seqEffects
                     (mkEffects [(text, userLanguage s1, partnerLanguage s1)] requests [] 0 [])
                     (mkEffects [] [] [] 0
                        match socket s1 with
                        | Some own => [mkEmit own (pipeline_error details)]
                        | None => []
                        end))) ->
             is_synthesized_audio (event e) = true -> False).
  { intros details Hin Haudio. cbn in Hin. destruct (socket session); [|destruct Hin].
    destruct Hin as [<-|[]]. discriminate. }
  destruct translation as [tr|msg]; [|cbn [snd]; intros Hin Ha; destruct (Hfail _ Hin Ha)].
  destruct (String.eqb (Translation.translatedText tr) EmptyString);
    [cbn [snd]; intros Hin Ha; destruct (Hfail _ Hin Ha)|].
  set (s2 := with_stats s1 (bump_translations (stats s1))).
  set (st2 := with_session (with_session st uid s1) uid s2).
  assert (Hpartner : findPartnerSession st2 uid = findPartnerSession st uid).
  { subst st2. rewrite (findPartnerSession_own_update _ uid s1).
    - now apply (findPartnerSession_own_update st uid session).
    - unfold with_session, with_sessions. cbn [activeSessions]. apply get_set_eq.
    - reflexivity. }
  match goal with
  | |- context [let '(st3, profile) := ?X in _] => destruct X as [st3 profile] eqn:Hemo
  end.
  assert (Hst3 : findPartnerSession st3 uid = findPartnerSession st uid).
  { rewrite <- Hpartner.
    destruct (String.eqb _ EmptyString); [now injection Hemo as <- _|].
    destruct (analyzeEmotionalContent o _); injection Hemo as <- _; reflexivity. }
  cbn [socket s2 with_stats s1 with_lastProcessed].
  destruct (socket session) as [own|]; [|intros []].
  destruct (deliver st3 o uid text (Translation.translatedText tr) own profile now)
    as [st4 effects] eqn:Hd.
  cbn [snd emits seqEffects]. cbn [app]. intros Hin Haudio.
  assert (Hin' : In e (emits (snd (deliver st3 o uid text (Translation.translatedText tr)
                                     own profile now)))) by now rewrite Hd.
  rewrite <- Hst3. now apply (deliver_audio _ _ _ _ _ _ _ _ _ Hin').
Qed.

(** Where the sockets are keyed, every [synthesized-audio] message that
    the translation of an utterance of [uid] emits goes to the socket of a
    partner session: an active entry under another key with the speaker's
    session id.  That socket is not the speaker's own, and a partner
    session exists. *)
Lemma keyed_audio_goes_to_partner st o uid text now e :
  socketKeyed st ->
  In e (emits (snd (processCompleteTranslation st o uid text now))) ->
  is_synthesized_audio (event e) = true ->
  toPartnerOf st uid e
  /\ (forall us, JsMap.get (activeSessions st) uid = Some us -> socket us <> Some (to e))
  /\ findPartnerSession st uid <> None.
Proof.
  intros Hkeyed Hin Haudio.
  destruct (processCompleteTranslation_audio st o uid text now e Hin Haudio)
    as (pid & ps & Hp & Hsock).
  destruct (findPartnerSession_Some st uid pid ps Hp) as (us & Hus & Hps & Hne & Hsess & Hact).
  split; [exists us, pid, ps; auto 10|]. split; [|congruence].
  intros us' Hus' Hown.
  apply get_In in Hus'.
  pose proof (Hkeyed _ _ _ Hus' Hown) as E1.
  pose proof (Hkeyed _ _ _ Hps Hsock) as E2.
  congruence.
Qed.

(** The same for the callback alone. *)
Lemma handleSynthesisChunk_goes_to_partner st uid chunk now e :
  socketKeyed st ->
  In e (snd (handleSynthesisChunk st uid chunk now)) ->
  toPartnerOf st uid e
  /\ (forall us, JsMap.get (activeSessions st) uid = Some us -> socket us <> Some (to e)).
Proof.
  intros Hkeyed Hin.
  destruct (handleSynthesisChunk_emits st uid chunk now e Hin) as (_ & pid & ps & Hp & Hsock).
  destruct (findPartnerSession_Some st uid pid ps Hp) as (us & Hus & Hps & Hne & Hsess & Hact).
  split; [exists us, pid, ps; auto 10|].
  intros us' Hus' Hown. apply get_In in Hus'.
  pose proof (Hkeyed _ _ _ Hus' Hown). pose proof (Hkeyed _ _ _ Hps Hsock). congruence.
Qed.

Lemma handleSynthesisChunk_no_partner st uid chunk now :
  findPartnerSession st uid = None -> snd (handleSynthesisChunk st uid chunk now) = [].
Proof.
  intros Hnone. destruct (snd (handleSynthesisChunk st uid chunk now)) as [|e l] eqn:E;
    [reflexivity|].
  assert (Hin : In e (snd (handleSynthesisChunk st uid chunk now))) by (rewrite E; now left).
  apply handleSynthesisChunk_emits in Hin as (_ & pid & ps & Hp & _). congruence.
Qed.

(** [startTranslationSession] and [stopTranslationSession] keep the
    sockets keyed when the session is started, as the join handler does,
    under the id of its socket. *)


Lemma stopTranslationSession_keyed st uid :
  socketKeyed st -> socketKeyed (stopTranslationSession st uid).
Proof.
  intros Hk. unfold stopTranslationSession.
  destruct (JsMap.get (activeSessions st) uid) as [info|]; [|exact Hk].
  intros k0 s0 sock Hin. cbn [activeSessions] in Hin. apply In_delete in Hin.
  now apply Hk.
Qed.

Lemma startTranslationSession_keyed st o sess sock userLang partnerLang partnerVoice rl now :
  socketKeyed st ->
  socketKeyed (fst (startTranslationSession st o sess sock userLang partnerLang partnerVoice
                      (Some sock) rl now)).
Proof.
  intros Hk. unfold startTranslationSession.
  destruct (Transcription.startStreamingTranscription _ _ _ _ _) as [ts started].
  set (info := mkInfo _ _ _ _ _ _ _ _ _ _ _ _ _ _).
  assert (Hset : forall k s sock', In (k, s) (JsMap.set (activeSessions st) sock info) ->
                                   socket s = Some sock' -> sock' = k).
  { intros k0 s0 sock' Hin Hs. apply In_set in Hin as [[-> ->]|Hin].
    - cbn in Hs. congruence.
    - now apply (Hk k0 s0). }
  destruct started; cbn [fst].
  - exact Hset.
  - unfold stopTranslationSession. cbn [activeSessions with_session with_sessions].
    destruct (JsMap.get _ sock) as [info'|].
    + intros k0 s0 sock' Hin. cbn [activeSessions] in Hin. apply In_delete in Hin.
      now apply Hset.
    + exact Hset.
Qed.

(** The handlers of the pipeline only replace entries by entries with
    the same socket, so they keep the sockets keyed. *)
Lemma socketKeyed_sessions st st' :
  activeSessions st' = activeSessions st -> socketKeyed st -> socketKeyed st'.
Proof. unfold socketKeyed. now intros ->. Qed.

Lemma socketKeyed_own st uid s sock :
  socketKeyed st -> JsMap.get (activeSessions st) uid = Some s ->
  socket s = Some sock -> sock = uid.
Proof. intros Hk Hg Hs. apply get_In in Hg. exact (Hk _ _ _ Hg Hs). Qed.

Lemma with_session_keyed st uid s' :
  socketKeyed st -> (forall sock, socket s' = Some sock -> sock = uid) ->
  socketKeyed (with_session st uid s').
Proof.
  intros Hk Hs k0 s0 sock Hin Hsock. unfold with_session, with_sessions in Hin.
  cbn [activeSessions] in Hin. apply In_set in Hin as [[-> ->]|Hin].
  - now apply Hs.
  - exact (Hk _ _ _ Hin Hsock).
Qed.

Lemma with_session_update_keyed st uid s s' :
  socketKeyed st -> JsMap.get (activeSessions st) uid = Some s -> socket s' = socket s ->
  socketKeyed (with_session st uid s').
Proof.
  intros Hk Hg Hs. apply with_session_keyed; [exact Hk|].
  intros sock Hsock. rewrite Hs in Hsock. exact (socketKeyed_own _ _ _ _ Hk Hg Hsock).
Qed.

Lemma get_with_session st uid s : JsMap.get (activeSessions (with_session st uid s)) uid = Some s.
Proof. unfold with_session, with_sessions. cbn [activeSessions]. apply get_set_eq. Qed.

Lemma processAudioData_keyed st uid frame now :
  socketKeyed st -> socketKeyed (fst (fst (processAudioData st uid frame now))).
Proof.
  intros Hk. unfold processAudioData.
  destruct (JsMap.get (activeSessions st) uid) as [session|] eqn:Hg; [|exact Hk].
  destruct (isActive session); [|exact Hk]. cbn [negb].
  destruct (Transcription.sendAudioData _ uid frame now) as [[ts effects] sent].
  set (st1 := mk (activeSessions st) ts (synthesisService st) (conversationProcessor st)
                 (emotionalProfiles st)).
  assert (Hk1 : socketKeyed st1) by exact Hk.
  assert (Hg1 : JsMap.get (activeSessions st1) uid = Some session) by exact Hg.
  destruct sent; [|exact Hk1]. cbn [fst].
  set (s1 := with_lastActivity (with_stats session (bump_audioChunks (stats session))) now).
  assert (Hk2 : socketKeyed (with_session st1 uid s1))
    by (apply (with_session_update_keyed st1 uid session); auto).
  apply with_session_keyed.
  - destruct (findPartnerSession (with_session st1 uid s1) uid) as [[pid ps]|] eqn:Hp;
      [|exact Hk2].
    apply with_session_keyed; [exact Hk2|].
    apply findPartnerSession_Some in Hp as (us & _ & Hin & _). intros sock Hs.
    exact (Hk2 _ _ _ Hin Hs).
  - intros sock Hs. exact (socketKeyed_own _ _ _ _ Hk Hg Hs).
Qed.

Lemma handleSynthesisChunk_keyed st uid chunk now :
  socketKeyed st -> socketKeyed (fst (handleSynthesisChunk st uid chunk now)).
Proof.
  intros Hk. unfold handleSynthesisChunk.
  destruct (JsMap.get (activeSessions st) uid) as [session|] eqn:Hg; [|exact Hk].
  assert (Hk1 : socketKeyed
                  (with_session st uid
                     (with_lastActivity
                        (with_stats session (bump_synthesisChunks (stats session))) now)))
    by (apply (with_session_update_keyed st uid session); auto).
  destruct (findPartnerSession _ uid) as [[pid ps]|]; [|exact Hk1].
  destruct (socket ps); exact Hk1.
Qed.

Lemma handleSynthesisComplete_keyed st uid now :
  socketKeyed st -> socketKeyed (handleSynthesisComplete st uid now).
Proof.
  intros Hk. unfold handleSynthesisComplete.
  destruct (JsMap.get (activeSessions st) uid) as [session|] eqn:Hg; [|exact Hk].
  apply (with_session_update_keyed st uid session); auto.
Qed.

Lemma deliver_keyed st o uid text translated own profile now :
  socketKeyed st -> socketKeyed (fst (deliver st o uid text translated own profile now)).
Proof.
  intros Hk. unfold deliver.
  destruct (Synthesis.synthesizeText _ _ _ _ _ _ _ _) as [syn report].
  set (st1 := mk (activeSessions st) (transcriptionService st) syn (conversationProcessor st)
                 (emotionalProfiles st)).
  assert (Hk1 : socketKeyed st1) by exact Hk.
  assert (Hk2 : socketKeyed (fst match Synthesis.onAudioChunk report with
                                 | Some chunk => handleSynthesisChunk st1 uid chunk now
                                 | None => (st1, [])
                                 end)).
  { destruct (Synthesis.onAudioChunk report) as [chunk|];
      [now apply handleSynthesisChunk_keyed | exact Hk1]. }
  destruct (match Synthesis.onAudioChunk report with
            | Some chunk => handleSynthesisChunk st1 uid chunk now
            | None => (st1, [])
            end) as [st2 audio].
  cbn [fst] in *.
  destruct (Synthesis.onComplete report); [now apply handleSynthesisComplete_keyed | exact Hk2].
Qed.

Lemma processCompleteTranslation_keyed st o uid text now :
  socketKeyed st -> socketKeyed (fst (processCompleteTranslation st o uid text now)).
Proof.
  intros Hk. unfold processCompleteTranslation.
  destruct (JsMap.get (activeSessions st) uid) as [session|] eqn:Hg; [|exact Hk].
  destruct (isRepeat session (normalize text) now); [exact Hk|].
  set (s1 := with_lastProcessed session (normalize text) now).
  assert (Hk1 : socketKeyed (with_session st uid s1))
    by (apply (with_session_update_keyed st uid session); auto).
  destruct (Translation.translate _ _ _ _) as [requests translation].
  destruct translation as [tr|msg]; [|exact Hk1].
  destruct (String.eqb (Translation.translatedText tr) EmptyString); [exact Hk1|].
  set (s2 := with_stats s1 (bump_translations (stats s1))).
  assert (Hk2 : socketKeyed (with_session (with_session st uid s1) uid s2)).
  { apply (with_session_update_keyed _ uid s1); [exact Hk1 | apply get_with_session|reflexivity]. }
  match goal with
  | |- context [let '(st3, profile) := ?X in _] => destruct X as [st3 profile] eqn:Hemo
  end.
  assert (Hk3 : socketKeyed st3).
  { destruct (String.eqb _ EmptyString); [now injection Hemo as <- _|].
    destruct (analyzeEmotionalContent o _); injection Hemo as <- _; exact Hk2. }
  destruct (socket s2) as [own|]; [|exact Hk3].
  pose proof (deliver_keyed st3 o uid text (Translation.translatedText tr) own profile now Hk3)
    as Hd.
  destruct (deliver _ _ _ _ _ _ _ _) as [st4 effects]. exact Hd.
Qed.

Lemma onReady_keyed o now events :
  forall st, socketKeyed st -> socketKeyed (fst (onReady st o events now)).
Proof.
  induction events as [|e rest IH]; intros st Hk; [exact Hk|].
  cbn [onReady].
  pose proof (processCompleteTranslation_keyed st o (Gate.rd_userId e) (Gate.rd_text e) now Hk)
    as H1.
  destruct (processCompleteTranslation _ _ _ _ _) as [st1 e1]. cbn [fst] in H1.
  specialize (IH st1 H1). destruct (onReady st1 o rest now) as [st2 e2]. exact IH.
Qed.

Lemma consider_keyed st o uid data now :
  socketKeyed st -> socketKeyed (fst (consider st o uid data now)).
Proof.
  intros Hk. unfold consider.
  destruct (Gate.processProfessionalTranscription _ _ _ _) as [gate events].
  apply onReady_keyed. exact Hk.
Qed.

Lemma handlePartialTranscription_keyed st o uid r now :
  socketKeyed st -> socketKeyed (fst (handlePartialTranscription st o uid r now)).
Proof.
  intros Hk. unfold handlePartialTranscription.
  destruct (JsMap.get (activeSessions st) uid) as [session|] eqn:Hg; [|exact Hk].
  set (s1 := with_lastActivity (with_stats session (bump_partialResults (stats session))) now).
  assert (Hk1 : socketKeyed (with_session st uid s1))
    by (apply (with_session_update_keyed st uid session); auto).
  destruct (socket s1) as [own|]; [|exact Hk1].
  pose proof (consider_keyed (with_session st uid s1) o uid
                (Gate.mkData (tr_text r) (tr_confidence r) false (orNow (tr_timestamp r) now))
                now Hk1) as Hc.
  destruct (consider _ _ _ _ _) as [st2 effects]. exact Hc.
Qed.

Lemma handleFinalTranscription_keyed st o uid r now :
  socketKeyed st -> socketKeyed (fst (handleFinalTranscription st o uid r now)).
Proof.
  intros Hk. unfold handleFinalTranscription.
  destruct (JsMap.get (activeSessions st) uid) as [session|] eqn:Hg; [|exact Hk].
  set (s1 := with_lastActivity (with_stats session (bump_finalResults (stats session))) now).
  assert (Hk1 : socketKeyed (with_session st uid s1))
    by (apply (with_session_update_keyed st uid session); auto).
  destruct (socket s1) as [own|]; [|exact Hk1].
  match goal with
  | |- context [consider ?a ?b ?c ?d ?e] =>
      pose proof (consider_keyed a b c d e Hk1) as Hc; destruct (consider a b c d e)
  end.
  exact Hc.
Qed.

Lemma onTimer_keyed st o uid now :
  socketKeyed st -> socketKeyed (fst (onTimer st o uid now)).
Proof.
  intros Hk. unfold onTimer. destruct (Gate.timerFires _ _ _) as [gate events].
  apply onReady_keyed. exact Hk.
Qed.

(** *** Duplicates *)

Lemma isRepeat_spec (session : SessionInfo) text now :
  isRepeat session (normalize text) now = true <-> repeatsLast session text now.
Proof.
  unfold isRepeat, repeatsLast.
  destruct (lastProcessedNormalized session) as [l|].
  - rewrite andb_true_iff, String.eqb_eq, Z.ltb_lt. split.
    + intros [-> Hlt]. auto.
    + intros [[= ->] Hlt]. auto.
  - split; [discriminate | intros [[=] _]].
Qed.

Lemma deliver_mtCalls st o uid text translated own profile now :
  mtCalls (snd (deliver st o uid text translated own profile now)) = [].
Proof.
  unfold deliver.
  destruct (Synthesis.synthesizeText _ _ _ _ _ _ _ _) as [syn report].
  destruct (Synthesis.onAudioChunk report) as [chunk|].
  - destruct (handleSynthesisChunk _ uid chunk now) as [st2 audio]. reflexivity.
  - reflexivity.
Qed.

(** On one state: an utterance handed to [processCompleteTranslation] for
    a user with a session record is dropped silently (no call of the
    translator, no message to anybody, no call of the synthesizer, state
    unchanged) when its normal form is the one stored in the record and
    less than 3 seconds have passed since the stored time; in every other
    case the translator is called for it. *)
Lemma processCompleteTranslation_repeat st o uid text now session :
  JsMap.get (activeSessions st) uid = Some session ->
  (repeatsLast session text now ->
     processCompleteTranslation st o uid text now = (st, noEffects))
  /\ (~ repeatsLast session text now ->
        mtCalls (snd (processCompleteTranslation st o uid text now))
        = [(text, userLanguage session, partnerLanguage session)])
  /\ (mtCalls (snd (processCompleteTranslation st o uid text now)) = [] ->
        repeatsLast session text now).
Proof.
  intros Hg.
  assert (Hdrop : repeatsLast session text now ->
                  processCompleteTranslation st o uid text now = (st, noEffects)).
  { intros Hrep. apply isRepeat_spec in Hrep.
    unfold processCompleteTranslation. now rewrite Hg, Hrep. }
  assert (Hcall : ~ repeatsLast session text now ->
                  mtCalls (snd (processCompleteTranslation st o uid text now))
                  = [(text, userLanguage session, partnerLanguage session)]).
  { intros Hno. rewrite <- isRepeat_spec in Hno. apply not_true_is_false in Hno.
    unfold processCompleteTranslation. rewrite Hg, Hno.
    destruct (Translation.translate _ _ _ _) as [requests translation].
    destruct translation as [tr|msg]; [|reflexivity].
    destruct (String.eqb (Translation.translatedText tr) EmptyString); [reflexivity|].
    match goal with
    | |- context [let '(st3, profile) := ?X in _] => destruct X as [st3 profile]
    end.
    cbn [socket with_stats with_lastProcessed].
    destruct (socket session) as [own|]; [|reflexivity].
    pose proof (deliver_mtCalls st3 o uid text (Translation.translatedText tr) own profile now)
      as Hd.
    destruct (deliver _ _ _ _ _ _ _ _) as [st4 effects].
    cbn in *. now rewrite Hd. }
  split; [exact Hdrop|]. split; [exact Hcall|].
  intros Hnone. destruct (isRepeat session (normalize text) now) eqn:E.
  - now apply isRepeat_spec.
  - assert (Hno : ~ repeatsLast session text now)
      by (rewrite <- isRepeat_spec; congruence).
    rewrite (Hcall Hno) in Hnone. discriminate.
Qed.

(** *** Audio frames *)

(** Whether a frame is accepted does not depend on the frame. *)
Lemma sendAudioData_ignores_frame (ts : Transcription.t) uid f1 f2 now :
  snd (Transcription.sendAudioData ts uid f1 now)
  = snd (Transcription.sendAudioData ts uid f2 now).
Proof.
  unfold Transcription.sendAudioData, Transcription.googleSend, Transcription.assemblySend,
    Transcription.whisperSend.
  repeat match goal with
         | |- context [match ?x with _ => _ end] =>
             lazymatch x with
             | context [f1] => fail
             | context [f2] => fail
             | _ => destruct x eqn:?
             end
         end; try reflexivity.
  all: repeat match goal with
         | |- context [if ?b then _ else _] => destruct b
         end; reflexivity.
Qed.

Lemma processAudioData_ignores_frame st uid f1 f2 now :
  snd (processAudioData st uid f1 now) = snd (processAudioData st uid f2 now).
Proof.
  unfold processAudioData.
  destruct (JsMap.get (activeSessions st) uid) as [session|]; [|reflexivity].
  destruct (isActive session); [|reflexivity]. cbn [negb].
  pose proof (sendAudioData_ignores_frame (transcriptionService st) uid f1 f2 now) as Hs.
  destruct (Transcription.sendAudioData _ uid f1 now) as [[ts1 e1] b1].
  destruct (Transcription.sendAudioData _ uid f2 now) as [[ts2 e2] b2].
  cbn in Hs. subst b2.
  destruct b1; [|reflexivity].
  repeat match goal with
         | |- context [match ?x with _ => _ end] => destruct x
         end; reflexivity.
Qed.

(** C9, as the code has it.  No handler looks at the length of a frame,
    neither of its base64 text nor of the bytes it stands for: whether a
    frame is accepted depends on the state alone; for a user with an
    active session and an open Deepgram socket every frame is accepted,
    decoded from base64, and the decoded bytes are sent to the socket;
    without a pipeline session every frame is dropped. *)
Theorem audio_frame_forwarding st uid now :
  (forall f1 f2, snd (processAudioData st uid f1 now) = snd (processAudioData st uid f2 now))
  /\ (forall session c frame,
        JsMap.get (activeSessions st) uid = Some session ->
        isActive session = true ->
        JsMap.get (Transcription.activeConnections (transcriptionService st)) uid = Some c ->
        Transcription.c_isConnected c = true ->
        Transcription.c_mode c = Transcription.WebSocketMode (Some Transcription.OPEN) ->
        snd (fst (processAudioData st uid frame now))
        = [Transcription.DeepgramSend uid (Buffer.fromBase64 frame)]
        /\ snd (processAudioData st uid frame now) = true)
  /\ (JsMap.get (activeSessions st) uid = None ->
      forall frame, processAudioData st uid frame now = (st, [], false)).
Proof.
  split; [intros f1 f2; apply processAudioData_ignores_frame|]. split.
  - intros session c frame Hg Hact Hc Hconn Hmode.
    unfold processAudioData, Transcription.sendAudioData.
    rewrite Hg, Hact, Hc, Hconn, Hmode. cbn [negb].
    repeat match goal with
           | |- context [match ?x with _ => _ end] => destruct x
           end; split; reflexivity.
  - intros Hg frame. unfold processAudioData. now rewrite Hg.
Qed.

End WithNumber.

(** *** The statements at concrete inputs *)

Import Scenario.

(** C9 as stated fails, whichever length is meant.  The frame [QUI] has
    three characters and stands for two bytes; the frame [QUJD] has four
    characters and stands for the three bytes [ABC].  Sent by a user with
    an active session and an open recognizer socket, both are accepted
    and their bytes are sent on. *)
Lemma odd_length_frame_is_forwarded :
  Nat.odd (Js.length "QUI") = true
  /\ snd (fst (Pipeline.processAudioData twoUsers "u1" "QUI" 2000))
     = [Transcription.DeepgramSend "u1" "AB"]
  /\ snd (Pipeline.processAudioData twoUsers "u1" "QUI" 2000) = true
  /\ Nat.odd (Buffer.length (Buffer.fromBase64 "QUJD")) = true
  /\ snd (fst (Pipeline.processAudioData twoUsers "u1" "QUJD" 2000))
     = [Transcription.DeepgramSend "u1" "ABC"]
  /\ snd (Pipeline.processAudioData twoUsers "u1" "QUJD" 2000) = true.
Proof. repeat split; vm_compute; reflexivity. Qed.

Lemma audio_frame_forwarding_witness :
  snd (fst (Pipeline.processAudioData twoUsers "u1" "QUJDRA==" 2000))
  = [Transcription.DeepgramSend "u1" "ABCD"]
  /\ snd (Pipeline.processAudioData twoUsers "u1" "QUJDRA==" 2000) = true.
Proof.
  refine (proj1 (proj2 (audio_frame_forwarding twoUsers "u1" 2000)) _ _ "QUJDRA=="
            eq_refl eq_refl eq_refl eq_refl eq_refl).
Defined.

End PipelineFacts.


(** ** Utterance gate: immediate firing and the running averages *)

Module GateFacts.
Import Gate JsMapFacts.

Lemma splitRuns_length p l cur inSep : 1 <= length (Js.splitRuns p l cur inSep).
Proof.
  revert cur inSep. induction l as [|c l IH]; intros cur inSep; simpl; [lia|].
  destruct (p c); [destruct inSep; simpl; [apply IH | lia] | apply IH].
Qed.

(** A text has at least one word in the count of the source: splitting
    the empty string gives one empty word. *)
Lemma countWords_pos text : 1 <= countWords text.
Proof. apply splitRuns_length. Qed.

Section WithNumber.
Context {num : Type} `{Number num}.
Implicit Types (st : Gate.t (num := num)) (a : Analysis (num := num)).

Lemma nonEmpty_true {A} (l : list A) : nonEmpty l = true <-> l <> [].
Proof. destruct l; simpl; split; congruence. Qed.

Lemma nonEmpty_false {A} (l : list A) : nonEmpty l = false <-> l = [].
Proof. destruct l; simpl; split; congruence. Qed.

(** The decision on an arbitrary analysis: the short-message branch stands
    between the first three immediate conditions and the last two. *)
(** The processor's own duplicate test: the very text that was processed
    last for the user, less than 3 seconds ago. *)
Lemma isDuplicate_spec st uid text now :
  isDuplicate st uid text now = true
  <-> exists recent, JsMap.get (recentlyProcessed st) uid = Some recent
                     /\ r_text recent = text /\ (now - r_timestamp recent < 3000)%Z.
Proof.
  unfold isDuplicate. destruct (JsMap.get (recentlyProcessed st) uid) as [recent|].
  - rewrite andb_true_iff, String.eqb_eq, Z.ltb_lt. split.
    + intros [Ht Hlt]. exists recent. auto.
    + intros (r & [= <-] & Ht & Hlt). auto.
  - split; [discriminate | intros (r & [=] & _)].
Qed.

Lemma shouldProcessProfessionally_immediate st uid text a isFinal now :
  isDuplicate st uid text now = false ->
  immediate (shouldProcessProfessionally st uid text a isFinal now) = true
  <-> (urgencyIndicators a <> []
       \/ (nge (completionScore a) (ofQ 0.8) = true /\ isHighConfidence a = true)
       \/ (isQuestion a = true /\ nge (completionScore a) (ofQ 0.6) = true)
       \/ (((wordCount a <=? 2)%nat && (1 <=? wordCount a)%nat = false)
           /\ ((isFinal = true /\ isSubstantialLength a = true /\ isHighConfidence a = true)
               \/ (medicalTerms a <> [] /\ nge (completionScore a) (ofQ 0.6) = true)))).
Proof.
  intros Hdup. unfold shouldProcessProfessionally. rewrite Hdup. cbn [negb].
  rewrite andb_true_r.
  destruct (nonEmpty (urgencyIndicators a)) eqn:Eu.
  { apply nonEmpty_true in Eu. cbn. tauto. }
  apply nonEmpty_false in Eu.
  destruct (nge (completionScore a) (ofQ 0.8) && isHighConfidence a) eqn:E1.
  { apply andb_true_iff in E1. cbn. tauto. }
  apply andb_false_iff in E1.
  destruct (isQuestion a && nge (completionScore a) (ofQ 0.6)) eqn:E2.
  { apply andb_true_iff in E2. cbn. tauto. }
  apply andb_false_iff in E2.
  destruct ((wordCount a <=? 2)%nat && (1 <=? wordCount a)%nat) eqn:E3.
  { cbn. split; [discriminate|].
    intros [Hu|[[Ha Hb]|[[Ha Hb]|[Hc _]]]]; try congruence;
      [destruct E1; congruence | destruct E2; congruence]. }
  destruct (isFinal && isSubstantialLength a && isHighConfidence a) eqn:E4.
  { apply andb_true_iff in E4 as [E4 E4c]. apply andb_true_iff in E4 as [E4a E4b].
    cbn. split; [intros _|reflexivity]. right. right. right. auto. }
  destruct (nonEmpty (medicalTerms a) && nge (completionScore a) (ofQ 0.6)) eqn:E5.
  { apply andb_true_iff in E5 as [E5a E5b]. apply nonEmpty_true in E5a.
    cbn. split; [intros _|reflexivity]. right. right. right. auto. }
  assert (Hno : immediate
                  (if isSubstantialLength a && nge (completionScore a) (ofQ 0.4)
                   then mkDecision false true text "queue_timing" false
                   else mkDecision false false text "build_sentence" false) = false)
    by (destruct (isSubstantialLength a && _); reflexivity).
  rewrite Hno. split; [discriminate|].
  intros [Hu|[[Ha Hb]|[[Ha Hb]|[_ [[Ha [Hb Hc]]|[Ha Hb]]]]]]; try congruence.
  - destruct E1; congruence.
  - destruct E2; congruence.
  - rewrite Ha, Hb, Hc in E4. discriminate.
  - apply nonEmpty_true in Ha. rewrite Ha, Hb in E5. discriminate.
Qed.

(** C4, as the code has it.  With the thresholds of the pipeline (0.8 for
    confidence, 3 words), a candidate that is not a duplicate is decided
    for immediate processing exactly when: an urgency keyword is present;
    or its completion score is at least 0.8 and its confidence at least
    0.8; or it is a question with score at least 0.6; or it is a final
    transcript of at least 3 words with confidence at least 0.8; or a
    medical keyword is present with score at least 0.6 and it has at least
    3 words.  A candidate of one or two words that meets none of the first
    three conditions gets the short-message timer instead. *)
Theorem immediate_firing_rule st uid text confidence isFinal now c :
  config st = defaultConfig ->
  isDuplicate st uid text now = false ->
  let a := analyzeProfessionalSpeech (config st) text confidence c in
  let d := shouldProcessProfessionally st uid text a isFinal now in
  (immediate d = true <-> immediateRule a confidence isFinal)
  /\ (wordCount a <= 2 ->
      urgencyIndicators a = [] ->
      ~ (nge (completionScore a) (ofQ 0.8) = true /\ nge confidence (ofQ 0.8) = true) ->
      ~ (isQuestion a = true /\ nge (completionScore a) (ofQ 0.6) = true) ->
      d = mkDecision false true text "short_message_timeout" true).
Proof.
  intros Hcfg Hdup a d.
  assert (Hwc : 1 <= wordCount a) by apply countWords_pos.
  assert (Hhc : isHighConfidence a = nge confidence (ofQ 0.8))
    by (subst a; rewrite Hcfg; reflexivity).
  assert (Hsub : isSubstantialLength a = (3 <=? wordCount a)%nat)
    by (subst a; rewrite Hcfg; reflexivity).
  subst d. clearbody a. split.
  - rewrite (shouldProcessProfessionally_immediate st uid text a isFinal now Hdup).
    unfold immediateRule. rewrite Hhc, Hsub.
    assert (Hshort : ((wordCount a <=? 2)%nat && (1 <=? wordCount a)%nat = false)
                     <-> 3 <= wordCount a).
    { rewrite andb_false_iff, Nat.leb_gt, Nat.leb_gt. lia. }
    rewrite Hshort, Nat.leb_le. tauto.
  - intros Hle Hu Hscore Hq. unfold shouldProcessProfessionally.
    rewrite Hdup, Hu, Hhc. cbn [nonEmpty negb].
    destruct (nge (completionScore a) (ofQ 0.8) && nge confidence (ofQ 0.8)) eqn:E1;
      [apply andb_true_iff in E1; tauto|].
    destruct (isQuestion a && nge (completionScore a) (ofQ 0.6)) eqn:E2;
      [apply andb_true_iff in E2; tauto|].
    apply Nat.leb_le in Hle. apply Nat.leb_le in Hwc. now rewrite Hle, Hwc.
Qed.

(** An immediate decision starts no timer: the transcript is handed to
    [processImmediatelyProfessional]; unless the text it combines is a
    duplicate, the utterance is emitted at once and no timer is left
    pending for the user. *)
Lemma immediate_decision_fires st uid data now c :
  (String.length (Js.trim (t_text data)) =? 0)%nat = false ->
  JsMap.get (userConversations st) uid = Some c ->
  let c1 := set_lastProcessingTime c (t_timestamp data) in
  let st1 := with_conversations st (JsMap.set (userConversations st) uid c1) in
  let a := analyzeProfessionalSpeech (config st) (t_text data) (t_confidence data) c1 in
  immediate (shouldProcessProfessionally st1 uid (t_text data) a (t_isFinal data) now) = true ->
  let finalText := combineSentenceContext st1 uid (t_text data) in
  isDuplicate st uid finalText now = false ->
  snd (processProfessionalTranscription st uid data now)
  = [mkReady uid finalText (t_confidence data) now]
  /\ JsMap.get (activeProcessing (fst (processProfessionalTranscription st uid data now))) uid
     = None.
Proof.
  intros Htrim Hc c1 st1 a Himm finalText Hdup.
  unfold processProfessionalTranscription. rewrite Htrim, Hc.
  fold c1. fold st1. cbn [config st1 with_conversations]. fold a.
  rewrite Himm.
  assert (Htext : d_text (shouldProcessProfessionally st1 uid (t_text data) a
                            (t_isFinal data) now) = t_text data).
  { unfold shouldProcessProfessionally.
    repeat match goal with
           | |- context [if ?b then _ else _] => destruct b
           end; reflexivity. }
  rewrite Htext. unfold processImmediatelyProfessional. fold finalText.
  assert (Hdup1 : isDuplicate st1 uid finalText now = false) by exact Hdup.
  rewrite Hdup1.
  unfold updateProfessionalLearning, markAsProcessed.
  cbn [userConversations with_recent st1 with_conversations].
  rewrite get_set_eq. cbn [userConversations with_conversations].
  rewrite get_set_eq. split; [reflexivity|].
  unfold clearPendingProcessing. cbn [activeProcessing with_conversations with_recent].
  change (activeProcessing st1) with (activeProcessing st).
  destruct (JsMap.get (activeProcessing st) uid) eqn:E.
  - cbn [activeProcessing with_processing]. apply get_delete_eq.
  - cbn [activeProcessing with_conversations with_recent]. exact E.
Qed.

End WithNumber.

Import Scenario.

(** The firing rule at a final transcript of the third scenario. *)
Lemma immediate_firing_rule_witness :
  let c := Gate.newConversation (num := float) Gate.defaultConfig "u1" "en" "patient" 0 in
  let a := analyzeProfessionalSpeech (config patientGate) "hello, how are you" 0.92%float c in
  immediate (shouldProcessProfessionally patientGate "u1" "hello, how are you" a true 100) = true
  /\ immediateRule a 0.92%float true.
Proof.
  intros c a.
  assert (H1 : immediate (shouldProcessProfessionally patientGate "u1" "hello, how are you"
                            a true 100) = true) by (vm_compute; reflexivity).
  split; [exact H1|].
  exact (proj1 (proj1 (immediate_firing_rule patientGate "u1" "hello, how are you" 0.92%float
                         true 100 c eq_refl eq_refl)) H1).
Defined.

(** C4 as stated fails.  The partial transcript "Fever." (confidence 0.5)
    of a patient is not a duplicate, carries a medical keyword and scores
    above 0.6, which is one of the five listed conditions; the gate does
    not fire: it starts the 3-second short-message timer. *)
Lemma medical_term_in_short_message_waits :
  let c := Gate.newConversation (num := float) Gate.defaultConfig "u1" "en" "patient" 0 in
  let a := analyzeProfessionalSpeech (config patientGate) "Fever." 0.5%float c in
  let d := shouldProcessProfessionally patientGate "u1" "Fever." a false 100 in
  isDuplicate patientGate "u1" "Fever." 100 = false
  /\ claimedImmediate a 0.5%float false
  /\ immediate d = false
  /\ queue d = true /\ useShortTimeout d = true
  /\ ~ (immediate d = true <-> claimedImmediate a 0.5%float false).
Proof.
  intros c a d.
  assert (Hclaim : claimedImmediate a 0.5%float false).
  { right. right. right. right. split; [vm_compute; discriminate | vm_compute; reflexivity]. }
  assert (Himm : immediate d = false) by (vm_compute; reflexivity).
  repeat split; try (vm_compute; reflexivity); try exact Hclaim.
  intros [_ Hback]. specialize (Hback Hclaim). congruence.
Qed.

(** *** The running average of the sentence length, in exact arithmetic *)

Import GateInvariant.



Lemma avgAtLeastOne_set m uid c :
  avgAtLeastOne m -> (1 <= avgSentenceLength c)%Q -> avgAtLeastOne (JsMap.set m uid c).
Proof.
  intros Hm Hc uid' c'. rewrite get_set.
  destruct (String.eqb uid uid'); [intros [= <-]; exact Hc | apply Hm].
Qed.

Lemma words_at_least_one text : (1 <= inject_Z (Z.of_nat (countWords text)))%Q.
Proof.
  pose proof (countWords_pos text) as Hw.
  change 1%Q with (inject_Z 1). rewrite <- Zle_Qle. lia.
Qed.

Lemma learn_average (c : Conversation (num := Q)) text confidence a now :
  avgSentenceLength (learn c text confidence a now)
  = (avgSentenceLength c * 0.85 + inject_Z (Z.of_nat (countWords text)) * 0.15)%Q.
Proof. reflexivity. Qed.

Lemma learn_at_least_one (c : Conversation (num := Q)) text confidence a now :
  (1 <= avgSentenceLength c)%Q ->
  (1 <= avgSentenceLength (learn c text confidence a now))%Q.
Proof.
  intros Hc. rewrite learn_average. pose proof (words_at_least_one text). lra.
Qed.

Lemma processImmediately_at_least_one (st : Gate.t (num := Q)) uid text confidence a now :
  avgAtLeastOne (userConversations st) ->
  avgAtLeastOne (userConversations
                   (fst (processImmediatelyProfessional st uid text confidence a now))).
Proof.
  intros Hst. unfold processImmediatelyProfessional.
  destruct (isDuplicate st uid _ now); [exact Hst|].
  set (finalText := combineSentenceContext st uid text).
  set (st2 := updateProfessionalLearning (markAsProcessed st uid finalText now)
                uid finalText confidence a now).
  assert (H2 : avgAtLeastOne (userConversations st2)).
  { subst st2. unfold updateProfessionalLearning, markAsProcessed.
    cbn [userConversations with_recent].
    destruct (JsMap.get (userConversations st) uid) as [c|] eqn:Hc; [|exact Hst].
    cbn [userConversations with_conversations].
    apply avgAtLeastOne_set; [exact Hst|]. apply learn_at_least_one. now apply (Hst uid). }
  clearbody st2.
  destruct (JsMap.get (userConversations st2) uid) as [c|] eqn:Hc; [|exact H2].
  cbn [fst]. unfold clearPendingProcessing.
  cbn [activeProcessing with_conversations].
  assert (H3 : avgAtLeastOne (JsMap.set (userConversations st2) uid (resetSentence c now))).
  { apply avgAtLeastOne_set; [exact H2|]. cbn. now apply (H2 uid). }
  destruct (JsMap.get (activeProcessing st2) uid); exact H3.
Qed.

Lemma step_at_least_one (st : Gate.t (num := Q)) e :
  avgAtLeastOne (userConversations st) -> avgAtLeastOne (userConversations (step st e)).
Proof.
  intros Hst. destruct e as [uid lang rl now|uid data now|uid now|uid]; cbn [step].
  - (* a conversation starts at 12 or 8 *)
    unfold initializeProfessionalConversation. cbn [userConversations with_conversations].
    apply avgAtLeastOne_set; [exact Hst|].
    unfold newConversation. cbn. destruct (String.eqb rl "doctor"); cbn; unfold Qle; cbn; lia.
  - (* a transcript arrives *)
    unfold processProfessionalTranscription.
    destruct (String.length (Js.trim (t_text data)) =? 0)%nat; [exact Hst|].
    destruct (JsMap.get (userConversations st) uid) as [c|] eqn:Hc; [|exact Hst].
    set (c1 := set_lastProcessingTime c (t_timestamp data)).
    set (st1 := with_conversations st (JsMap.set (userConversations st) uid c1)).
    assert (H1 : avgAtLeastOne (userConversations st1)).
    { apply avgAtLeastOne_set; [exact Hst|]. cbn. now apply (Hst uid). }
    destruct (immediate _).
    + now apply processImmediately_at_least_one.
    + destruct (queue _); cbn [fst].
      * unfold queueForProfessionalProcessing, clearPendingProcessing.
        repeat match goal with
               | |- context [match ?x with _ => _ end] => destruct x
               end; exact H1.
      * unfold updateCurrentSentence.
        destruct (JsMap.get (userConversations st1) uid) as [c2|] eqn:Hc2; [|exact H1].
        destruct (_ || _); [|exact H1].
        cbn [userConversations with_conversations].
        apply avgAtLeastOne_set; [exact H1|]. cbn. now apply (H1 uid).
  - (* a timer expires *)
    unfold timerFires.
    destruct (JsMap.get (activeProcessing st) uid) as [pe|]; [|exact Hst].
    destruct (pe_timerLive pe); [|exact Hst].
    now apply processImmediately_at_least_one.
  - (* a conversation is removed *)
    unfold removeProfessionalConversation, clearPendingProcessing.
    intros uid' c Hg.
    assert (Hg' : JsMap.get (JsMap.delete (userConversations st) uid) uid' = Some c)
      by (destruct (JsMap.get (activeProcessing st) uid); exact Hg).
    apply get_delete_Some in Hg'. now apply (Hst uid').
Qed.

Lemma run_at_least_one (st : Gate.t (num := Q)) events :
  avgAtLeastOne (userConversations st) -> avgAtLeastOne (userConversations (run st events)).
Proof.
  revert st. induction events as [|e events IH]; intros st Hst; [exact Hst|].
  cbn [run fold_left]. apply IH. now apply step_at_least_one.
Qed.

(** In exact arithmetic, that is with the rounding of the program's
    doubles left out: a firing with an utterance of [w] words moves the
    average from [old] toward [w] by 15% of their distance, and the
    average of a processor started empty never falls below 1. *)
Lemma exact_average_bounds :
  (forall (c : Conversation (num := Q)) text confidence a now,
      let w := inject_Z (Z.of_nat (countWords text)) in
      let old := avgSentenceLength c in
      let new := avgSentenceLength (learn c text confidence a now) in
      (1 <= w /\ new == 0.85 * old + 0.15 * w
       /\ (old <= w -> old <= new <= w /\ new - old == 0.15 * (w - old))
       /\ (w <= old -> w <= new <= old /\ old - new == 0.15 * (old - w)))%Q)
  /\ (forall cfg events uid c,
         JsMap.get (userConversations (run (create cfg) events)) uid = Some c ->
         (1 <= avgSentenceLength c)%Q).
Proof.
  split.
  - intros c text confidence a now w old new.
    assert (Hnew : new = (old * 0.85 + w * 0.15)%Q) by reflexivity.
    pose proof (words_at_least_one text) as Hw. fold w in Hw.
    clearbody w old new. subst new. repeat split; try lra.
  - intros cfg events uid c Hg.
    apply (run_at_least_one (create cfg) events) with (uid := uid); [|exact Hg].
    intros uid' c'. discriminate.
Qed.

(** *** The running average along a run, in the numbers of the program *)

Section WithNumber.
Context {num : Type} `{Number num}.
Implicit Types (st : Gate.t (num := num)) (a : Analysis (num := num)).
Import GateRuns.

Lemma clearPending_conversations st uid :
  userConversations (clearPendingProcessing st uid) = userConversations st.
Proof. unfold clearPendingProcessing. destruct (JsMap.get _ _); reflexivity. Qed.

Lemma queue_conversations st uid text confidence a short now :
  userConversations (queueForProfessionalProcessing st uid text confidence a short now)
  = userConversations st.
Proof.
  unfold queueForProfessionalProcessing.
  destruct (if short then _ else _); cbn; apply clearPending_conversations.
Qed.

(** [processImmediatelyProfessional] either emits nothing and leaves the
    conversations as they are, or emits one event for its user and
    replaces that user's conversation by the learned one, its sentence
    reset. *)
Lemma processImmediately_conversations st uid text confidence a now :
  let res := processImmediatelyProfessional st uid text confidence a now in
  (snd res = [] /\ userConversations (fst res) = userConversations st)
  \/ (exists c finalText,
         JsMap.get (userConversations st) uid = Some c
         /\ snd res = [mkReady uid finalText confidence now]
         /\ userConversations (fst res)
            = JsMap.set (JsMap.set (userConversations st) uid
                           (learn c finalText confidence a now))
                uid (resetSentence (learn c finalText confidence a now) now)).
Proof.
  unfold processImmediatelyProfessional.
  destruct (isDuplicate _ _ _ _); [left; split; reflexivity|].
  unfold updateProfessionalLearning.
  cbn [userConversations markAsProcessed with_recent].
  destruct (JsMap.get (userConversations st) uid) as [c|] eqn:E.
  - cbn [userConversations with_conversations]. rewrite get_set_eq.
    right. exists c, (combineSentenceContext st uid text).
    split; [reflexivity|]. split; [reflexivity|].
    cbn [fst]. rewrite clearPending_conversations. reflexivity.
  - cbn [userConversations markAsProcessed with_recent]. rewrite E.
    left. split; reflexivity.
Qed.

Lemma processImmediately_average st u text confidence a now uid c :
  JsMap.get (userConversations st) uid = Some c ->
  let res := processImmediatelyProfessional st u text confidence a now in
  exists c', JsMap.get (userConversations (fst res)) uid = Some c'
    /\ avgSentenceLength c'
       = fold_left (fun avg r => nadd (nmul avg (ofQ 0.85))
                                   (nmul (ofNat (countWords (rd_text r))) (ofQ 0.15)))
           (firedFor uid (snd res)) (avgSentenceLength c).
Proof.
  intros Hg res.
  destruct (processImmediately_conversations st u text confidence a now)
    as [[Hout Hc] | (cu & ft & Hu & Hout & Hc)]; fold res in Hout, Hc.
  - exists c. rewrite Hout, Hc. split; [exact Hg | reflexivity].
  - rewrite Hout, Hc. unfold firedFor. cbn [List.filter rd_userId].
    destruct (String.eqb u uid) eqn:E.
    + apply String.eqb_eq in E. subst u.
      assert (cu = c) by congruence. subst cu.
      eexists. split; [apply get_set_eq | reflexivity].
    + apply String.eqb_neq in E.
      exists c. rewrite !get_set_ne by exact E. split; [exact Hg | reflexivity].
Qed.

Lemma stepOut_average st e uid c :
  JsMap.get (userConversations st) uid = Some c ->
  resets uid e = false ->
  exists c', JsMap.get (userConversations (fst (stepOut st e))) uid = Some c'
    /\ avgSentenceLength c'
       = fold_left (fun avg r => nadd (nmul avg (ofQ 0.85))
                                   (nmul (ofNat (countWords (rd_text r))) (ofQ 0.15)))
           (firedFor uid (snd (stepOut st e))) (avgSentenceLength c).
Proof.
  intros Hg Hr. destruct e as [u lang rl now | u data now | u now | u]; cbn [stepOut].
  - cbn in Hr. apply String.eqb_neq in Hr.
    exists c. cbn. rewrite get_set_ne by exact Hr. split; [exact Hg | reflexivity].
  - unfold processProfessionalTranscription.
    destruct (String.length (Js.trim (t_text data)) =? 0)%nat;
      [exists c; split; [exact Hg | reflexivity]|].
    destruct (JsMap.get (userConversations st) u) as [cu|] eqn:Eu;
      [|exists c; split; [exact Hg | reflexivity]].
    set (c1 := set_lastProcessingTime cu (t_timestamp data)).
    set (st1 := with_conversations st (JsMap.set (userConversations st) u c1)).
    assert (H1 : exists c0, JsMap.get (userConversations st1) uid = Some c0
                            /\ avgSentenceLength c0 = avgSentenceLength c).
    { subst st1. cbn [userConversations with_conversations]. rewrite get_set.
      destruct (String.eqb u uid) eqn:E.
      - apply String.eqb_eq in E. subst u. exists c1. split; [reflexivity|].
        assert (cu = c) by congruence. subst cu. reflexivity.
      - exists c. split; [exact Hg | reflexivity]. }
    destruct H1 as (c0 & Hg0 & Havg0). rewrite <- Havg0.
    destruct (immediate _); [apply processImmediately_average; exact Hg0|].
    destruct (queue _).
    + cbn [fst snd]. rewrite queue_conversations.
      exists c0. split; [exact Hg0 | reflexivity].
    + cbn [fst snd]. unfold updateCurrentSentence.
      destruct (JsMap.get (userConversations st1) u) as [cu'|] eqn:Eu';
        [|exists c0; split; [exact Hg0 | reflexivity]].
      destruct (_ || _); [|exists c0; split; [exact Hg0 | reflexivity]].
      cbn [userConversations with_conversations]. rewrite get_set.
      destruct (String.eqb u uid) eqn:E.
      * apply String.eqb_eq in E. subst u.
        assert (cu' = c0) by congruence. subst cu'.
        eexists. split; reflexivity.
      * exists c0. split; [exact Hg0 | reflexivity].
  - unfold timerFires.
    destruct (JsMap.get (activeProcessing st) u) as [pe|];
      [|exists c; split; [exact Hg | reflexivity]].
    destruct (pe_timerLive pe); [|exists c; split; [exact Hg | reflexivity]].
    apply processImmediately_average. exact Hg.
  - cbn in Hr. apply String.eqb_neq in Hr.
    exists c. cbn. rewrite get_delete_ne by exact Hr.
    rewrite clearPending_conversations. split; [exact Hg | reflexivity].
Qed.

(** C8, as the code has it.  A conversation starts with an average of 12
    words for a doctor and of 8 for anyone else.  Along every run of the
    processor from any state, as long as the participant's conversation
    is neither started anew nor removed, the conversation stays and its
    average sentence length is the starting one updated once for each
    utterance fired for the participant, in the order of firing, by
    [old * 0.85 + w * 0.15] for an utterance of [w] words, in the numbers
    of the program; nothing else changes it and nothing clamps it. *)
Theorem running_average_sentence_length :
  (forall st uid lang rl now,
      exists c0,
        JsMap.get (userConversations
                     (initializeProfessionalConversation st uid lang rl now)) uid = Some c0
        /\ avgSentenceLength c0 = if String.eqb rl "doctor" then ofZ 12 else ofZ 8)
  /\ (forall st events uid c,
         JsMap.get (userConversations st) uid = Some c ->
         forallb (fun e => negb (resets uid e)) events = true ->
         exists c',
           JsMap.get (userConversations (fst (runOut st events))) uid = Some c'
           /\ avgSentenceLength c'
              = fold_left (fun avg r =>
                             nadd (nmul avg (ofQ 0.85))
                                  (nmul (ofNat (countWords (rd_text r))) (ofQ 0.15)))
                  (firedFor uid (snd (runOut st events))) (avgSentenceLength c)).
Proof.
  split.
  - intros st uid lang rl now. eexists. split; [apply get_set_eq | reflexivity].
  - intros st events. revert st.
    induction events as [|e events IH]; intros st uid c Hg Hall.
    + exists c. split; [exact Hg | reflexivity].
    + cbn [forallb] in Hall. apply andb_true_iff in Hall as [He Hall].
      apply negb_true_iff in He.
      destruct (stepOut_average st e uid c Hg He) as (c1 & Hg1 & Havg1).
      cbn [runOut]. destruct (stepOut st e) as [st1 out1].
      cbn [fst snd] in Hg1, Havg1.
      destruct (IH st1 uid c1 Hg1 Hall) as (c2 & Hg2 & Havg2).
      destruct (runOut st1 events) as [st2 out2]. cbn [fst snd] in *.
      exists c2. split; [exact Hg2|].
      unfold firedFor in *. rewrite List.filter_app, fold_left_app, <- Havg1. exact Havg2.
Qed.

End WithNumber.

(** The theorem at the third scenario's patient, in doubles: the one-word
    partial "ok" waits for the short-message timer, the timer fires it,
    and the average goes from 8 to [8 * 0.85 + 1 * 0.15]. *)
Lemma running_average_sentence_length_witness :
  let events := [Transcription "u1" (mkData "ok" 0.9%float false 100) 100;
                 TimerFires "u1" 3100] in
  map rd_text (snd (GateRuns.runOut patientGate events)) = ["ok"]
  /\ exists c', JsMap.get (userConversations (fst (GateRuns.runOut patientGate events))) "u1"
                = Some c'
                /\ avgSentenceLength c' = (8 * 0.85 + 1 * 0.15)%float.
Proof.
  intros events. split; [vm_compute; reflexivity|].
  destruct (proj2 (running_average_sentence_length (num := float)) patientGate events "u1"
              (Gate.newConversation Gate.defaultConfig "u1" "en" "patient" 0))
    as (c' & Hg & Havg); [vm_compute; reflexivity | vm_compute; reflexivity |].
  exists c'. split; [exact Hg|]. rewrite Havg. vm_compute. reflexivity.
Defined.

(** C8 as stated fails, in the doubles of the program.  A patient starts
    with an average of 8; the one-word utterance "ok", fired by the
    short-message timer, moves the average to 6.95, a change of 1.05, more
    than 15% of one word.  And a final transcript of 1300 words takes the
    average from 8 to 201.8, above 200. *)
Lemma running_average_leaves_claimed_bounds :
  let st1 := fst (processProfessionalTranscription (num := float) patientGate "u1"
                    (mkData "ok" 0.9%float false 100) 100) in
  let fired := timerFires st1 "u1" 3100 in
  let long := processProfessionalTranscription (num := float) patientGate "u1"
                (mkData (words 1300) 0.9%float true 100) 100 in
  map rd_text (snd fired) = ["ok"]
  /\ countWords "ok" = 1
  /\ (exists c0 c2,
         JsMap.get (userConversations (num := float) patientGate) "u1" = Some c0
         /\ JsMap.get (userConversations (fst fired)) "u1" = Some c2
         /\ avgSentenceLength c0 = 8%float
         /\ PrimFloat.ltb (0.15 * 1) (avgSentenceLength c0 - avgSentenceLength c2) = true)
  /\ map rd_text (snd long) = [words 1300]
  /\ (exists c, JsMap.get (userConversations (fst long)) "u1" = Some c
                /\ PrimFloat.ltb 200 (avgSentenceLength c) = true).
Proof.
  cbv zeta. split; [vm_compute; reflexivity|]. split; [reflexivity|]. split.
  - eexists. eexists. split; [vm_compute; reflexivity|].
    split; [vm_compute; reflexivity|]. split; vm_compute; reflexivity.
  - split; [vm_compute; reflexivity|].
    eexists. split; vm_compute; reflexivity.
Qed.

End GateFacts.


(** ** Synthesis client: the request cache *)

Module SynthesisFacts.
Import Synthesis JsMapFacts.

Lemma prefix_append p s : String.prefix p (p ++ s) = true.
Proof.
  induction p as [|c p IH]; simpl; [now destruct s|].
  destruct (ascii_dec c c); [exact IH | congruence].
Qed.

Lemma append_cancel p s1 s2 : (p ++ s1 = p ++ s2)%string -> s1 = s2.
Proof. induction p as [|c p IH]; simpl; [auto | intros [= E]; auto]. Qed.

(** Two keys of one voice, text and language are equal exactly when their
    emotion buckets are. *)
Lemma cacheKey_inj v t l e1 e2 :
  cacheKey v t l e1 = cacheKey v t l e2 <-> emotionKey e1 = emotionKey e2.
Proof.
  unfold cacheKey. split; [|now intros ->].
  intros E. apply append_cancel in E. now apply (append_cancel "-") in E.
Qed.

Lemma cacheKey_startsWith v t l e : Js.startsWith (cacheKey v t l e) (baseTextKey v t l) = true.
Proof. apply prefix_append. Qed.

(** What the cache hands out is younger than 5 seconds, and carries the
    voice, text and language asked for as a prefix of its key. *)
Lemma lookup_fresh cache v t l e now hit :
  lookup cache v t l e now = Some hit ->
  (now - timestamp hit < 5000)%Z
  /\ exists k, In (k, hit) cache /\ Js.startsWith k (baseTextKey v t l) = true.
Proof.
  unfold lookup.
  assert (Hsim : option_map snd (similarHit cache (baseTextKey v t l) now) = Some hit ->
                 (now - timestamp hit < 5000)%Z
                 /\ exists k, In (k, hit) cache /\ Js.startsWith k (baseTextKey v t l) = true).
  { unfold similarHit. destruct (List.find _ _) as [[k en]|] eqn:Hf; [|discriminate].
    intros [= <-]. apply find_some in Hf as (Hin & Hq). cbn [fst snd] in Hq.
    apply andb_true_iff in Hq as (Hpre & Hage). apply Z.ltb_lt in Hage.
    split; [lia|]. exists k. auto. }
  destruct (JsMap.get cache (cacheKey v t l e)) as [cached|] eqn:Hg; [|exact Hsim].
  destruct (now - timestamp cached <? 5000)%Z eqn:Hage; [|exact Hsim].
  intros [= <-]. apply Z.ltb_lt in Hage. split; [exact Hage|].
  exists (cacheKey v t l e). split; [now apply get_In | apply cacheKey_startsWith].
Qed.

Lemma lookup_None_similar cache v t l e now :
  lookup cache v t l e now = None -> similarHit cache (baseTextKey v t l) now = None.
Proof.
  unfold lookup.
  destruct (JsMap.get cache (cacheKey v t l e)) as [cached|].
  - destruct (now - timestamp cached <? 5000)%Z; [discriminate|].
    destruct (similarHit _ _ _); [discriminate | reflexivity].
  - destruct (similarHit _ _ _); [discriminate | reflexivity].
Qed.

Lemma similarHit_None cache base now k en :
  similarHit cache base now = None -> In (k, en) cache ->
  Js.startsWith k base = true -> (3000 <= now - timestamp en)%Z.
Proof.
  intros Hnone Hin Hpre. unfold similarHit in Hnone.
  pose proof (find_none _ _ Hnone (k, en) Hin) as Hq. cbn [fst snd] in Hq.
  rewrite Hpre in Hq. cbn [andb] in Hq. apply Z.ltb_ge in Hq. exact Hq.
Qed.

(** A call that reached the provider found nothing in the cache and
    stored its result under its own key. *)
Lemma synthesized_call cache post v text l e t0 tc c1 n r :
  synthesizeChunk cache post v text l e t0 tc = (c1, S n, Ok r) ->
  lookup cache v (Js.trim text) l e t0 = None
  /\ c1 = cleanCache (JsMap.set cache (cacheKey v (Js.trim text) l e) (mkEntry r t0)) tc.
Proof.
  unfold synthesizeChunk.
  destruct (lookup cache v (Js.trim text) l e t0); [discriminate|].
  destruct (synthesizeWithRetry post 3) as [n' [r'|msg]]; [|discriminate].
  intros [= <- _ <-]. auto.
Qed.

Lemma get_cleanCache (cache : JsMap.t CacheEntry) tc k en :
  JsMap.get cache k = Some en -> (tc - timestamp en <= 10000)%Z ->
  JsMap.get (cleanCache cache tc) k = Some en.
Proof.
  intros Hg Hage. unfold cleanCache.
  induction cache as [|[k' en'] cache IH]; simpl in *; [discriminate|].
  destruct (String.eqb k' k) eqn:E.
  - injection Hg as ->.
    assert (Hkeep : negb (10000 <? tc - timestamp en)%Z = true)
      by (apply negb_true_iff, Z.ltb_ge; lia).
    rewrite Hkeep. simpl. now rewrite E.
  - destruct (negb _); simpl; [rewrite E|]; now apply IH.
Qed.

(** Ages only grow: what a lookup misses, a later lookup on the same
    cache misses too. *)
Lemma lookup_None_later cache v t l e t0 now :
  lookup cache v t l e t0 = None -> (t0 <= now)%Z -> lookup cache v t l e now = None.
Proof.
  intros Hmiss Hle.
  assert (Hsim : similarHit cache (baseTextKey v t l) now = None).
  { apply lookup_None_similar in Hmiss.
    destruct (similarHit cache (baseTextKey v t l) now) as [[k en]|] eqn:Hf; [|reflexivity].
    unfold similarHit in Hf. apply find_some in Hf as (Hin & Hq). cbn [fst snd] in Hq.
    apply andb_true_iff in Hq as (Hpre & Hage). apply Z.ltb_lt in Hage.
    pose proof (similarHit_None _ _ _ _ _ Hmiss Hin Hpre). lia. }
  unfold lookup in *. rewrite Hsim.
  destruct (JsMap.get cache (cacheKey v t l e)) as [cached|]; [|reflexivity].
  destruct (t0 - timestamp cached <? 5000)%Z eqn:E0; [discriminate|].
  apply Z.ltb_ge in E0.
  assert (E : (now - timestamp cached <? 5000)%Z = false) by (apply Z.ltb_ge; lia).
  now rewrite E.
Qed.

Lemma retry_asks_provider post : exists n res, synthesizeWithRetry post 3 = (S n, res).
Proof.
  unfold synthesizeWithRetry. cbn [retryLoop].
  destruct (post 1) as [b| |code|m]; [eauto|eauto| |eauto].
  destruct ((code =? 429)%nat && negb (2 =? 0)%nat); [|eauto].
  destruct (post 2) as [b| |code2|m]; [eauto|eauto| |eauto].
  destruct ((code2 =? 429)%nat && negb (1 =? 0)%nat); [|eauto].
  destruct (post 3) as [b| |code3|m]; [eauto|eauto| |eauto].
  destruct ((code3 =? 429)%nat && negb (0 =? 0)%nat); eauto.
Qed.

(** C5, as the code has it.  A call for voice [v], trimmed text [x],
    language [l], made at [t0], that reaches the provider stores nothing
    while the provider is awaited; when the answer [r] is there, [r] is
    stored under the key of the call with the time [t0] (and stays, the
    answer having come within 10 seconds).

    While that entry is stored, whatever other calls were made and
    whatever else the cache holds, a call with the same voice, the same
    trimmed text and the same language made less than 3 seconds after
    [t0] is served from the cache, whatever its emotion bucket, without
    a provider request.  It is handed an entry for that voice, text and
    language (as a prefix of its key) that is younger than 5 seconds:
    the entry with [r] when its bucket is the first call's; the entry
    under its own key when that is younger than 5 seconds; and else the
    first entry, in insertion order, whose key extends the base key and
    that is younger than 3 seconds.

    A call with the key of the first one that starts while the first is
    still awaited, the cache being as the first found it, asks the
    provider itself.  And no call is ever handed a cache entry of 5
    seconds or older. *)
Theorem cache_serves_near_duplicates v l text1 e1 r t0 :
  let x := Js.trim text1 in
  (forall cache tc,
      (tc - t0 <= 10000)%Z ->
      JsMap.get (store cache v x l e1 r t0 tc) (cacheKey v x l e1) = Some (mkEntry r t0))
  /\ (forall cache post text2 e2 t tc,
         JsMap.get cache (cacheKey v x l e1) = Some (mkEntry r t0) ->
         Js.trim text2 = x -> (t - t0 < 3000)%Z ->
         exists k hit,
           synthesizeChunk cache post v text2 l e2 t tc = (cache, 0, Ok (result hit))
           /\ In (k, hit) (JsMap.entries cache)
           /\ Js.startsWith k (baseTextKey v x l) = true
           /\ (t - timestamp hit < 5000)%Z
           /\ (emotionKey e2 = emotionKey e1 -> hit = mkEntry r t0)
           /\ (forall own, JsMap.get cache (cacheKey v x l e2) = Some own ->
                           (t - timestamp own < 5000)%Z -> hit = own)
           /\ ((forall own, JsMap.get cache (cacheKey v x l e2) = Some own ->
                            (5000 <= t - timestamp own)%Z) ->
               similarHit cache (baseTextKey v x l) t = Some (k, hit)))
  /\ (forall cache post text2 e2 t tc,
         lookup cache v x l e1 t0 = None ->
         Js.trim text2 = x -> emotionKey e2 = emotionKey e1 -> (t0 <= t)%Z ->
         exists n res,
           synthesizeWithRetry post 3 = (S n, res)
           /\ snd (fst (synthesizeChunk cache post v text2 l e2 t tc)) = S n)
  /\ (forall cache v' x' l' e now hit,
         lookup cache v' x' l' e now = Some hit -> (now - timestamp hit < 5000)%Z).
Proof.
  intros x. split; [|split; [|split]].
  - intros cache tc Hclean. unfold store.
    apply get_cleanCache; [apply get_set_eq | cbn; lia].
  - intros cache post text2 e2 t tc Hstored Htrim Hnear.
    unfold synthesizeChunk. rewrite Htrim. fold x.
    assert (Hsim : exists k hit,
               similarHit cache (baseTextKey v x l) t = Some (k, hit)
               /\ In (k, hit) (JsMap.entries cache)
               /\ Js.startsWith k (baseTextKey v x l) = true
               /\ (t - timestamp hit < 3000)%Z).
    { unfold similarHit.
      destruct (List.find _ (JsMap.entries cache)) as [[k hit]|] eqn:Hf.
      - apply find_some in Hf as (Hin & Hq). cbn [fst snd] in Hq.
        apply andb_true_iff in Hq as (Hpre & Hage). apply Z.ltb_lt in Hage.
        exists k, hit. auto.
      - apply get_In in Hstored.
        pose proof (find_none _ _ Hf _ Hstored) as Hq. cbn [fst snd timestamp] in Hq.
        rewrite cacheKey_startsWith in Hq. cbn [andb] in Hq. apply Z.ltb_ge in Hq. lia. }
    destruct Hsim as (k & hit & Hsim & Hin & Hpre & Hage).
    unfold lookup. rewrite Hsim. cbn [option_map snd].
    destruct (JsMap.get cache (cacheKey v x l e2)) as [own|] eqn:Hown.
    + destruct (t - timestamp own <? 5000)%Z eqn:Hfresh.
      * apply Z.ltb_lt in Hfresh.
        exists (cacheKey v x l e2), own. split; [reflexivity|].
        split; [now apply get_In|]. split; [apply cacheKey_startsWith|].
        split; [exact Hfresh|]. split; [|split].
        -- intros Hsame. apply (cacheKey_inj v x l) in Hsame.
           rewrite Hsame, Hstored in Hown. now injection Hown as <-.
        -- now intros own' [= <-] _.
        -- intros Hold. specialize (Hold own eq_refl). lia.
      * apply Z.ltb_ge in Hfresh.
        exists k, hit. split; [reflexivity|]. split; [exact Hin|]. split; [exact Hpre|].
        split; [lia|]. split; [|split].
        -- intros Hsame. apply (cacheKey_inj v x l) in Hsame.
           rewrite Hsame, Hstored in Hown. injection Hown as <-. cbn in Hfresh. lia.
        -- intros own' [= <-] Hlt. lia.
        -- intros _. reflexivity.
    + exists k, hit. split; [reflexivity|]. split; [exact Hin|]. split; [exact Hpre|].
      split; [lia|]. split; [|split].
      * intros Hsame. apply (cacheKey_inj v x l) in Hsame.
        rewrite Hsame, Hstored in Hown. discriminate.
      * intros own' [=].
      * intros _. reflexivity.
  - intros cache post text2 e2 t tc Hmiss Htrim Hsame Hle.
    destruct (retry_asks_provider post) as (n & res & Hretry).
    exists n, res. split; [exact Hretry|].
    unfold synthesizeChunk. rewrite Htrim. fold x.
    assert (Hmiss2 : lookup cache v x l e2 t = None).
    { apply (lookup_None_later cache v x l e2 t0 t); [|exact Hle].
      unfold lookup in *. apply (cacheKey_inj v x l) in Hsame. now rewrite Hsame. }
    rewrite Hmiss2, Hretry. destruct res; reflexivity.
  - intros cache v' x' l' e now hit Hl. now apply lookup_fresh in Hl.
Qed.

Import Scenario.

(** "hello" is synthesized with a happy profile at time 0 and answered
    200 ms later; "  hello " is asked for without a profile 2 seconds
    after the first call was made. *)
Lemma cache_serves_near_duplicates_witness :
  let cache := store [] "v1" (Js.trim "hello") "tr" happy (Some "AAAA") 0 200 in
  synthesizeChunk cache (fun _ => Audio "BBBB") "v1" "  hello " "tr" None 2000 2200
  = (cache, 0, Ok (Some "AAAA")).
Proof.
  intros cache.
  pose proof (cache_serves_near_duplicates "v1" "tr" "hello" happy (Some "AAAA") 0%Z) as H.
  cbv zeta in H. destruct H as (Hstore & Hserve & _).
  assert (Hstored : JsMap.get cache (cacheKey "v1" (Js.trim "hello") "tr" happy)
                    = Some (mkEntry (Some "AAAA") 0))
    by (apply (Hstore [] 200%Z); lia).
  destruct (Hserve cache (fun _ => Audio "BBBB") "  hello " None 2000%Z 2200%Z
              Hstored eq_refl ltac:(lia))
    as (k & hit & Hcall & _ & _ & _ & _ & _ & Hscan).
  rewrite Hcall. f_equal. f_equal.
  assert (Hhit : similarHit cache (baseTextKey "v1" (Js.trim "hello") "tr") 2000
                 = Some (k, hit)) by (apply Hscan; intros own [=]).
  vm_compute in Hhit. injection Hhit as _ <-. reflexivity.
Defined.

(** Two calls that overlap: the second starts while the first is still
    awaited, finds the cache as the first found it, and asks the provider
    too; each stores its own answer when it comes, and the later answer
    replaces the earlier one. *)
Lemma overlapping_calls_both_ask_the_provider :
  let found1 := lookup [] "v1" "hello" "tr" None 0 in
  let found2 := lookup [] "v1" "hello" "tr" None 1000 in
  let cache1 := store [] "v1" "hello" "tr" None (Some "AAAA") 0 1500 in
  let cache2 := store cache1 "v1" "hello" "tr" None (Some "BBBB") 1000 2500 in
  found1 = None /\ found2 = None
  /\ option_map result (lookup cache2 "v1" "hello" "tr" None 2600) = Some (Some "BBBB").
Proof. repeat split; reflexivity. Qed.

(** C5 as stated fails.  "hello" is synthesized with a happy profile at
    time 0 (audio AAAA), and again without a profile at 4000 ms: the first
    entry is older than 3 seconds, so the provider is asked (audio BBBB).
    A third call with the happy profile at 4500 ms, half a second after
    the second one and with its voice, text and language, is served the
    entry of the first call under its own key, which is younger than 5
    seconds: it returns AAAA, not the BBBB of the call it follows. *)
Lemma near_duplicate_gets_other_audio :
  let post1 := fun _ : nat => Audio "AAAA" in
  let post2 := fun _ : nat => Audio "BBBB" in
  let post3 := fun _ : nat => Audio "CCCC" in
  let call1 := synthesizeChunk [] post1 "v1" "hello" "tr" happy 0 200 in
  let call2 := synthesizeChunk (fst (fst call1)) post2 "v1" "hello" "tr" None 4000 4200 in
  let call3 := synthesizeChunk (fst (fst call2)) post3 "v1" "hello" "tr" happy 4500 4700 in
  (snd (fst call2), snd call2) = (1, Ok (Some "BBBB"))
  /\ (4500 - 4000 < 3000)%Z
  /\ (snd (fst call3), snd call3) = (0, Ok (Some "AAAA"))
  /\ snd call3 <> snd call2.
Proof. cbv zeta. repeat split; try reflexivity. discriminate. Qed.

End SynthesisFacts.


(** ** Translation client: requests and errors *)

Module TranslationFacts.
Import Translation.

(** C6, as the code has it.  A call with empty (or blank) text issues no
    provider request and returns the empty translation.  A call with other
    text issues exactly one request, with a timeout of 10 seconds,
    whatever the provider does with it: status 456 and status 403 are
    surfaced as their own errors, any other error status (5xx included)
    and a missing response are surfaced as errors too, none of them after
    a second request. *)
Theorem translate_issues_one_request post text src tgt :
  (String.length (Js.trim text) = 0 ->
     translate post text src tgt = ([], Ok (mkTranslated EmptyString src 0)))
  /\ (String.length (Js.trim text) <> 0 ->
      exists rq,
        fst (translate post text src tgt) = [rq]
        /\ rq_text rq = text /\ timeout rq = 10000%Z
        /\ (forall m, post 0 rq = ErrorResponse 456 m ->
              snd (translate post text src tgt) = Throw "Translation quota exceeded")
        /\ (forall m, post 0 rq = ErrorResponse 403 m ->
              snd (translate post text src tgt) = Throw "DeepL API key invalid")
        /\ (forall status m, post 0 rq = ErrorResponse status m ->
              status <> 456 -> status <> 403 ->
              snd (translate post text src tgt)
              = Throw ("DeepL API error: " ++ showNat status ++ " - " ++ orUnknown m))
        /\ (post 0 rq = NoResponse ->
              snd (translate post text src tgt)
              = Throw "DeepL API network error - no response received")
        /\ (forall translated detected more,
              post 0 rq = Response (Some ((translated, detected) :: more)) ->
              snd (translate post text src tgt) = Ok (mkTranslated translated detected 1))).
Proof.
  unfold translate. split.
  - intros Hempty. now rewrite Hempty.
  - intros Hne. apply Nat.eqb_neq in Hne. rewrite Hne.
    eexists. split; [reflexivity|]. cbn [fst snd rq_text timeout].
    split; [reflexivity|]. split; [reflexivity|].
    split; [intros m ->; reflexivity|].
    split; [intros m ->; reflexivity|].
    split.
    + intros status m -> H456 H403.
      apply Nat.eqb_neq in H456, H403. now rewrite H456, H403.
    + split; [intros ->; reflexivity|].
      intros translated detected more ->. reflexivity.
Qed.

Import Scenario.

Lemma translate_issues_one_request_witness :
  exists rq,
    fst (translate flaky "hello" "en" "tr") = [rq]
    /\ timeout rq = 10000%Z
    /\ snd (translate flaky "hello" "en" "tr")
       = Throw "DeepL API network error - no response received".
Proof.
  destruct (proj2 (translate_issues_one_request flaky "hello" "en" "tr"))
    as (rq & Hrq & _ & Htimeout & _ & _ & _ & Hnet & _).
  - vm_compute. discriminate.
  - exists rq. split; [exact Hrq|]. split; [exact Htimeout|].
    apply Hnet. injection Hrq as <-. reflexivity.
Defined.

(** C6 as stated fails.  The provider does not answer the first request
    and would answer a second one: the call issues one request and
    surfaces the network error.  The same with a 503 response. *)
Lemma network_failure_is_not_retried :
  length (fst (translate flaky "hello" "en" "tr")) = 1
  /\ snd (translate flaky "hello" "en" "tr")
     = Throw "DeepL API network error - no response received"
  /\ length (fst (translate unavailable "hello" "en" "tr")) = 1
  /\ snd (translate unavailable "hello" "en" "tr")
     = Throw "DeepL API error: 503 - Unknown error".
Proof. repeat split; reflexivity. Qed.

End TranslationFacts.


(** ** The sockets of the pipeline sessions in every state of the server *)

Module ServerInvariant.
Section WithNumber.
Context {num : Type} `{Number num}.
Import Pipeline PipelineFacts.
Implicit Types (st : Server.t (num := num)).

Lemma create_keyed : socketKeyed (Server.streamingPipeline (Server.create (num := num))).
Proof. intros k s sock []. Qed.

Lemma joinSession_keyed st sock rl lang voice uuid oDoctor oPatient now :
  socketKeyed (Server.streamingPipeline st) ->
  socketKeyed (Server.streamingPipeline
                 (fst (Server.joinSession st sock rl lang voice uuid oDoctor oPatient now))).
Proof.
  intros Hk. unfold Server.joinSession.
  destruct (_ || _); [exact Hk|].
  destruct (SessionManager.addUser _ _ _ _ _) as [sm [session|m]]; [|exact Hk].
  destruct (Server.slotUser sm (SessionManager.doctor session)) as [d|]; [|exact Hk].
  destruct (Server.slotUser sm (SessionManager.patient session)) as [p|]; [|exact Hk].
  destruct (SessionManager.socket d) as [ds|]; [|exact Hk].
  destruct (SessionManager.socket p) as [ps|]; [|exact Hk].
  pose proof (startTranslationSession_keyed (Server.streamingPipeline st) oDoctor
                (SessionManager.id session) ds (SessionManager.language d)
                (SessionManager.language p) (SessionManager.voiceId p) "doctor" now Hk) as H1.
  destruct (startTranslationSession (Server.streamingPipeline st) _ _ _ _ _ _ _ _ _)
    as [p1 okDoctor].
  cbn [fst] in H1.
  pose proof (startTranslationSession_keyed p1 oPatient
                (SessionManager.id session) ps (SessionManager.language p)
                (SessionManager.language d) (SessionManager.voiceId d) "patient" now H1) as H2.
  destruct (startTranslationSession p1 _ _ _ _ _ _ _ _ _) as [p2 okPatient].
  exact H2.
Qed.

Lemma step_keyed st e :
  socketKeyed (Server.streamingPipeline st) ->
  socketKeyed (Server.streamingPipeline (Server.step st e)).
Proof.
  intros Hk. destruct e; cbn [Server.step].
  - now apply joinSession_keyed.
  - unfold Server.streamingAudio.
    pose proof (processAudioData_keyed (Server.streamingPipeline st) sock frame now Hk) as Hp.
    destruct (processAudioData _ _ _ _) as [[p effects] processed]. exact Hp.
  - unfold Server.disconnect.
    destruct (SessionManager.removeUser _ _ _) as [[sm out] removed].
    cbn [fst Server.streamingPipeline]. now apply stopTranslationSession_keyed.
  - now apply handlePartialTranscription_keyed.
  - now apply handleFinalTranscription_keyed.
  - now apply onTimer_keyed.
  - exact Hk.
Qed.

(** In every state the server reaches from its start through these
    events, each pipeline session holds the socket whose id is its key. *)
Lemma run_keyed events :
  forall st, socketKeyed (Server.streamingPipeline st) ->
             socketKeyed (Server.streamingPipeline (Server.run st events)).
Proof.
  induction events as [|e rest IH]; intros st Hk; [exact Hk|].
  cbn [Server.run fold_left]. apply IH, step_keyed, Hk.
Qed.

Lemma reachable_keyed events :
  socketKeyed (Server.streamingPipeline (Server.run (Server.create (num := num)) events)).
Proof. apply run_keyed, create_keyed. Qed.

(** X5.  In every state the server reaches through its handlers from
    its initial state, every [synthesized-audio] message
    that the translation of an utterance of [uid] emits goes to the socket
    of another pipeline session: an active entry of [activeSessions] under
    another key with the speaker's session id.  That socket is not the one
    of the speaker's entry, and such an entry exists: without one, no
    [synthesized-audio] message is emitted. *)
Lemma reachable_audio_goes_to_other_entry events o uid text now e :
  let st := Server.streamingPipeline (Server.run (Server.create (num := num)) events) in
  In e (emits (snd (processCompleteTranslation st o uid text now))) ->
  is_synthesized_audio (event e) = true ->
  toPartnerOf st uid e
  /\ (forall us, JsMap.get (activeSessions st) uid = Some us -> socket us <> Some (to e))
  /\ findPartnerSession st uid <> None.
Proof.
  intros st Hin Haudio.
  exact (keyed_audio_goes_to_partner st o uid text now e (reachable_keyed events) Hin Haudio).
Qed.

(** Without another active entry of the session id nothing is sent. *)
Lemma no_partner_no_audio (st : Pipeline.t (num := num)) o uid text now e :
  findPartnerSession st uid = None ->
  In e (emits (snd (processCompleteTranslation st o uid text now))) ->
  is_synthesized_audio (event e) = false.
Proof.
  intros Hnone Hin. destruct (is_synthesized_audio (event e)) eqn:E; [|reflexivity].
  destruct (processCompleteTranslation_audio st o uid text now e Hin E) as (pid & ps & Hp & _).
  congruence.
Qed.

End WithNumber.

Import Scenario.

(** The patient of the consultation says "hello": the audio goes to the
    doctor's socket. *)
Example consultation_audio_goes_to_doctor :
  let st := Server.streamingPipeline (Server.run Server.create consultation) in
  map to (List.filter (fun e => is_synthesized_audio (event e))
            (Pipeline.emits (snd (Pipeline.processCompleteTranslation st providers "s2" "hello" 3000))))
  = ["s1"].
Proof. vm_compute. reflexivity. Qed.

(** The same at the consultation: the audio of the patient's "hello" goes
    to the doctor's entry. *)
Lemma reachable_audio_goes_to_other_entry_witness :
  let st := Server.streamingPipeline (Server.run Server.create consultation) in
  let e := mkEmit "s1" (synthesized_audio "QUJD" "merhaba" true) in
  In e (Pipeline.emits (snd (Pipeline.processCompleteTranslation st providers "s2" "hello" 3000)))
  /\ Pipeline.toPartnerOf st "s2" e
  /\ Pipeline.findPartnerSession st "s2" <> None.
Proof.
  intros st e.
  assert (Hin : In e (Pipeline.emits
                        (snd (Pipeline.processCompleteTranslation st providers "s2" "hello"
                                3000))))
    by (vm_compute; tauto).
  split; [exact Hin|].
  destruct (reachable_audio_goes_to_other_entry consultation providers "s2" "hello" 3000 e
              Hin eq_refl) as (Hto & _ & Hsome).
  split; [exact Hto | exact Hsome].
Defined.

End ServerInvariant.

(** ** What a reconnection does to the pipeline *)

Module ReconnectionScenario.
Import Scenario.

(** C1 at the input where it fails.  A doctor on socket [s1] and a
    patient on [s2] are paired; the doctor joins again, same role,
    language and voice, on socket [s3] while [s1] is still registered.
    The registry has the session with the doctor on [s3] and the patient
    on [s2].  The join handler starts pipeline sessions for [s3] and [s2]
    and leaves the entry of [s1]: the session id now has three pipeline
    entries.  [findPartnerSession] takes the first other entry in
    insertion order, so the audio synthesized for an utterance of the
    doctor on [s3] is sent to [s1], the doctor's earlier socket, and
    nothing to the patient's socket [s2]; the audio for an utterance of
    the patient is sent to [s1] as well, not to [s3]. *)
Theorem audio_after_reconnection_goes_to_stale_socket :
  let st := Server.run Server.create reconnection in
  let sm := Server.sessionManager st in
  let audioFor uid :=
    map to (List.filter (fun e => is_synthesized_audio (event e))
              (Pipeline.emits (snd (Pipeline.processCompleteTranslation
                                      (Server.streamingPipeline st) providers uid "hello" 4000)))) in
  (exists session,
      SessionManager.getSession sm "session-2" = Some session
      /\ SessionManager.status session = SessionManager.active
      /\ Server.slotUser sm (SessionManager.doctor session) ≫= SessionManager.socket = Some "s3"
      /\ Server.slotUser sm (SessionManager.patient session) ≫= SessionManager.socket = Some "s2")
  /\ JsMap.keys (Pipeline.activeSessions (Server.streamingPipeline st)) = ["s1"; "s2"; "s3"]
  /\ map (fun kv => Pipeline.sessionId (snd kv))
         (JsMap.entries (Pipeline.activeSessions (Server.streamingPipeline st)))
     = ["session-2"; "session-2"; "session-2"]
  /\ audioFor "s3" = ["s1"]
  /\ audioFor "s2" = ["s1"].
Proof.
  cbv zeta. split; [eexists; repeat split; vm_compute; reflexivity|].
  repeat split; vm_compute; reflexivity.
Qed.

End ReconnectionScenario.


(** ** The duplicate test along the runs of the pipeline *)

Module PipelineRunFacts.
Import Pipeline PipelineRuns JsMapFacts PipelineFacts.

Section Facts.
Context {V : Type}.
Implicit Types (m : JsMap.t V) (k : string) (v : V).

Lemma In_keys_set m k v x :
  In x (JsMap.keys (JsMap.set m k v)) -> x = k \/ In x (JsMap.keys m).
Proof.
  intros Hin. apply In_keys_get in Hin as [w Hw]. rewrite get_set in Hw.
  destruct (String.eqb k x) eqn:E.
  - apply String.eqb_eq in E. now left.
  - right. apply In_keys_get. eauto.
Qed.

Lemma In_keys_delete m k x : In x (JsMap.keys (JsMap.delete m k)) -> In x (JsMap.keys m).
Proof.
  intros Hin. apply In_keys_get in Hin as [w Hw]. apply get_delete_Some in Hw.
  apply In_keys_get. eauto.
Qed.

Lemma NoDup_set m k v : NoDup (JsMap.keys m) -> NoDup (JsMap.keys (JsMap.set m k v)).
Proof.
  induction m as [|[k' v'] m IH]; cbn [JsMap.set]; intros Hnd.
  - cbn. apply NoDup_singleton.
  - cbn in Hnd. apply NoDup_cons in Hnd as [Hnotin Hnd'].
    destruct (String.eqb k' k) eqn:E.
    + apply String.eqb_eq in E. subst k'. cbn. apply NoDup_cons. now split.
    + cbn. apply NoDup_cons. split; [|now apply IH].
      intros Hin. apply list_elem_of_In, In_keys_set in Hin as [->|Hin].
      * now rewrite String.eqb_refl in E.
      * apply Hnotin, list_elem_of_In. exact Hin.
Qed.

Lemma NoDup_delete m k : NoDup (JsMap.keys m) -> NoDup (JsMap.keys (JsMap.delete m k)).
Proof.
  induction m as [|[k' v'] m IH]; cbn [JsMap.delete]; intros Hnd; [constructor|].
  cbn in Hnd. apply NoDup_cons in Hnd as [Hnotin Hnd'].
  destruct (String.eqb k' k); [now apply IH|].
  cbn. apply NoDup_cons. split; [|now apply IH].
  intros Hin. apply list_elem_of_In, In_keys_delete in Hin.
  apply Hnotin, list_elem_of_In. exact Hin.
Qed.

(** Without a key twice, an entry of the map is the one [get] finds. *)
Lemma NoDup_get m k v : NoDup (JsMap.keys m) -> In (k, v) m -> JsMap.get m k = Some v.
Proof.
  induction m as [|[k' v'] m IH]; cbn [JsMap.get]; intros Hnd Hin; [destruct Hin|].
  cbn in Hnd. apply NoDup_cons in Hnd as [Hnotin Hnd'].
  destruct Hin as [[= -> ->]|Hin].
  - now rewrite String.eqb_refl.
  - destruct (String.eqb k' k) eqn:E; [|now apply IH].
    apply String.eqb_eq in E. subst k'. exfalso. apply Hnotin, list_elem_of_In.
    apply (in_map fst) in Hin. exact Hin.
Qed.
End Facts.

Section WithNumber.
Context {num : Type} `{Number num}.
Implicit Types (st : Pipeline.t (num := num)) (uid : string) (g : string -> Memory).

(** *** Calls that leave the remembered fields alone *)

(** [st'] has the keys of [st] once each, and its records remember what
    those of [st] do. *)
Lemma recordsAgree_sessions st st' g :
  activeSessions st' = activeSessions st -> recordsAgree st g -> recordsAgree st' g.
Proof. unfold recordsAgree. now intros ->. Qed.

Lemma recordsAgree_update st g k s s' :
  JsMap.get (activeSessions st) k = Some s ->
  remembered s' = remembered s ->
  recordsAgree st g -> recordsAgree (with_session st k s') g.
Proof.
  intros Hg Hr [Hnd Hv]. split.
  - apply NoDup_set. exact Hnd.
  - intros uid. unfold with_session, with_sessions. cbn [activeSessions].
    rewrite get_set. destruct (String.eqb k uid) eqn:E; [|apply Hv].
    apply String.eqb_eq in E. subst k. rewrite <- Hv, Hg. cbn. now rewrite Hr.
Qed.

Lemma recordsAgree_get st g uid s :
  recordsAgree st g -> JsMap.get (activeSessions st) uid = Some s ->
  fields (g uid) = Some (remembered s).
Proof. intros [_ Hv] Hg. rewrite <- Hv, Hg. reflexivity. Qed.

Lemma processAudioData_agree st g uid frame now :
  recordsAgree st g -> recordsAgree (fst (fst (processAudioData st uid frame now))) g.
Proof.
  intros Hk. unfold processAudioData.
  destruct (JsMap.get (activeSessions st) uid) as [session|] eqn:Hg; [|exact Hk].
  destruct (isActive session); [|exact Hk]. cbn [negb].
  destruct (Transcription.sendAudioData _ uid frame now) as [[ts effects] sent].
  set (st1 := mk (activeSessions st) ts (synthesisService st) (conversationProcessor st)
                 (emotionalProfiles st)).
  assert (Hk1 : recordsAgree st1 g) by exact Hk.
  assert (Hg1 : JsMap.get (activeSessions st1) uid = Some session) by exact Hg.
  destruct sent; [|exact Hk1]. cbn [fst].
  set (s1 := with_lastActivity (with_stats session (bump_audioChunks (stats session))) now).
  assert (Hk2 : recordsAgree (with_session st1 uid s1) g)
    by (apply (recordsAgree_update st1 g uid session); auto).
  set (st3 := match findPartnerSession (with_session st1 uid s1) uid with
              | Some (pid, ps) => with_session (with_session st1 uid s1) pid
                                    (with_lastActivity ps now)
              | None => with_session st1 uid s1
              end).
  assert (Hk3 : recordsAgree st3 g /\ exists s, JsMap.get (activeSessions st3) uid = Some s
                                                /\ remembered s = remembered s1).
  { subst st3.
    destruct (findPartnerSession (with_session st1 uid s1) uid) as [[pid ps]|] eqn:Hp.
    - apply findPartnerSession_Some in Hp as (us & _ & Hin & Hne & _).
      split.
      + apply (recordsAgree_update _ g pid ps); [|reflexivity|exact Hk2].
        apply NoDup_get; [apply Hk2 | exact Hin].
      + exists s1. split; [|reflexivity].
        unfold with_session at 1. unfold with_sessions. cbn [activeSessions].
        rewrite get_set_ne by exact Hne. apply get_with_session.
    - split; [exact Hk2|]. exists s1. split; [apply get_with_session | reflexivity]. }
  destruct Hk3 as (Hk3 & s & Hs & Hrs).
  apply (recordsAgree_update st3 g uid s); [exact Hs | | exact Hk3].
  rewrite Hrs. reflexivity.
Qed.

Lemma handleSynthesisChunk_agree st g uid chunk now :
  recordsAgree st g -> recordsAgree (fst (handleSynthesisChunk st uid chunk now)) g.
Proof.
  intros Hk. unfold handleSynthesisChunk.
  destruct (JsMap.get (activeSessions st) uid) as [session|] eqn:Hg; [|exact Hk].
  assert (Hk1 : recordsAgree
                  (with_session st uid
                     (with_lastActivity
                        (with_stats session (bump_synthesisChunks (stats session))) now)) g)
    by (apply (recordsAgree_update st g uid session); auto).
  destruct (findPartnerSession _ uid) as [[pid ps]|]; [|exact Hk1].
  destruct (socket ps); exact Hk1.
Qed.

Lemma handleSynthesisComplete_agree st g uid now :
  recordsAgree st g -> recordsAgree (handleSynthesisComplete st uid now) g.
Proof.
  intros Hk. unfold handleSynthesisComplete.
  destruct (JsMap.get (activeSessions st) uid) as [session|] eqn:Hg; [|exact Hk].
  apply (recordsAgree_update st g uid session); auto.
Qed.

Lemma deliver_agree st g o uid text translated own profile now :
  recordsAgree st g -> recordsAgree (fst (deliver st o uid text translated own profile now)) g.
Proof.
  intros Hk. unfold deliver.
  destruct (Synthesis.synthesizeText _ _ _ _ _ _ _ _) as [syn report].
  set (st1 := mk (activeSessions st) (transcriptionService st) syn (conversationProcessor st)
                 (emotionalProfiles st)).
  assert (Hk1 : recordsAgree st1 g) by exact Hk.
  assert (Hk2 : recordsAgree (fst match Synthesis.onAudioChunk report with
                                  | Some chunk => handleSynthesisChunk st1 uid chunk now
                                  | None => (st1, [])
                                  end) g).
  { destruct (Synthesis.onAudioChunk report) as [chunk|];
      [now apply handleSynthesisChunk_agree | exact Hk1]. }
  destruct (match Synthesis.onAudioChunk report with
            | Some chunk => handleSynthesisChunk st1 uid chunk now
            | None => (st1, [])
            end) as [st2 audio].
  cbn [fst] in *.
  destruct (Synthesis.onComplete report); [now apply handleSynthesisComplete_agree | exact Hk2].
Qed.

(** *** The duplicate test and the memory *)

(** The test of the code on a record is the test of the specification
    on what the record remembers. *)
Lemma isRepeat_repeats (session : SessionInfo) m text now :
  fields m = Some (remembered session) ->
  isRepeat session (normalize text) now = repeats m text now.
Proof.
  unfold isRepeat, repeats, remembered.
  destruct m as [| |n t]; cbn; [discriminate| |]; intros [= Hn Ht];
    rewrite <- Hn; try rewrite <- Ht; reflexivity.
Qed.

Lemma repeats_spec m text now : repeats m text now = true <-> repeatsRemembered m text now.
Proof.
  unfold repeats, repeatsRemembered. destruct m as [| |n t].
  - split; [discriminate | intros (? & ? & [=] & _)].
  - split; [discriminate | intros (? & ? & [=] & _)].
  - rewrite andb_true_iff, String.eqb_eq, Z.ltb_lt. split.
    + intros [Hn Ht]. exists n, t. auto.
    + intros (n' & t' & [= <- <-] & Hn & Ht). auto.
Qed.

Lemma fields_None m : fields m = None -> m = NoSession.
Proof. destruct m; [reflexivity | discriminate | discriminate]. Qed.

(** A record set under [k] and a memory changed at [k] only. *)
Lemma recordsAgree_set st g g' k s' :
  recordsAgree st g ->
  fields (g' k) = Some (remembered s') ->
  (forall u, u <> k -> g' u = g u) ->
  recordsAgree (with_session st k s') g'.
Proof.
  intros [Hnd Hv] Hk Hother. split.
  - apply NoDup_set. exact Hnd.
  - intros u. unfold with_session, with_sessions. cbn [activeSessions].
    rewrite get_set. destruct (String.eqb k u) eqn:E.
    + apply String.eqb_eq in E. subst u. now rewrite Hk.
    + apply String.eqb_neq in E. rewrite Hother by congruence. apply Hv.
Qed.

(** A record deleted under [k] and a memory changed at [k] only. *)
Lemma recordsAgree_delete st g g' k :
  recordsAgree st g ->
  g' k = NoSession ->
  (forall u, u <> k -> g' u = g u) ->
  NoDup (JsMap.keys (JsMap.delete (activeSessions st) k))
  /\ forall u, option_map remembered (JsMap.get (JsMap.delete (activeSessions st) k) u)
               = fields (g' u).
Proof.
  intros [Hnd Hv] Hk Hother. split.
  - apply NoDup_delete. exact Hnd.
  - intros u. destruct (String.eqb k u) eqn:E.
    + apply String.eqb_eq in E. subst u. now rewrite get_delete_eq, Hk.
    + apply String.eqb_neq in E. rewrite get_delete_ne by exact E.
      rewrite Hother by congruence. apply Hv.
Qed.

(** [processCompleteTranslation] moves the two fields of the speaker's
    record as [note] moves the memory at a fired utterance. *)
Lemma processCompleteTranslation_agree st g o uid text now :
  recordsAgree st g ->
  recordsAgree (fst (processCompleteTranslation st o uid text now))
    (fun u => note u (g u) (Fired uid text now)).
Proof.
  intros Hk. unfold processCompleteTranslation.
  destruct (JsMap.get (activeSessions st) uid) as [session|] eqn:Hg.
  - pose proof (recordsAgree_get st g uid session Hk Hg) as Hf.
    rewrite (isRepeat_repeats session (g uid) text now Hf).
    destruct (repeats (g uid) text now) eqn:Hrep.
    + cbn [fst]. destruct Hk as [Hnd Hv]. split; [exact Hnd|].
      intros u. rewrite Hv. cbn [note].
      destruct (String.eqb uid u) eqn:E; [|reflexivity].
      apply String.eqb_eq in E. subst u. rewrite Hrep.
      destruct (g uid); reflexivity.
    + set (s1 := with_lastProcessed session (normalize text) now).
      set (g' := fun u => note u (g u) (Fired uid text now)).
      assert (Hk1 : recordsAgree (with_session st uid s1) g').
      { apply (recordsAgree_set st g); [exact Hk | |].
        - subst g'. cbn [note]. rewrite String.eqb_refl, Hrep.
          destruct (g uid); [discriminate Hf | reflexivity | reflexivity].
        - intros u Hne. subst g'. cbn [note].
          destruct (String.eqb uid u) eqn:E; [|reflexivity].
          apply String.eqb_eq in E. congruence. }
      destruct (Translation.translate _ _ _ _) as [requests translation].
      destruct translation as [tr|msg]; [|exact Hk1].
      destruct (String.eqb (Translation.translatedText tr) EmptyString); [exact Hk1|].
      set (s2 := with_stats s1 (bump_translations (stats s1))).
      assert (Hk2 : recordsAgree (with_session (with_session st uid s1) uid s2) g').
      { apply (recordsAgree_update _ g' uid s1);
          [apply get_with_session | reflexivity | exact Hk1]. }
      match goal with
      | |- context [let '(st3, profile) := ?X in _] => destruct X as [st3 profile] eqn:Hemo
      end.
      assert (Hk3 : recordsAgree st3 g').
      { destruct (String.eqb _ EmptyString); [now injection Hemo as <- _|].
        destruct (analyzeEmotionalContent o _); injection Hemo as <- _; exact Hk2. }
      destruct (socket s2) as [own|]; [|exact Hk3].
      pose proof (deliver_agree st3 g' o uid text (Translation.translatedText tr) own profile
                    now Hk3) as Hd.
      destruct (deliver _ _ _ _ _ _ _ _) as [st4 effects]. exact Hd.
  - cbn [fst]. destruct Hk as [Hnd Hv]. split; [exact Hnd|].
    intros u. rewrite Hv. cbn [note].
    destruct (String.eqb uid u) eqn:E; [|reflexivity].
    apply String.eqb_eq in E. subst u.
    specialize (Hv uid). rewrite Hg in Hv. cbn in Hv. symmetry in Hv.
    apply fields_None in Hv. now rewrite Hv.
Qed.

Lemma recordsAgree_ext st g g' :
  (forall u, g' u = g u) -> recordsAgree st g -> recordsAgree st g'.
Proof.
  intros Hext [Hnd Hv]. split; [exact Hnd|]. intros u. now rewrite Hext.
Qed.

Lemma onReady_agree o now events :
  forall st g,
    recordsAgree st g ->
    recordsAgree (fst (onReady st o events now))
      (fun u => fold_left (note u) (firedEntries events now) (g u)).
Proof.
  induction events as [|e rest IH]; intros st g Hk; [exact Hk|].
  cbn [onReady firedEntries map fold_left].
  pose proof (processCompleteTranslation_agree st g o (Gate.rd_userId e) (Gate.rd_text e)
                now Hk) as H1.
  destruct (processCompleteTranslation _ _ _ _ _) as [st1 e1]. cbn [fst] in H1.
  specialize (IH st1 _ H1). destruct (onReady st1 o rest now) as [st2 e2]. exact IH.
Qed.

Lemma consider_agree st g o uid data now :
  recordsAgree st g ->
  recordsAgree (fst (consider st o uid data now))
    (fun u => fold_left (note u)
                (firedEntries
                   (snd (Gate.processProfessionalTranscription (conversationProcessor st)
                           uid data now)) now) (g u)).
Proof.
  intros Hk. unfold consider.
  destruct (Gate.processProfessionalTranscription _ _ _ _) as [gate events].
  apply onReady_agree. exact Hk.
Qed.

Lemma handlePartialTranscription_agree st g o uid r now :
  recordsAgree st g ->
  recordsAgree (fst (handlePartialTranscription st o uid r now))
    (fun u => fold_left (note u) (entries st (Partial uid r o now)) (g u)).
Proof.
  intros Hk. unfold handlePartialTranscription. cbn [entries]. unfold heard.
  destruct (JsMap.get (activeSessions st) uid) as [session|] eqn:Hg; [|exact Hk].
  set (s1 := with_lastActivity (with_stats session (bump_partialResults (stats session))) now).
  assert (Hk1 : recordsAgree (with_session st uid s1) g)
    by (apply (recordsAgree_update st g uid session); auto).
  change (socket s1) with (socket session).
  destruct (socket session) as [own|]; [|exact Hk1].
  pose proof (consider_agree (with_session st uid s1) g o uid (partialData r now) now Hk1)
    as Hc.
  unfold partialData in *.
  destruct (consider _ _ _ _ _) as [st2 effects]. exact Hc.
Qed.

Lemma handleFinalTranscription_agree st g o uid r now :
  recordsAgree st g ->
  recordsAgree (fst (handleFinalTranscription st o uid r now))
    (fun u => fold_left (note u) (entries st (Final uid r o now)) (g u)).
Proof.
  intros Hk. unfold handleFinalTranscription. cbn [entries]. unfold heard.
  destruct (JsMap.get (activeSessions st) uid) as [session|] eqn:Hg; [|exact Hk].
  set (s1 := with_lastActivity (with_stats session (bump_finalResults (stats session))) now).
  assert (Hk1 : recordsAgree (with_session st uid s1) g)
    by (apply (recordsAgree_update st g uid session); auto).
  change (socket s1) with (socket session).
  destruct (socket session) as [own|]; [|exact Hk1].
  pose proof (consider_agree (with_session st uid s1) g o uid (finalData r now) now Hk1)
    as Hc.
  unfold finalData in *.
  destruct (consider _ _ _ _ _) as [st2 effects]. exact Hc.
Qed.

Lemma onTimer_agree st g o uid now :
  recordsAgree st g ->
  recordsAgree (fst (onTimer st o uid now))
    (fun u => fold_left (note u) (entries st (Timer uid o now)) (g u)).
Proof.
  intros Hk. unfold onTimer. cbn [entries].
  destruct (Gate.timerFires _ _ _) as [gate events].
  apply onReady_agree. exact Hk.
Qed.

Lemma stopTranslationSession_agree st g uid :
  recordsAgree st g ->
  recordsAgree (stopTranslationSession st uid) (fun u => note u (g u) (Stopped uid)).
Proof.
  intros Hk. unfold stopTranslationSession.
  destruct (JsMap.get (activeSessions st) uid) as [session|] eqn:Hg.
  - apply (recordsAgree_delete st g); [exact Hk | |].
    + cbn [note]. now rewrite String.eqb_refl.
    + intros u Hne. cbn [note]. destruct (String.eqb uid u) eqn:E; [|reflexivity].
      apply String.eqb_eq in E. congruence.
  - destruct Hk as [Hnd Hv]. split; [exact Hnd|].
    intros u. rewrite Hv. cbn [note]. destruct (String.eqb uid u) eqn:E; [|reflexivity].
    apply String.eqb_eq in E. subst u.
    specialize (Hv uid). rewrite Hg in Hv. cbn in Hv. symmetry in Hv.
    apply fields_None in Hv. now rewrite Hv.
Qed.

Lemma startTranslationSession_agree st g o sess uid userLang partnerLang partnerVoice sock rl
    now :
  recordsAgree st g ->
  recordsAgree
    (fst (startTranslationSession st o sess uid userLang partnerLang partnerVoice sock rl now))
    (fun u => fold_left (note u)
                (entries st (Start o sess uid userLang partnerLang partnerVoice sock rl now))
                (g u)).
Proof.
  intros Hk. cbn [entries]. unfold startTranslationSession.
  match goal with
  | |- context [with_session st uid ?i] => set (info := i)
  end.
  assert (Hk1 : recordsAgree (with_session st uid info) (fun u => note u (g u) (Started uid))).
  { apply (recordsAgree_set st g); [exact Hk | |].
    - cbn [note]. now rewrite String.eqb_refl.
    - intros u Hne. cbn [note]. destruct (String.eqb uid u) eqn:E; [|reflexivity].
      apply String.eqb_eq in E. congruence. }
  destruct (Transcription.startStreamingTranscription _ _ _ _ _) as [ts started].
  destruct started; cbn [fst snd fold_left].
  - exact Hk1.
  - match goal with
    | |- recordsAgree (stopTranslationSession ?s _) _ =>
        apply (stopTranslationSession_agree s (fun u => note u (g u) (Started uid)) uid)
    end.
    exact Hk1.
Qed.

Lemma apply_agree st g op :
  recordsAgree st g ->
  recordsAgree (apply st op) (fun u => fold_left (note u) (entries st op) (g u)).
Proof.
  intros Hk. destruct op; cbn [apply].
  - now apply startTranslationSession_agree.
  - now apply stopTranslationSession_agree.
  - now apply processAudioData_agree.
  - now apply handlePartialTranscription_agree.
  - now apply handleFinalTranscription_agree.
  - now apply onTimer_agree.
  - exact Hk.
Qed.

Lemma run_agree ops :
  forall st g,
    recordsAgree st g ->
    recordsAgree (run st ops) (fun u => fold_left (note u) (logOf st ops) (g u)).
Proof.
  induction ops as [|op rest IH]; intros st g Hk; [exact Hk|].
  cbn [run fold_left logOf].
  apply (recordsAgree_ext _ (fun u => fold_left (note u) (logOf (apply st op) rest)
                                        (fold_left (note u) (entries st op) (g u)))).
  - intros u. now rewrite fold_left_app.
  - apply (IH (apply st op)). now apply apply_agree.
Qed.

(** In every state a run of the pipeline reaches, the two fields of each
    session record are those of the utterance processed last for its user
    since the record was created. *)
Lemma reachable_agree ops :
  recordsAgree (run (create (num := num)) ops) (lastProcessed (logOf create ops)).
Proof.
  apply (run_agree ops create (fun _ => NoSession)).
  split; [constructor | reflexivity].
Qed.

(** The test on a record whose fields are those of the memory. *)
Lemma repeatsLast_remembered (session : SessionInfo) m text now :
  fields m = Some (remembered session) ->
  Pipeline.repeatsLast session text now <-> repeatsRemembered m text now.
Proof.
  intros Hf. rewrite <- isRepeat_spec, <- repeats_spec.
  now rewrite (isRepeat_repeats session m text now Hf).
Qed.

(** The duplicate test in a state whose records agree with a memory. *)
Lemma agree_duplicate st g o uid text now :
  recordsAgree st g ->
  (g uid = NoSession ->
     JsMap.get (activeSessions st) uid = None
     /\ processCompleteTranslation st o uid text now = (st, noEffects))
  /\ (g uid <> NoSession ->
        exists session,
          JsMap.get (activeSessions st) uid = Some session
          /\ fields (g uid) = Some (remembered session)
          /\ (repeatsRemembered (g uid) text now ->
                processCompleteTranslation st o uid text now = (st, noEffects))
          /\ (~ repeatsRemembered (g uid) text now ->
                mtCalls (snd (processCompleteTranslation st o uid text now))
                = [(text, userLanguage session, partnerLanguage session)]
                /\ option_map remembered
                     (JsMap.get (activeSessions
                                   (fst (processCompleteTranslation st o uid text now))) uid)
                   = Some (Some (normalize text), Some now))
          /\ (mtCalls (snd (processCompleteTranslation st o uid text now)) = [] ->
                repeatsRemembered (g uid) text now)).
Proof.
  intros Hk. split.
  - intros Hno. destruct Hk as [_ Hv]. specialize (Hv uid). rewrite Hno in Hv.
    destruct (JsMap.get (activeSessions st) uid) as [session|] eqn:Hg; [discriminate|].
    split; [reflexivity|]. unfold processCompleteTranslation. now rewrite Hg.
  - intros Hsome.
    destruct (JsMap.get (activeSessions st) uid) as [session|] eqn:Hg.
    + pose proof (recordsAgree_get st g uid session Hk Hg) as Hf.
      pose proof (repeatsLast_remembered session (g uid) text now Hf) as Hiff.
      destruct (processCompleteTranslation_repeat st o uid text now session Hg)
        as (Hdrop & Hcall & Hconv).
      exists session. split; [reflexivity|]. split; [exact Hf|].
      split; [intros Hrep; apply Hdrop, Hiff, Hrep|].
      split; [|intros Hnone; apply Hiff, Hconv, Hnone].
      intros Hno. split; [apply Hcall; intros Hrep; apply Hno, Hiff, Hrep|].
      pose proof (processCompleteTranslation_agree st g o uid text now Hk) as [_ Hv].
      specialize (Hv uid). rewrite Hv. cbn [note]. rewrite String.eqb_refl.
      rewrite <- repeats_spec in Hno. apply not_true_is_false in Hno. rewrite Hno.
      destruct (g uid); [congruence | reflexivity | reflexivity].
    + exfalso. apply Hsome. destruct Hk as [_ Hv]. specialize (Hv uid).
      rewrite Hg in Hv. symmetry in Hv. now apply fields_None in Hv.
Qed.

(** C3, as the code has it.  Take any run of the pipeline from its
    initial state: sessions started and stopped, audio, transcripts and
    timers in any order.  What is remembered of a participant is the
    normal form and the time of the utterance that was fired and processed
    last for the participant since the participant's session record was
    created; every start of the translation session creates the record
    anew.  A participant without a record has every utterance dropped.
    For a participant with a record, the record's two fields hold what is
    remembered, and an utterance fired for the participant is dropped
    silently (state unchanged, no call of the translator, no message, no
    call of the synthesizer) when its normal form equals the remembered
    one and less than 3 seconds have passed since the remembered time; an
    utterance of which this is not true has the translator called for it,
    once, and becomes the remembered one; so an utterance for which the
    translator is not called is a repeat in this sense. *)
Theorem duplicate_utterance_dropped (ops : list (Op (num := num))) o uid text now :
  let st := run create ops in
  let last := lastProcessed (logOf create ops) uid in
  (last = NoSession ->
     JsMap.get (activeSessions st) uid = None
     /\ processCompleteTranslation st o uid text now = (st, noEffects))
  /\ (last <> NoSession ->
        exists session,
          JsMap.get (activeSessions st) uid = Some session
          /\ fields last = Some (remembered session)
          /\ (repeatsRemembered last text now ->
                processCompleteTranslation st o uid text now = (st, noEffects))
          /\ (~ repeatsRemembered last text now ->
                mtCalls (snd (processCompleteTranslation st o uid text now))
                = [(text, userLanguage session, partnerLanguage session)]
                /\ option_map remembered
                     (JsMap.get (activeSessions
                                   (fst (processCompleteTranslation st o uid text now))) uid)
                   = Some (Some (normalize text), Some now))
          /\ (mtCalls (snd (processCompleteTranslation st o uid text now)) = [] ->
                repeatsRemembered last text now)).
Proof.
  intros st last.
  exact (agree_duplicate st (lastProcessed (logOf create ops)) o uid text now
           (reachable_agree ops)).
Qed.

(** *** The states of the server *)

(** Each socket handler changes the pipeline by the calls of [opsOf]. *)
Lemma step_ops (st : Server.t (num := num)) e :
  Server.streamingPipeline (Server.step st e) = run (Server.streamingPipeline st) (opsOf st e).
Proof.
  destruct e as [sock rl lang voice uuid oDoctor oPatient now | sock frame now
                | sock reason now | uid r o now | uid r o now | uid o now | uid];
    cbn [Server.step opsOf run fold_left apply]; try reflexivity.
  - unfold Server.joinSession.
    destruct (Server.isEmpty rl || Server.isEmpty lang || Server.isEmpty voice);
      [reflexivity|].
    destruct (SessionManager.addUser _ _ _ _ _) as [sm [session|msg]]; [|reflexivity].
    destruct (Server.slotUser sm (SessionManager.doctor session)) as [d|]; [|reflexivity].
    destruct (Server.slotUser sm (SessionManager.patient session)) as [p|]; [|reflexivity].
    destruct (SessionManager.socket d) as [ds|]; [|reflexivity].
    destruct (SessionManager.socket p) as [ps|]; [|reflexivity].
    cbn [run fold_left apply].
    destruct (startTranslationSession (Server.streamingPipeline st) _ _ _ _ _ _ _ _ _)
      as [p1 okDoctor].
    cbn [fst]. destruct (startTranslationSession p1 _ _ _ _ _ _ _ _ _) as [p2 okPatient].
    reflexivity.
  - unfold Server.streamingAudio.
    destruct (processAudioData _ _ _ _) as [[p effects] processed]. reflexivity.
  - unfold Server.disconnect.
    destruct (SessionManager.removeUser _ _ _) as [[sm out] removed]. reflexivity.
Qed.

Lemma server_run_agree events :
  forall (st : Server.t (num := num)) g,
    recordsAgree (Server.streamingPipeline st) g ->
    recordsAgree (Server.streamingPipeline (Server.run st events))
      (fun u => fold_left (note u) (serverLog st events) (g u)).
Proof.
  induction events as [|e rest IH]; intros st g Hk; [exact Hk|].
  cbn [Server.run fold_left serverLog].
  apply (recordsAgree_ext _ (fun u => fold_left (note u) (serverLog (Server.step st e) rest)
                                        (fold_left (note u)
                                           (logOf (Server.streamingPipeline st) (opsOf st e))
                                           (g u)))).
  - intros u. now rewrite fold_left_app.
  - apply (IH (Server.step st e)). rewrite step_ops. now apply run_agree.
Qed.

(** The same in every state the server reaches through its socket
    handlers, the recognizer's callbacks and the timers. *)
Lemma server_duplicate_utterance (events : list (Server.Event (num := num))) o uid text now :
  let st := Server.streamingPipeline (Server.run Server.create events) in
  let last := lastProcessed (serverLog Server.create events) uid in
  last <> NoSession ->
  exists session,
    JsMap.get (activeSessions st) uid = Some session
    /\ fields last = Some (remembered session)
    /\ (repeatsRemembered last text now ->
          processCompleteTranslation st o uid text now = (st, noEffects))
    /\ (~ repeatsRemembered last text now ->
          mtCalls (snd (processCompleteTranslation st o uid text now))
          = [(text, userLanguage session, partnerLanguage session)]).
Proof.
  intros st last Hsome.
  assert (Hk : recordsAgree st (lastProcessed (serverLog Server.create events))).
  { apply (server_run_agree events Server.create (fun _ => NoSession)).
    split; [constructor | reflexivity]. }
  destruct (proj2 (agree_duplicate st _ o uid text now Hk) Hsome)
    as (session & Hg & Hf & Hdrop & Hcall & _).
  exists session. split; [exact Hg|]. split; [exact Hf|]. split; [exact Hdrop|].
  intros Hno. apply Hcall. exact Hno.
Qed.

End WithNumber.

(** *** The statements at concrete inputs *)

Import Scenario.

(** A patient [u1] speaking English and a doctor [u2] speaking Turkish;
    a final transcript of each is fired and translated.  Then, for the
    patient: the same words with a capital and a question mark are dropped
    1.5 s later and translated 3 s later, and other words are translated
    at once; for the doctor: the same words in lower case with an
    exclamation mark are dropped. *)
Lemma duplicate_utterance_dropped_witness :
  let ops :=
    [Start plainStart "session-1" "u1" "en" "tr" "v_tr" (Some "u1") "patient" 1000;
     Start plainStart "session-1" "u2" "tr" "en" "v_en" (Some "u2") "doctor" 1000;
     Final "u1" (mkTranscript "hello, how are you" 0.92%float None) providers 2000;
     Final "u2" (mkTranscript "Şimdi iyi misiniz" 0.92%float None) providers 2500] in
  let st := run Pipeline.create ops in
  logOf Pipeline.create ops
  = [Started "u1"; Started "u2"; Fired "u1" "hello, how are you" 2000;
     Fired "u2" "Şimdi iyi misiniz" 2500]
  /\ lastProcessed (logOf Pipeline.create ops) "u1" = Last "hello, how are you" 2000
  /\ lastProcessed (logOf Pipeline.create ops) "u2" = Last "şimdi iyi misiniz" 2500
  /\ Pipeline.normalize "Hello, how are you?" = "hello, how are you"
  /\ Pipeline.normalize "şimdi iyi misiniz!" = "şimdi iyi misiniz"
  /\ processCompleteTranslation st providers "u1" "Hello, how are you?" 3500 = (st, noEffects)
  /\ processCompleteTranslation st providers "u2" "şimdi iyi misiniz!" 3500 = (st, noEffects)
  /\ mtCalls (snd (processCompleteTranslation st providers "u1" "Hello, how are you?" 5000))
     = [("Hello, how are you?", "en", "tr")]
  /\ mtCalls (snd (processCompleteTranslation st providers "u1" "how are you" 3500))
     = [("how are you", "en", "tr")].
Proof.
  intros ops st.
  assert (H1 : lastProcessed (logOf Pipeline.create ops) "u1" = Last "hello, how are you" 2000)
    by (vm_compute; reflexivity).
  assert (H2 : lastProcessed (logOf Pipeline.create ops) "u2" = Last "şimdi iyi misiniz" 2500)
    by (vm_compute; reflexivity).
  assert (N1 : lastProcessed (logOf Pipeline.create ops) "u1" <> NoSession)
    by (rewrite H1; discriminate).
  assert (N2 : lastProcessed (logOf Pipeline.create ops) "u2" <> NoSession)
    by (rewrite H2; discriminate).
  split; [vm_compute; reflexivity|]. split; [exact H1|]. split; [exact H2|].
  split; [vm_compute; reflexivity|]. split; [vm_compute; reflexivity|].
  split; [|split; [|split]].
  - destruct (proj2 (duplicate_utterance_dropped ops providers "u1" "Hello, how are you?" 3500)
                N1) as (session & _ & _ & Hdrop & _).
    apply Hdrop. rewrite H1. eexists. eexists. split; [reflexivity|].
    split; [vm_compute; reflexivity | vm_compute; reflexivity].
  - destruct (proj2 (duplicate_utterance_dropped ops providers "u2" "şimdi iyi misiniz!" 3500)
                N2) as (session & _ & _ & Hdrop & _).
    apply Hdrop. rewrite H2. eexists. eexists. split; [reflexivity|].
    split; [vm_compute; reflexivity | vm_compute; reflexivity].
  - destruct (proj2 (duplicate_utterance_dropped ops providers "u1" "Hello, how are you?" 5000)
                N1) as (session & Hg & _ & _ & Hcall & _).
    assert (Hs : userLanguage session = "en" /\ partnerLanguage session = "tr").
    { vm_compute in Hg. injection Hg as <-. split; reflexivity. }
    destruct Hs as [Hu Hp]. rewrite <- Hu, <- Hp. apply Hcall.
    rewrite H1. intros (n & t & [= <- <-] & _ & Ht). vm_compute in Ht. discriminate.
  - destruct (proj2 (duplicate_utterance_dropped ops providers "u1" "how are you" 3500)
                N1) as (session & Hg & _ & _ & Hcall & _).
    assert (Hs : userLanguage session = "en" /\ partnerLanguage session = "tr").
    { vm_compute in Hg. injection Hg as <-. split; reflexivity. }
    destruct Hs as [Hu Hp]. rewrite <- Hu, <- Hp. apply Hcall.
    rewrite H1. intros (n & t & [= <- <-] & Hn & _). vm_compute in Hn. discriminate.
Defined.

(** C3 as stated fails.  A doctor on socket [s1] and a patient on socket
    [s2] are paired; the patient's final transcript "hello, how are you"
    is fired and translated at 2500 ms.  At 3000 ms the doctor joins again
    on socket [s3]: the join handler starts the translation session of
    both participants, which creates the patient's session record anew.
    At 3500 ms the patient's final transcript "Hello, how are you?" is
    fired: its normal form is the one processed for the patient one second
    before, and it is translated again and sent to both sides.  Without
    the join in between it is dropped. *)
Lemma repeat_after_rejoin_is_translated :
  let first : Server.Event (num := float) :=
    Server.Final "s2" (mkTranscript "hello, how are you" 0.92%float None) providers 2500 in
  let rejoin : Server.Event (num := float) :=
    Server.Join "s3" "doctor" "tr" "v_tr" "session-3" plainStart plainStart 3000 in
  let again := mkTranscript "Hello, how are you?" 0.92%float None in
  let before := Server.run Server.create (consultation ++ [first]) in
  let after := Server.step before rejoin in
  serverLog Server.create (consultation ++ [first; rejoin])
  = [Started "s1"; Started "s2"; Fired "s2" "hello, how are you" 2500;
     Started "s3"; Started "s2"]
  /\ Pipeline.normalize "Hello, how are you?" = Pipeline.normalize "hello, how are you"
  /\ (3500 - 2500 < 3000)%Z
  /\ entries (Server.streamingPipeline after) (Final "s2" again providers 3500)
     = [Fired "s2" "Hello, how are you?" 3500]
  /\ mtCalls (snd (handleFinalTranscription (Server.streamingPipeline after) providers
                     "s2" again 3500))
     = [("Hello, how are you?", "en", "tr")]
  /\ In (mkEmit "s2" (live_translation "Hello, how are you?" "merhaba" "self"))
        (emits (snd (handleFinalTranscription (Server.streamingPipeline after) providers
                       "s2" again 3500)))
  /\ ttsCalls (snd (handleFinalTranscription (Server.streamingPipeline after) providers
                      "s2" again 3500))
     = [("s2", "merhaba")]
  /\ snd (handleFinalTranscription (Server.streamingPipeline before) providers "s2" again 3500)
     = mkEffects [] [] [] 0 [mkEmit "s2" (live_transcription "Hello, how are you?" false)].
Proof.
  cbv zeta. split; [vm_compute; reflexivity|]. split; [vm_compute; reflexivity|].
  split; [reflexivity|]. split; [vm_compute; reflexivity|].
  split; [vm_compute; reflexivity|].
  split; [vm_compute; right; left; reflexivity|].
  split; vm_compute; reflexivity.
Qed.

End PipelineRunFacts.


(** ** The processor: what it fires and what it keeps *)

Module GateRunFacts.
Section WithNumber.
Context {num : Type} `{Number num}.
Import Gate GateRuns JsMapFacts.
Implicit Types (st : Gate.t (num := num)) (uid text : string).

Lemma pushBounded_length {A} (l : list A) x n :
  length l <= n -> length (pushBounded l x n) <= n.
Proof.
  intros Hl. unfold pushBounded.
  destruct (n <? length (l ++ [x]))%nat eqn:E.
  - destruct l as [|y l]; cbn in *; [lia|]. rewrite length_app. cbn. lia.
  - apply Nat.ltb_ge in E. exact E.
Qed.

Lemma decision_text st uid text a isFinal now :
  d_text (shouldProcessProfessionally st uid text a isFinal now) = text.
Proof.
  unfold shouldProcessProfessionally.
  repeat match goal with
         | |- context [if ?b then _ else _] => destruct b
         end; reflexivity.
Qed.

Lemma longer_not_empty (s t : string) :
  (Js.length t <? Js.length s)%nat = true -> s <> EmptyString.
Proof.
  intros Hlt ->. change (Js.length EmptyString) with 0 in Hlt.
  apply Nat.ltb_lt in Hlt. lia.
Qed.

(** The combined text is the text itself or the longer sentence that was
    being built. *)
Lemma combine_not_blank st uid text :
  wellFormed st -> blank text = false -> blank (combineSentenceContext st uid text) = false.
Proof.
  intros [Hc _] Ht. unfold combineSentenceContext.
  destruct (JsMap.get (userConversations st) uid) as [c|] eqn:E; [|exact Ht].
  destruct (Js.length text <? Js.length (currentSentence c))%nat eqn:Hlen;
    cbn [andb]; [|exact Ht].
  destruct (Js.includes _ _); [|exact Ht].
  destruct (Hc uid c E) as [[Hempty|Hs] _]; [|exact Hs].
  now apply longer_not_empty in Hlen.
Qed.

Lemma conversationOk_learn (c : Conversation (num := num)) text confidence a now :
  conversationOk c -> conversationOk (learn c text confidence a now).
Proof.
  intros (Hs & Hh & Hp). repeat split; cbn.
  - exact Hs.
  - now apply pushBounded_length.
  - now apply pushBounded_length.
Qed.

Lemma wellFormed_set_conversation st uid c :
  wellFormed st -> conversationOk c ->
  wellFormed (with_conversations st (JsMap.set (userConversations st) uid c)).
Proof.
  intros [Hc Hp] Hok. split; [|exact Hp].
  intros uid' c'. cbn [userConversations with_conversations]. rewrite get_set.
  destruct (String.eqb uid uid'); [intros [= <-]; exact Hok | apply Hc].
Qed.

Lemma wellFormed_clearPending st uid :
  wellFormed st -> wellFormed (clearPendingProcessing st uid).
Proof.
  intros [Hc Hp]. unfold clearPendingProcessing.
  destruct (JsMap.get (activeProcessing st) uid); [|now split].
  split; [exact Hc|]. intros uid' pe Hg. cbn [activeProcessing with_processing] in Hg.
  apply get_delete_Some in Hg. now apply (Hp uid').
Qed.

Lemma processImmediately_wellFormed st uid text confidence a now :
  wellFormed st -> blank text = false ->
  wellFormed (fst (processImmediatelyProfessional st uid text confidence a now))
  /\ forall r, In r (snd (processImmediatelyProfessional st uid text confidence a now)) ->
               rd_userId r = uid /\ blank (rd_text r) = false.
Proof.
  intros Hst Ht. unfold processImmediatelyProfessional.
  pose proof (combine_not_blank st uid text Hst Ht) as Hfinal.
  set (finalText := combineSentenceContext st uid text) in *.
  destruct (isDuplicate st uid finalText now); [split; [exact Hst | intros r []]|].
  set (st2 := updateProfessionalLearning (markAsProcessed st uid finalText now)
                uid finalText confidence a now).
  assert (H2 : wellFormed st2).
  { subst st2. unfold updateProfessionalLearning, markAsProcessed.
    cbn [userConversations with_recent].
    destruct (JsMap.get (userConversations st) uid) as [c|] eqn:Hc; [|exact Hst].
    apply (wellFormed_set_conversation (with_recent st _) uid); [exact Hst|].
    apply conversationOk_learn. now apply (proj1 Hst uid). }
  clearbody st2.
  destruct (JsMap.get (userConversations st2) uid) as [c|] eqn:Hc;
    [|split; [exact H2 | intros r []]].
  cbn [fst snd]. split.
  - apply wellFormed_clearPending, wellFormed_set_conversation; [exact H2|].
    destruct (proj1 H2 uid c Hc) as (_ & Hh & Hp). repeat split; cbn; auto.
  - intros r [<-|[]]. split; [reflexivity | exact Hfinal].
Qed.

Lemma stepOut_wellFormed st e :
  wellFormed st ->
  wellFormed (fst (stepOut st e))
  /\ forall r, In r (snd (stepOut st e)) -> blank (rd_text r) = false.
Proof.
  intros Hst. destruct e as [uid lang rl now|uid data now|uid now|uid]; cbn [stepOut].
  - split; [|intros r []]. cbn [fst].
    apply wellFormed_set_conversation; [exact Hst|].
    repeat split; cbn; auto with arith.
  - unfold processProfessionalTranscription.
    destruct (String.length (Js.trim (t_text data)) =? 0)%nat eqn:Hblank;
      [split; [exact Hst | intros r []]|].
    destruct (JsMap.get (userConversations st) uid) as [c|] eqn:Hc;
      [|split; [exact Hst | intros r []]].
    set (c1 := set_lastProcessingTime c (t_timestamp data)).
    set (st1 := with_conversations st (JsMap.set (userConversations st) uid c1)).
    assert (H1 : wellFormed st1).
    { apply wellFormed_set_conversation; [exact Hst|]. exact (proj1 Hst uid c Hc). }
    rewrite decision_text.
    destruct (immediate _).
    + destruct (processImmediately_wellFormed st1 uid (t_text data) (t_confidence data)
                  (analyzeProfessionalSpeech (config st1) (t_text data) (t_confidence data) c1)
                  now H1 Hblank) as [Hw Hr].
      split; [exact Hw | intros r Hin; exact (proj2 (Hr r Hin))].
    + destruct (queue _); cbn [fst snd]; (split; [|intros r []]).
      * unfold queueForProfessionalProcessing.
        pose proof (wellFormed_clearPending st1 uid H1) as Hcl.
        destruct (match useShortTimeout _ with true => _ | false => _ end) as [w|];
          [|exact Hcl].
        destruct Hcl as [Hcc Hcp]. split; [exact Hcc|].
        intros uid' pe. cbn [activeProcessing with_processing]. rewrite get_set.
        destruct (String.eqb uid uid'); [intros [= <-]; exact Hblank | apply Hcp].
      * unfold updateCurrentSentence.
        destruct (JsMap.get (userConversations st1) uid) as [c2|] eqn:Hc2; [|exact H1].
        destruct (_ || _); [|exact H1].
        apply wellFormed_set_conversation; [exact H1|].
        destruct (proj1 H1 uid c2 Hc2) as (_ & Hh & Hp).
        repeat split; cbn; auto.
  - unfold timerFires.
    destruct (JsMap.get (activeProcessing st) uid) as [pe|] eqn:Hpe;
      [|split; [exact Hst | intros r []]].
    destruct (pe_timerLive pe); [|split; [exact Hst | intros r []]].
    set (fired := mkPending _ _ _ _ _ _ false).
    set (st1 := with_processing st (JsMap.set (activeProcessing st) uid fired)).
    assert (H1 : wellFormed st1).
    { split; [exact (proj1 Hst)|]. intros uid' pe'.
      cbn [activeProcessing with_processing st1]. rewrite get_set.
      destruct (String.eqb uid uid'); [intros [= <-]; exact (proj2 Hst uid pe Hpe)|].
      apply (proj2 Hst). }
    pose proof (combine_not_blank st1 uid (pe_text pe) H1 (proj2 Hst uid pe Hpe)) as Hfinal.
    destruct (processImmediately_wellFormed st1 uid (combineSentenceContext st1 uid (pe_text pe))
                (pe_confidence pe) (pe_analysis pe) now H1 Hfinal) as [Hw Hr].
    split; [exact Hw | intros r Hin; exact (proj2 (Hr r Hin))].
  - split; [|intros r []]. cbn [fst].
    unfold removeProfessionalConversation.
    destruct (wellFormed_clearPending st uid Hst) as [Hc Hp].
    split; [|exact Hp].
    intros uid' c Hg. cbn [userConversations] in Hg. apply get_delete_Some in Hg.
    now apply (Hc uid').
Qed.

Lemma runOut_wellFormed events :
  forall st, wellFormed st ->
             wellFormed (fst (runOut st events))
             /\ forall r, In r (snd (runOut st events)) -> blank (rd_text r) = false.
Proof.
  induction events as [|e rest IH]; intros st Hst; [split; [exact Hst | intros r []]|].
  cbn [runOut]. destruct (stepOut_wellFormed st e Hst) as [H1 Hout1].
  destruct (stepOut st e) as [st1 out1]. cbn [fst snd] in *.
  destruct (IH st1 H1) as [H2 Hout2].
  destruct (runOut st1 rest) as [st2 out2]. cbn [fst snd] in *.
  split; [exact H2|]. intros r Hin. apply in_app_iff in Hin as [Hin|Hin]; auto.
Qed.

Lemma create_wellFormed cfg : wellFormed (create (num := num) cfg).
Proof. split; intros uid x Hg; discriminate Hg. Qed.

Lemma runOut_fst events : forall st, fst (runOut st events) = run st events.
Proof.
  induction events as [|e rest IH]; intros st; [reflexivity|].
  cbn [runOut run fold_left]. specialize (IH (fst (stepOut st e))).
  assert (Hs : fst (stepOut st e) = step st e) by (destruct e; reflexivity).
  destruct (stepOut st e) as [st1 out1]. cbn [fst] in *.
  destruct (runOut st1 rest) as [st2 out2]. cbn [fst] in *. now rewrite IH, Hs.
Qed.


(** X2.  In every state the processor reaches, the confidence window of
    a conversation holds at most 10 values and its window of sentence
    patterns at most 20. *)
Theorem learning_windows_are_bounded cfg events uid c :
  JsMap.get (userConversations (run (create cfg) events)) uid = Some c ->
  length (confidenceHistory c) <= 10 /\ length (sentencePatterns c) <= 20.
Proof.
  intros Hg. rewrite <- runOut_fst in Hg.
  destruct (runOut_wellFormed events _ (create_wellFormed cfg)) as [[Hc _] _].
  exact (proj2 (Hc uid c Hg)).
Qed.

(** *** Timers and repetitions *)

(** After [processImmediatelyProfessional] the user's pending entry is
    gone or the map of pending entries is as it was. *)
Lemma processImmediately_pending st uid text confidence a now :
  let st' := fst (processImmediatelyProfessional st uid text confidence a now) in
  JsMap.get (activeProcessing st') uid = None \/ activeProcessing st' = activeProcessing st.
Proof.
  unfold processImmediatelyProfessional.
  destruct (isDuplicate st uid _ now); [now right|].
  set (st2 := updateProfessionalLearning _ uid _ confidence a now).
  assert (H2 : activeProcessing st2 = activeProcessing st).
  { subst st2. unfold updateProfessionalLearning, markAsProcessed.
    cbn [userConversations with_recent].
    destruct (JsMap.get (userConversations st) uid); reflexivity. }
  clearbody st2.
  destruct (JsMap.get (userConversations st2) uid) as [c|]; [|now right].
  cbn [fst]. unfold clearPendingProcessing. cbn [activeProcessing with_conversations].
  destruct (JsMap.get (activeProcessing st2) uid) eqn:E.
  - left. cbn [activeProcessing with_processing with_conversations]. apply get_delete_eq.
  - left. exact E.
Qed.

(** The timer of an entry is taken to expire once: a second expiry emits
    nothing and changes nothing. *)
Lemma timer_expires_once st uid now now' :
  timerFires (fst (timerFires st uid now)) uid now' = (fst (timerFires st uid now), []).
Proof.
  unfold timerFires at 2 3.
  destruct (JsMap.get (activeProcessing st) uid) as [pe|] eqn:Hpe.
  - destruct (pe_timerLive pe) eqn:Hlive.
    + set (fired := mkPending _ _ _ _ _ _ false).
      set (st1 := with_processing st (JsMap.set (activeProcessing st) uid fired)).
      destruct (processImmediately_pending st1 uid (combineSentenceContext st1 uid (pe_text pe))
                  (pe_confidence pe) (pe_analysis pe) now) as [Hnone|Hsame].
      * unfold timerFires. now rewrite Hnone.
      * unfold timerFires. rewrite Hsame. cbn [activeProcessing with_processing st1].
        now rewrite get_set_eq.
    + cbn [fst]. unfold timerFires. now rewrite Hpe, Hlive.
  - cbn [fst]. unfold timerFires. now rewrite Hpe.
Qed.




(** X4.  When the conversation of a user has been removed, its
    transcripts and its timer do nothing: nothing is fired and the state
    stays as it is. *)
Theorem removed_conversation_is_silent st uid :
  let st' := removeProfessionalConversation st uid in
  (forall data now, processProfessionalTranscription st' uid data now = (st', []))
  /\ (forall now, timerFires st' uid now = (st', [])).
Proof.
  cbv zeta. split.
  - intros data now. unfold processProfessionalTranscription.
    destruct (String.length (Js.trim (t_text data)) =? 0)%nat; [reflexivity|].
    unfold removeProfessionalConversation at 1. cbn [userConversations].
    now rewrite get_delete_eq.
  - intros now. unfold timerFires.
    assert (Hnone : JsMap.get (activeProcessing (removeProfessionalConversation st uid)) uid
                    = None).
    { unfold removeProfessionalConversation, clearPendingProcessing.
      cbn [activeProcessing].
      destruct (JsMap.get (activeProcessing st) uid) eqn:E;
        cbn [activeProcessing with_processing]; [apply get_delete_eq | exact E]. }
    now rewrite Hnone.
Qed.

End WithNumber.


(** *** The statements at concrete inputs *)

Import Gate GateRuns Scenario.


Lemma learning_windows_are_bounded_witness :
  let events := [Initialize "u1" "en" "patient" 0;
                 Transcription "u1" (mkData "hello, how are you" 0.92%float true 100) 100] in
  exists c, JsMap.get (userConversations (run (create defaultConfig) events)) "u1" = Some c
            /\ length (confidenceHistory c) <= 10 /\ length (sentencePatterns c) <= 20.
Proof.
  intros events. eexists. split; [vm_compute; reflexivity|].
  refine (learning_windows_are_bounded defaultConfig events "u1" _ _).
  vm_compute. reflexivity.
Defined.


End GateRunFacts.
